(** * MoonTV: the TMDB adaptation layer

    A shallow embedding of the TMDB helper library ([tmdb.utils]) and of the
    four route handlers that translate tag / category browse requests into
    calls against the TMDB API and reshape the answer into [DoubanItem]s.

    Conventions of the embedding.
    - A JavaScript string is a Rocq [string] holding its UTF-8 bytes.  Every
      operation the code applies to strings (comparison with [===], splitting
      at a hyphen, searching ASCII digits or an ASCII needle) gives the same
      answer on UTF-8 bytes as on UTF-16 code units, because the bytes of a
      multi-byte character are all above 127.
    - A JavaScript number that the handlers compute with is a double whose
      value is an integer, [NaN] or an infinity: the type [Js.num], where
      [Js.Int z] is the double of value [z].  Parsing, division and addition
      round to the nearest double, the even one on a tie ([Js.to_double],
      [Js.floor_div], [Js.add]), and a number is printed with the fewest
      digits that read back as the same double ([Js.num_to_string]).  Up to
      2^53 every integer is a double and all of this is exact.
    - A rating ([vote_average]) is the exact rational value of the double.  An
      identifier ([id]) is the integer that the JSON text writes, read as the
      nearest double.
    - A handler is a function of the process environment (the API key, the
      upstream service as an oracle from request to outcome, the clock) and of
      the decoded query parameters; it returns the response together with the
      list of outbound calls it made. *)

From Stdlib Require Import QArith Qabs Qround ZArith String Ascii List Bool Lia DecimalString.
From Stdlib Require Import Permutation.
Import ListNotations.
Local Open Scope string_scope.
Local Open Scope Z_scope.

(** ** The JavaScript primitives the code relies on *)

Module Js.

(** *** Strings *)

(** [!s] for a string: only the empty string is falsy. *)
Definition str_truthy (s : string) : bool := negb (String.eqb s EmptyString).

(** [!x] for [string | null]. *)
Definition truthy (x : option string) : bool :=
  match x with
  | Some s => str_truthy s
  | None => false
  end.

(** [x || d] for [string | null] and a string default. *)
Definition or_else (x : option string) (d : string) : string :=
  match x with
  | Some s => if str_truthy s then s else d
  | None => d
  end.

(** [x || y] for two values of [string | undefined]. *)
Definition or_undefined (x y : option string) : option string :=
  if truthy x then x else y.

(** [s.includes(sub)] *)
Fixpoint includes (s sub : string) : bool :=
  String.prefix sub s
  || match s with
     | EmptyString => false
     | String _ rest => includes rest sub
     end.

(** [s.split(sep)] for a one-character separator. *)
Fixpoint split (sep : ascii) (s : string) : list string :=
  match s with
  | EmptyString => [EmptyString]
  | String c rest =>
      if Ascii.eqb c sep then EmptyString :: split sep rest
      else match split sep rest with
           | seg :: segs => String c seg :: segs
           | [] => [String c EmptyString]
           end
  end.

Definition is_digit (c : ascii) : bool :=
  let n := Z.of_N (N_of_ascii c) in (48 <=? n) && (n <=? 57).

(** [s.match(/(\d{4})/)]: the capture of the leftmost run of four digits. *)
Fixpoint match_d4 (s : string) : option string :=
  match s with
  | EmptyString => None
  | String a rest =>
      match rest with
      | String b (String c (String d _)) =>
          if is_digit a && is_digit b && is_digit c && is_digit d
          then Some (String a (String b (String c (String d EmptyString))))
          else match_d4 rest
      | _ => None
      end
  end.

Fixpoint join (sep : string) (l : list string) : string :=
  match l with
  | [] => EmptyString
  | [x] => x
  | x :: rest => x ++ sep ++ join sep rest
  end.

(** *** Numbers *)

Inductive num : Type :=
| NaN
| Inf (negative : bool)
| Int (z : Z).

(** The digits of an integer, with a minus sign when it is negative. *)
Definition decimal (z : Z) : string := NilZero.string_of_int (Z.to_int z).

(** [Number.MAX_SAFE_INTEGER] *)
Definition MAX_SAFE_INTEGER : Z := 2 ^ 53 - 1.

(** The integer nearest to [n / d] for a positive [d], the even one on a tie. *)
Definition round_half_even (n d : Z) : Z :=
  let q := n / d in
  let r := n mod d in
  if 2 * r <? d then q
  else if d <? 2 * r then q + 1
  else if Z.even q then q else q + 1.

(** For positive [n] and [d], the [e] with [2^e <= n / d < 2^(e+1)]. *)
Definition exponent (n d : Z) : Z :=
  let e := Z.log2 n - Z.log2 d in
  if (if 0 <=? e then n <? d * 2 ^ e else n * 2 ^ (- e) <? d) then e - 1 else e.

(** The double nearest to the positive rational [n / d], as a significand
    [m] and a scale [s], of value [m * 2^s]: 53 bits, fewer below 2^-1022. *)
Definition nearest_double (n d : Z) : Z * Z :=
  let s := Z.max (exponent n d) (-1022) - 52 in
  (if 0 <=? s then round_half_even n (d * 2 ^ s) else round_half_even (n * 2 ^ (- s)) d, s).

(** The number that an integer denotes: itself up to 2^53, then the nearest
    double, and an infinity from 2^1024 - 2^970. *)
Definition to_double (z : Z) : num :=
  if Z.abs z <=? 2 ^ 53 then Int z
  else
    let '(m, s) := nearest_double (Z.abs z) 1 in
    if 2 ^ 1024 <=? m * 2 ^ s then Inf (z <? 0) else Int (Z.sgn z * (m * 2 ^ s)).

(** The integer [v] denotes the double of value [z]. *)
Definition reads_as (v z : Z) : bool :=
  match to_double v with
  | Int w => w =? z
  | _ => false
  end.

Fixpoint digits_from (fuel : nat) (z : Z) : Z :=
  match fuel with
  | O => 1
  | S fuel' => if z <? 10 then 1 else 1 + digits_from fuel' (z / 10)
  end.

(** The number of digits of a positive integer below 10^400. *)
Definition digits (z : Z) : Z := digits_from 400 z.

(** The integer with the fewest significant digits, [k] or more, that
    denotes the double of value [z], the nearest one to [z] among those;
    seventeen digits always do. *)
Fixpoint shortest_from (fuel : nat) (k z : Z) : Z :=
  match fuel with
  | O => z
  | S fuel' =>
      if digits z <=? k then z
      else
        let p := 10 ^ (digits z - k) in
        let v := round_half_even z p * p in
        if reads_as v z then v else shortest_from fuel' (k + 1) z
  end.

Definition shortest (z : Z) : Z := shortest_from 17 1 z.

Fixpoint strip_zeros (fuel : nat) (z : Z) : Z :=
  match fuel with
  | O => z
  | S fuel' => if z mod 10 =? 0 then strip_zeros fuel' (z / 10) else z
  end.

(** [Number::toString] for a positive double of integer value: the digits
    of [shortest], in full below 10^21 and with an exponent from there. *)
Definition positive_to_string (z : Z) : string :=
  let v := shortest z in
  if v <? 10 ^ 21 then decimal v
  else
    let e := "e+" ++ decimal (digits v - 1) in
    match decimal (strip_zeros 400 v) with
    | String c EmptyString => String c e
    | String c rest => String c ("." ++ rest ++ e)
    | EmptyString => EmptyString
    end.

(** [String(n)], [n.toString()] and template interpolation of a number. *)
Definition num_to_string (n : num) : string :=
  match n with
  | NaN => "NaN"
  | Inf false => "Infinity"
  | Inf true => "-Infinity"
  | Int z => if z <? 0 then "-" ++ positive_to_string (- z) else positive_to_string z
  end.

(** [a < b]; every comparison with [NaN] is false. *)
Definition lt (a b : num) : bool :=
  match a, b with
  | Int x, Int y => x <? y
  | Int _, Inf false => true
  | Inf true, Int _ => true
  | Inf true, Inf false => true
  | _, _ => false
  end.

Definition gt (a b : num) : bool := lt b a.

(** [Math.floor(a / b)]: the quotient is rounded to the nearest double
    before the floor is taken. *)
Definition floor_div (a b : num) : num :=
  match a, b with
  | Int x, Int y =>
      if y =? 0 then
        (if x =? 0 then NaN else Inf (x <? 0))
      else if x =? 0 then Int 0
      else
        let '(m, s) := nearest_double (Z.abs x) (Z.abs y) in
        let negative := xorb (x <? 0) (y <? 0) in
        if 0 <=? s then
          (if 2 ^ 1024 <=? m * 2 ^ s then Inf negative
           else Int (if negative then - (m * 2 ^ s) else m * 2 ^ s))
        else
          Int (if negative then - ((m + 2 ^ (- s) - 1) / 2 ^ (- s)) else m / 2 ^ (- s))
  | Int _, Inf _ => Int 0
  | Inf s, Int y => if y =? 0 then Inf s else Inf (xorb s (y <? 0))
  | _, _ => NaN
  end.

(** [a + b] *)
Definition add (a b : num) : num :=
  match a, b with
  | Int x, Int y => to_double (x + y)
  | Inf s, Int _ => Inf s
  | Int _, Inf s => Inf s
  | Inf s, Inf t => if Bool.eqb s t then Inf s else NaN
  | _, _ => NaN
  end.

(** White space that [parseInt] skips: the ASCII controls and space, and
    the UTF-8 encodings of U+00A0, U+1680, U+2000 to U+200A, U+2028, U+2029,
    U+202F, U+205F, U+3000 and U+FEFF. *)
Definition ws1 (c : ascii) : bool :=
  let n := Z.of_N (N_of_ascii c) in
  ((9 <=? n) && (n <=? 13)) || (n =? 32).

Definition ws2 (c1 c2 : ascii) : bool :=
  (Z.of_N (N_of_ascii c1) =? 194) && (Z.of_N (N_of_ascii c2) =? 160).

Definition ws3 (c1 c2 c3 : ascii) : bool :=
  let a := Z.of_N (N_of_ascii c1) in
  let b := Z.of_N (N_of_ascii c2) in
  let c := Z.of_N (N_of_ascii c3) in
  ((a =? 225) && (b =? 154) && (c =? 128))
  || ((a =? 226) && (b =? 128)
      && (((128 <=? c) && (c <=? 138)) || (c =? 168) || (c =? 169) || (c =? 175)))
  || ((a =? 226) && (b =? 129) && (c =? 159))
  || ((a =? 227) && (b =? 128) && (c =? 128))
  || ((a =? 239) && (b =? 187) && (c =? 191)).

Fixpoint trimStart (s : string) : string :=
  match s with
  | EmptyString => s
  | String c1 s1 =>
      if ws1 c1 then trimStart s1
      else match s1 with
           | EmptyString => s
           | String c2 s2 =>
               if ws2 c1 c2 then trimStart s2
               else match s2 with
                    | EmptyString => s
                    | String c3 s3 => if ws3 c1 c2 c3 then trimStart s3 else s
                    end
           end
  end.

Definition digit_value (radix : Z) (c : ascii) : option Z :=
  let n := Z.of_N (N_of_ascii c) in
  let v :=
    if (48 <=? n) && (n <=? 57) then Some (n - 48)
    else if (97 <=? n) && (n <=? 122) then Some (n - 87)
    else if (65 <=? n) && (n <=? 90) then Some (n - 55)
    else None in
  match v with
  | Some d => if d <? radix then Some d else None
  | None => None
  end.

(** The value of the longest prefix of digits; [acc] is [None] until a
    digit has been read. *)
Fixpoint parse_digits (radix : Z) (s : string) (acc : option Z) : option Z :=
  match s with
  | EmptyString => acc
  | String c rest =>
      match digit_value radix c with
      | Some d =>
          parse_digits radix rest
            (Some (radix * match acc with Some a => a | None => 0 end + d))
      | None => acc
      end
  end.

(** [parseInt(input)] with no radix argument.  The digits are read exactly
    and the value is rounded once, to the nearest double; the language lets an
    implementation round the digits after the twentieth first. *)
Definition parseInt (input : string) : num :=
  let s := trimStart input in
  let '(negative, s) :=
    match s with
    | String "-" r => (true, r)
    | String "+" r => (false, r)
    | _ => (false, s)
    end in
  let '(radix, s) :=
    match s with
    | String "0" (String "x" r) => (16, r)
    | String "0" (String "X" r) => (16, r)
    | _ => (10, s)
    end in
  match parse_digits radix s None with
  | None => NaN
  | Some m => to_double (if negative then - m else m)
  end.

(** [x.toFixed(1)] for a finite [x] of magnitude below 10^21: the integer
    [n] nearest to ten times the magnitude (the larger one on a tie),
    printed with one digit after the point. *)
Definition toFixed1 (x : Q) : string :=
  let sign := if Qle_bool 0 x then EmptyString else "-" in
  let n := Qfloor (Qabs x * (10 # 1) + (1 # 2)) in
  sign ++ decimal (n / 10) ++ "." ++ decimal (n mod 10).

(** *** Objects used as records of parameters *)

Inductive value : Type :=
| VStr (s : string)
| VNum (n : num)
| VBool (b : bool).

(** [String(v)] *)
Definition to_string (v : value) : string :=
  match v with
  | VStr s => s
  | VNum n => num_to_string n
  | VBool true => "true"
  | VBool false => "false"
  end.

(** An object keeps its keys in insertion order, which is the order in
    which [Object.entries] lists them and so the order of the query string;
    hence an association list. *)
Definition object : Type := list (string * value).

Fixpoint obj_get (o : object) (k : string) : option value :=
  match o with
  | [] => None
  | (k', v) :: rest => if String.eqb k' k then Some v else obj_get rest k
  end.

(** [o[k] = v]: an existing key keeps its place. *)
Fixpoint obj_set (o : object) (k : string) (v : value) : object :=
  match o with
  | [] => [(k, v)]
  | (k', v') :: rest =>
      if String.eqb k' k then (k', v) :: rest else (k', v') :: obj_set rest k v
  end.

(** [{ ...a, ...b }] *)
Definition spread (a b : object) : object :=
  fold_left (fun acc kv => obj_set acc (fst kv) (snd kv)) b a.

(** *** URLs *)

Definition hex_digit (n : Z) : ascii :=
  ascii_of_N (Z.to_N (if n <? 10 then 48 + n else 55 + n)).

Definition percent (c : ascii) : string :=
  let n := Z.of_N (N_of_ascii c) in
  String "%" (String (hex_digit (n / 16)) (String (hex_digit (n mod 16)) EmptyString)).

Definition is_alnum (c : ascii) : bool :=
  let n := Z.of_N (N_of_ascii c) in
  ((48 <=? n) && (n <=? 57)) || ((65 <=? n) && (n <=? 90)) || ((97 <=? n) && (n <=? 122)).

Definition one_of (chars : string) (c : ascii) : bool :=
  existsb (Ascii.eqb c) (list_ascii_of_string chars).

(** [encodeURIComponent(s)] *)
Fixpoint encodeURIComponent (s : string) : string :=
  match s with
  | EmptyString => EmptyString
  | String c rest =>
      (if is_alnum c || one_of "-_.!~*'()" c then String c EmptyString else percent c)
      ++ encodeURIComponent rest
  end.

(** The [application/x-www-form-urlencoded] serialiser of [URLSearchParams]. *)
Fixpoint form_encode (s : string) : string :=
  match s with
  | EmptyString => EmptyString
  | String c rest =>
      (if Ascii.eqb c " " then "+"
       else if is_alnum c || one_of "*-._" c then String c EmptyString
       else percent c)
      ++ form_encode rest
  end.

(** A [URL] whose address has no query of its own, with its [searchParams]. *)
Record URL : Type := mkURL {
  address : string;
  searchParams : list (string * string)
}.

(** [params.get(name)]: the first value under [name], or [null]. *)
Fixpoint params_get (ps : list (string * string)) (name : string) : option string :=
  match ps with
  | [] => None
  | (k, v) :: rest => if String.eqb k name then Some v else params_get rest name
  end.

(** [params.set(name, v)]: the first pair under [name] takes the value and
    the later ones go; a new name is appended. *)
Fixpoint params_set (ps : list (string * string)) (name v : string)
  : list (string * string) :=
  match ps with
  | [] => [(name, v)]
  | (k, v') :: rest =>
      if String.eqb k name
      then (k, v) :: filter (fun kv => negb (String.eqb (fst kv) name)) rest
      else (k, v') :: params_set rest name v
  end.

Definition url_set (u : URL) (name v : string) : URL :=
  mkURL (address u) (params_set (searchParams u) name v).

(** [url.toString()] *)
Definition url_to_string (u : URL) : string :=
  match searchParams u with
  | [] => address u
  | ps =>
      address u ++ "?"
      ++ join "&" (map (fun kv => form_encode (fst kv) ++ "=" ++ form_encode (snd kv)) ps)
  end.

(** [keys.sort()] with the default comparison, which orders strings by
    their code units; on UTF-8 bytes this is the order of the code points,
    the same order for every name made of characters below U+E000 or of
    characters past U+FFFF only.  Equal strings are the same string, so the
    stability of the sort cannot show. *)
Fixpoint insert_sorted (x : string) (l : list string) : list string :=
  match l with
  | [] => [x]
  | y :: rest => if String.leb x y then x :: y :: rest else y :: insert_sorted x rest
  end.

Definition sort (l : list string) : list string := fold_right insert_sorted [] l.

End Js.

(** ** Data model *)

(** A result object of the upstream answer, seen through the fields that the
    interfaces [TMDBMovie] and [TMDBSeries] declare and the converters read.
    A handler casts an object to one of the two interfaces without a check, so
    one record carries the fields of both: a movie has no [name] and a series
    no [title].  [None] stands for a field that the JSON omits or sets to
    [null].  The identifier is the integer that the JSON writes. *)
Record TMDBItem : Type := mkTMDBItem {
  tmdb_id : Z;
  tmdb_title : option string;
  tmdb_original_title : option string;
  tmdb_name : option string;
  tmdb_original_name : option string;
  poster_path : option string;
  vote_average : option Q;
  release_date : option string;
  first_air_date : option string
}.

(** The [title] is [None] when the converter leaves it [undefined], and the
    JSON of the answer then omits it. *)
Record DoubanItem : Type := mkDoubanItem {
  id : string;
  title : option string;
  poster : string;
  rate : string;
  year : string
}.

Record DoubanResult : Type := mkDoubanResult {
  code : Z;
  message : string;
  list_ : list DoubanItem
}.

Record SearchStrategy : Type := mkStrategy {
  endpoint : string;
  params : Js.object
}.

(** What a [catch] clause receives: an [Error] with its name and message, or
    any other thrown value. *)
Inductive thrown : Type :=
| Error (name msg : string)
| NonError.

(** ** The helper library (tmdb.utils) *)

Module TmdbUtils.

Definition TMDB_BASE_URL : string := "https://api.themoviedb.org/3".

(** The [URL] object that [buildTMDBUrl] fills in.  Every value of a
    parameter object is a string, a number or a boolean, so the test
    against [undefined] and [null] keeps every entry.  The endpoint is a
    plain path (letters, digits, [/], [_] and [-]), as every endpoint of the
    code is: the URL parser then keeps the text as it is and finds no query
    in it.  Other endpoints are outside the model. *)
Definition buildTMDBUrl_object (endpoint apiKey : string) (params : Js.object) : Js.URL :=
  let url := Js.mkURL (TMDB_BASE_URL ++ endpoint) [] in
  let url := Js.url_set url "api_key" apiKey in
  let url := Js.url_set url "language" "zh-CN" in
  let url := Js.url_set url "region" "CN" in
  fold_left (fun u kv => Js.url_set u (fst kv) (Js.to_string (snd kv))) params url.

Definition buildTMDBUrl (endpoint apiKey : string) (params : Js.object) : string :=
  Js.url_to_string (buildTMDBUrl_object endpoint apiKey params).

Definition baseParams : Js.object :=
  [("include_adult", Js.VBool false); ("include_video", Js.VBool false)].

(** The two literals that recur in the resolver: [baseParams] spread, then
    an origin country or a genre, then the popularity order. *)
Definition by_country (country : string) : Js.object :=
  Js.obj_set (Js.obj_set baseParams "with_origin_country" (Js.VStr country))
    "sort_by" (Js.VStr "popularity.desc").

Definition by_genre (genre : string) : Js.object :=
  Js.obj_set (Js.obj_set baseParams "with_genres" (Js.VStr genre))
    "sort_by" (Js.VStr "popularity.desc").

Definition getSearchStrategy (tag type : string) : SearchStrategy :=
  if String.eqb type "movie" then
    if String.eqb tag "热门" then mkStrategy "/movie/popular" baseParams
    else if String.eqb tag "最新" then mkStrategy "/movie/now_playing" baseParams
    else if String.eqb tag "即将上映" then mkStrategy "/movie/upcoming" baseParams
    else if String.eqb tag "高分" || String.eqb tag "豆瓣高分"
    then mkStrategy "/movie/top_rated" baseParams
    else if String.eqb tag "华语" then mkStrategy "/discover/movie" (by_country "CN")
    else if String.eqb tag "欧美" then mkStrategy "/discover/movie" (by_country "US")
    else if String.eqb tag "韩国" then mkStrategy "/discover/movie" (by_country "KR")
    else if String.eqb tag "日本" then mkStrategy "/discover/movie" (by_country "JP")
    else if String.eqb tag "动漫" then mkStrategy "/discover/movie" (by_genre "16")
    else if String.eqb tag "纪录片" then mkStrategy "/discover/movie" (by_genre "99")
    else if String.eqb tag "冷门佳片" then
      mkStrategy "/discover/movie"
        (Js.obj_set (Js.obj_set baseParams "sort_by" (Js.VStr "vote_average.desc"))
           "vote_count.gte" (Js.VNum (Js.Int 100)))
    else mkStrategy "/search/movie" (Js.obj_set baseParams "query" (Js.VStr tag))
  else if String.eqb type "tv" then
    if String.eqb tag "热门" then mkStrategy "/tv/popular" baseParams
    else if String.eqb tag "华语" then mkStrategy "/discover/tv" (by_country "CN")
    else if String.eqb tag "欧美" then mkStrategy "/discover/tv" (by_country "US")
    else if String.eqb tag "韩国" then mkStrategy "/discover/tv" (by_country "KR")
    else if String.eqb tag "日本" then mkStrategy "/discover/tv" (by_country "JP")
    else if String.eqb tag "动漫" then mkStrategy "/discover/tv" (by_genre "16")
    else if String.eqb tag "纪录片" then mkStrategy "/discover/tv" (by_genre "99")
    else if String.eqb tag "综艺" then mkStrategy "/discover/tv" (by_genre "10764")
    else mkStrategy "/search/tv" (Js.obj_set baseParams "query" (Js.VStr tag))
  else mkStrategy "/movie/popular" baseParams.

Definition getTMDBImageUrl (path : option string) (size : string) : string :=
  if negb (Js.truthy path) then EmptyString
  else "https://image.tmdb.org/t/p/" ++ size ++ Js.or_else path EmptyString.

Definition formatRating (rating : option Q) : string :=
  match rating with
  | Some r => if Qeq_bool r 0 then EmptyString else Js.toFixed1 r
  | None => EmptyString
  end.

Definition formatYear (dateString : option string) : string :=
  match dateString with
  | Some d => if Js.str_truthy d then hd EmptyString (Js.split "-" d) else EmptyString
  | None => EmptyString
  end.

Definition convertTMDBMovieToDoubanItem (movie : TMDBItem) : DoubanItem :=
  {| id := Js.num_to_string (Js.to_double (tmdb_id movie));
     title := Js.or_undefined (tmdb_title movie) (tmdb_original_title movie);
     poster := match poster_path movie with
               | Some p => if Js.str_truthy p
                           then "https://image.tmdb.org/t/p/w500" ++ p else EmptyString
               | None => EmptyString
               end;
     rate := match vote_average movie with
             | Some r => if Qeq_bool r 0 then EmptyString else Js.toFixed1 r
             | None => EmptyString
             end;
     year := match release_date movie with
             | Some d => if Js.str_truthy d
                         then hd EmptyString (Js.split "-" d) else EmptyString
             | None => EmptyString
             end |}.

Definition convertTMDBSeriesToDoubanItem (series : TMDBItem) : DoubanItem :=
  {| id := Js.num_to_string (Js.to_double (tmdb_id series));
     title := Js.or_undefined (tmdb_name series) (tmdb_original_name series);
     poster := match poster_path series with
               | Some p => if Js.str_truthy p
                           then "https://image.tmdb.org/t/p/w500" ++ p else EmptyString
               | None => EmptyString
               end;
     rate := match vote_average series with
             | Some r => if Qeq_bool r 0 then EmptyString else Js.toFixed1 r
             | None => EmptyString
             end;
     year := match first_air_date series with
             | Some d => if Js.str_truthy d
                         then hd EmptyString (Js.split "-" d) else EmptyString
             | None => EmptyString
             end |}.

Definition handleTMDBError (name msg : string) : string :=
  if String.eqb name "AbortError" then "请求超时，请稍后重试"
  else if Js.includes msg "401" then "TMDB API Key 无效"
  else if Js.includes msg "429" then "TMDB API 请求过于频繁，请稍后再试"
  else if Js.includes msg "500" || Js.includes msg "502" || Js.includes msg "503"
  then "TMDB 服务器错误"
  else "获取 TMDB 数据失败".

(** [Object.keys(params)]; no parameter name of the code is an integer
    index, so the keys come in insertion order. *)
Definition keys (params : Js.object) : list string := map fst params.

Definition getCacheKey (endpoint : string) (params : Js.object) : string :=
  let sortedParams :=
    Js.join "&"
      (map (fun key =>
              key ++ "="
              ++ match Js.obj_get params key with
                 | Some v => Js.to_string v
                 | None => "undefined"
                 end)
           (Js.sort (keys params))) in
  endpoint ++ "?" ++ sortedParams.

End TmdbUtils.

(** ** The world around a handler *)

(** The body of an upstream answer: reading it either throws (the text is not
    JSON, the value has no [results] array to map over, or the read is
    aborted) or gives the result objects. *)
Inductive body : Type :=
| BodyThrows (e : thrown)
| BodyJson (results : list TMDBItem).

(** How a [fetch] settles: it rejects (a network failure, or the abort that
    the timeout triggers, an [Error] named [AbortError]), or it resolves to a
    response with a status and a body. *)
Inductive outcome : Type :=
| Rejects (e : thrown)
| Responds (upstream_status : Z) (b : body).

(** An outbound request: the address, the request headers, and the time in
    milliseconds after which the handler aborts it, if it sets one. *)
Record call : Type := mkCall {
  call_url : string;
  call_headers : list (string * string);
  call_timeout : option Z
}.

(** The process environment, the upstream service and the clock. *)
Record env : Type := mkEnv {
  TMDB_API_KEY : option string;
  fetch : call -> outcome;
  now : Z
}.

Inductive payload : Type :=
| ErrorBody (error : string)
| ResultBody (result : DoubanResult).

Record response : Type := mkResponse {
  status : Z;
  content : payload;
  headers : list (string * string)
}.

(** [response.ok] *)
Definition ok (upstream_status : Z) : bool :=
  (200 <=? upstream_status) && (upstream_status <=? 299).

(** The value that [throw new Error(`TMDB API error: ${response.status}`)] throws. *)
Definition api_error (upstream_status : Z) : thrown :=
  Error "Error" ("TMDB API error: " ++ Js.decimal upstream_status).

(** A value narrowed to [string] after the test against a falsy value. *)
Definition narrowed (x : option string) : string := Js.or_else x EmptyString.

Definition quote : string := String (ascii_of_nat 34) EmptyString.

Definition CACHE_DURATION : Z := 3600.

(** [parseInt(searchParams.get(name) || fallback)] *)
Definition int_param (searchParams : list (string * string)) (name fallback : string)
  : Js.num :=
  Js.parseInt (Js.or_else (Js.params_get searchParams name) fallback).

(** [Math.floor(pageStart / pageSize) + 1], the expression by which each of
    the four handlers turns an offset and a size into the upstream page. *)
Definition page_number (pageStart pageSize : Js.num) : Js.num :=
  Js.add (Js.floor_div pageStart pageSize) (Js.Int 1).

(** ** The search route with the strategy resolver (route.ts, tag and type) *)

Module SearchRoute.

(** The outer [catch] clause. *)
Definition on_error (error : thrown) : response :=
  let '(errorMessage, statusCode) :=
    match error with
    | Error name msg =>
        if String.eqb name "AbortError" then ("请求超时，请稍后重试", 408)
        else if Js.includes msg "401" then ("TMDB API Key 无效", 500)
        else if Js.includes msg "429" then ("TMDB API 请求过于频繁，请稍后再试", 429)
        else if Js.includes msg "500" then ("TMDB 服务器错误", 502)
        else ("获取 TMDB 搜索数据失败", 500)
    | NonError => ("获取 TMDB 搜索数据失败", 500)
    end in
  mkResponse statusCode (ErrorBody errorMessage) [].

(** Copying the entries whose value is neither [undefined] nor [null]. *)
Definition clean (params : Js.object) : Js.object :=
  fold_left (fun acc kv => Js.obj_set acc (fst kv) (snd kv)) params [].

(** The request: two headers, and the abort signal of a controller that a
    timer fires after ten seconds. *)
Definition request (target : string) : call :=
  mkCall target
    [("Content-Type", "application/json"); ("User-Agent", "MoonTV/1.0")]
    (Some 10000).

(** What follows the [fetch]: the inner [try] block, whose failures the
    outer [catch] clause turns into a response. *)
Definition after_fetch (e : env) (type : string) (settled : outcome) : response :=
  match settled with
  | Rejects fetchError => on_error fetchError
  | Responds upstream_status b =>
      if negb (ok upstream_status) then on_error (api_error upstream_status)
      else
        match b with
        | BodyThrows fetchError => on_error fetchError
        | BodyJson results =>
            let list :=
              map (fun item =>
                     if String.eqb type "movie"
                     then TmdbUtils.convertTMDBMovieToDoubanItem item
                     else TmdbUtils.convertTMDBSeriesToDoubanItem item)
                  results in
            mkResponse 200 (ResultBody (mkDoubanResult 200 "获取成功" list))
              [("Cache-Control", "public, max-age=" ++ Js.decimal CACHE_DURATION);
               ("ETag", quote ++ Js.decimal (now e) ++ quote)]
        end
  end.

(** The parameters handed to [buildTMDBUrl]: the strategy's, then the
    page, then the copy. *)
Definition cleanParams (strategy : SearchStrategy) (page : Js.num) : Js.object :=
  clean (Js.obj_set (params strategy) "page" (Js.VNum page)).

(** The [URL] object behind the address of the upstream request. *)
Definition target_object (apiKey tag type : string) (page : Js.num) : Js.URL :=
  let strategy := TmdbUtils.getSearchStrategy tag type in
  TmdbUtils.buildTMDBUrl_object (endpoint strategy) apiKey (cleanParams strategy page).

(** The address of the upstream request. *)
Definition target (apiKey tag type : string) (page : Js.num) : string :=
  let strategy := TmdbUtils.getSearchStrategy tag type in
  TmdbUtils.buildTMDBUrl (endpoint strategy) apiKey (cleanParams strategy page).

Definition GET (e : env) (searchParams : list (string * string)) : response * list call :=
  let tag := Js.params_get searchParams "tag" in
  let type := Js.params_get searchParams "type" in
  let pageSize := int_param searchParams "pageSize" "20" in
  let pageStart := int_param searchParams "pageStart" "0" in
  if negb (Js.truthy tag) || negb (Js.truthy type) then
    (mkResponse 400 (ErrorBody "缺少必要参数：tag 或 type") [], [])
  else
    let tag := narrowed tag in
    let type := narrowed type in
    if negb (String.eqb type "tv" || String.eqb type "movie") then
      (mkResponse 400 (ErrorBody "type 参数必须是 tv 或 movie") [], [])
    else if Js.lt pageSize (Js.Int 1) || Js.gt pageSize (Js.Int 100) then
      (mkResponse 400 (ErrorBody "pageSize 必须在 1-100 之间") [], [])
    else if Js.lt pageStart (Js.Int 0) then
      (mkResponse 400 (ErrorBody "pageStart 不能小于 0") [], [])
    else if negb (Js.truthy (TMDB_API_KEY e)) then
      (mkResponse 500 (ErrorBody "TMDB API Key 未配置") [], [])
    else
      let apiKey := narrowed (TMDB_API_KEY e) in
      if String.eqb tag "综艺" && String.eqb type "movie" then
        (mkResponse 200 (ResultBody (mkDoubanResult 200 "获取成功" [])) [], [])
      else
        let page := page_number pageStart pageSize in
        let c := request (target apiKey tag type page) in
        (after_fetch e type (fetch e c), [c]).

End SearchRoute.

(** ** The category route (route.ts, kind, category and type) *)

Module CategoryRoute.

(** The outer [catch] clause. *)
Definition on_error (error : thrown) : response :=
  let '(errorMessage, statusCode) :=
    match error with
    | Error name msg =>
        if String.eqb name "AbortError" then ("请求超时，请稍后重试", 408)
        else if Js.includes msg "401" then ("TMDB API Key 无效", 500)
        else if Js.includes msg "429" then ("TMDB API 请求过于频繁，请稍后再试", 429)
        else if Js.includes msg "500" then ("TMDB 服务器错误", 502)
        else ("获取 TMDB 分类数据失败", 500)
    | NonError => ("获取 TMDB 分类数据失败", 500)
    end in
  mkResponse statusCode (ErrorBody errorMessage) [].

(** The first [switch] of the movie branch: the endpoint and the
    parameters that the main category gives. *)
Definition movie_category (category : string) : string * Js.object :=
  if String.eqb category "热门" then ("/movie/popular", [])
  else if String.eqb category "最新" then ("/movie/now_playing", [])
  else if String.eqb category "即将上映" then ("/movie/upcoming", [])
  else if String.eqb category "高分" || String.eqb category "豆瓣高分"
  then ("/movie/top_rated", [])
  else if String.eqb category "冷门佳片" then
    ("/discover/movie",
     Js.obj_set (Js.obj_set [] "sort_by" (Js.VStr "vote_average.desc"))
       "vote_count.gte" (Js.VStr "100"))
  else ("/movie/popular", []).

(** One region case of the second [switch]. *)
Definition movie_country (country : string) (base : string * Js.object)
  : string * Js.object :=
  let '(baseEndpoint, baseParams) := base in
  if String.eqb baseEndpoint "/discover/movie" then
    (baseEndpoint, Js.obj_set baseParams "with_origin_country" (Js.VStr country))
  else
    ("/discover/movie",
     Js.obj_set (Js.obj_set baseParams "with_origin_country" (Js.VStr country))
       "sort_by" (Js.VStr "popularity.desc")).

(** One genre case of the second [switch]. *)
Definition movie_genre (genre : string) (base : string * Js.object)
  : string * Js.object :=
  ("/discover/movie",
   Js.obj_set (Js.obj_set (snd base) "with_genres" (Js.VStr genre))
     "sort_by" (Js.VStr "popularity.desc")).

(** The second [switch] of the movie branch, on the region. *)
Definition movie_type (type : string) (base : string * Js.object)
  : string * Js.object :=
  if String.eqb type "华语" then movie_country "CN" base
  else if String.eqb type "欧美" then movie_country "US" base
  else if String.eqb type "韩国" then movie_country "KR" base
  else if String.eqb type "日本" then movie_country "JP" base
  else if String.eqb type "动漫" then movie_genre "16" base
  else if String.eqb type "纪录片" then movie_genre "99" base
  else base.

Definition tv_country (country : string) : string * Js.object :=
  ("/discover/tv",
   Js.obj_set (Js.obj_set [] "with_origin_country" (Js.VStr country))
     "sort_by" (Js.VStr "popularity.desc")).

Definition tv_genre (genre : string) : string * Js.object :=
  ("/discover/tv",
   Js.obj_set (Js.obj_set [] "with_genres" (Js.VStr genre))
     "sort_by" (Js.VStr "popularity.desc")).

Definition show_country (country : string) : string * Js.object :=
  ("/discover/tv",
   Js.obj_set
     (Js.obj_set (Js.obj_set [] "with_genres" (Js.VStr "10764"))
        "with_origin_country" (Js.VStr country))
     "sort_by" (Js.VStr "popularity.desc")).

(** The series branch. *)
Definition tv_category (category type : string) : string * Js.object :=
  if String.eqb category "tv" then
    if String.eqb type "tv" then ("/tv/popular", [])
    else if String.eqb type "tv_domestic" then tv_country "CN"
    else if String.eqb type "tv_american" then tv_country "US"
    else if String.eqb type "tv_japanese" then tv_country "JP"
    else if String.eqb type "tv_korean" then tv_country "KR"
    else if String.eqb type "tv_animation" then tv_genre "16"
    else if String.eqb type "tv_documentary" then tv_genre "99"
    else ("/tv/popular", [])
  else if String.eqb category "show" then
    if String.eqb type "show" then tv_genre "10764"
    else if String.eqb type "show_domestic" then show_country "CN"
    else if String.eqb type "show_foreign" then show_country "US"
    else tv_genre "10764"
  else ("/tv/popular", []).

(** The endpoint and the parameters of the upstream request: the base
    parameters are set first and the branch's own are spread over them. *)
Definition upstream_query (kind category type : string) (page : Js.num)
  : string * Js.object :=
  let params := Js.obj_set [] "page" (Js.VNum page) in
  let params := Js.obj_set params "include_adult" (Js.VBool false) in
  let params := Js.obj_set params "include_video" (Js.VBool false) in
  let '(baseEndpoint, baseParams) :=
    if String.eqb kind "movie"
    then movie_type type (movie_category category)
    else tv_category category type in
  (baseEndpoint, Js.spread params baseParams).

(** The request: two headers, and the abort signal of a controller that a
    timer fires after ten seconds. *)
Definition request (target : string) : call :=
  mkCall target
    [("Content-Type", "application/json"); ("User-Agent", "MoonTV/1.0")]
    (Some 10000).

(** What follows the [fetch]: the inner [try] block, whose failures the
    outer [catch] clause turns into a response. *)
Definition after_fetch (e : env) (kind : string) (settled : outcome) : response :=
  match settled with
  | Rejects fetchError => on_error fetchError
  | Responds upstream_status b =>
      if negb (ok upstream_status) then on_error (api_error upstream_status)
      else
        match b with
        | BodyThrows fetchError => on_error fetchError
        | BodyJson results =>
            let list :=
              map (fun item =>
                     if String.eqb kind "movie"
                     then TmdbUtils.convertTMDBMovieToDoubanItem item
                     else TmdbUtils.convertTMDBSeriesToDoubanItem item)
                  results in
            mkResponse 200 (ResultBody (mkDoubanResult 200 "获取成功" list))
              [("Cache-Control", "public, max-age=" ++ Js.decimal CACHE_DURATION);
               ("ETag", quote ++ Js.decimal (now e) ++ quote)]
        end
  end.

(** The [URL] object behind the address of the upstream request. *)
Definition target_object (apiKey kind category type : string) (page : Js.num) : Js.URL :=
  let query := upstream_query kind category type page in
  TmdbUtils.buildTMDBUrl_object (fst query) apiKey (snd query).

(** The address of the upstream request. *)
Definition target (apiKey kind category type : string) (page : Js.num) : string :=
  let query := upstream_query kind category type page in
  TmdbUtils.buildTMDBUrl (fst query) apiKey (snd query).

Definition GET (e : env) (searchParams : list (string * string)) : response * list call :=
  let kind := Js.or_else (Js.params_get searchParams "kind") "movie" in
  let category := Js.params_get searchParams "category" in
  let type := Js.params_get searchParams "type" in
  let pageLimit := int_param searchParams "limit" "20" in
  let pageStart := int_param searchParams "start" "0" in
  if negb (Js.str_truthy kind) || negb (Js.truthy category) || negb (Js.truthy type) then
    (mkResponse 400 (ErrorBody "缺少必要参数：kind 或 category 或 type") [], [])
  else
    let category := narrowed category in
    let type := narrowed type in
    if negb (String.eqb kind "tv" || String.eqb kind "movie") then
      (mkResponse 400 (ErrorBody "kind 参数必须是 tv 或 movie") [], [])
    else if Js.lt pageLimit (Js.Int 1) || Js.gt pageLimit (Js.Int 100) then
      (mkResponse 400 (ErrorBody "pageLimit 必须在 1-100 之间") [], [])
    else if Js.lt pageStart (Js.Int 0) then
      (mkResponse 400 (ErrorBody "pageStart 不能小于 0") [], [])
    else if negb (Js.truthy (TMDB_API_KEY e)) then
      (mkResponse 500 (ErrorBody "TMDB API Key 未配置") [], [])
    else
      let apiKey := narrowed (TMDB_API_KEY e) in
      let page := page_number pageStart pageLimit in
      let c := request (target apiKey kind category type page) in
      (after_fetch e kind (fetch e c), [c]).

End CategoryRoute.

(** ** The handlers that carry their own converters (plain search and plain
    category routes)

    The two files declare the same interfaces and the same four helper
    functions, text for text; [Plain] holds them once. *)

Module Plain.

Definition getTMDBImageUrl (posterPath : option string) (size : string) : string :=
  if negb (Js.truthy posterPath) then EmptyString
  else "https://image.tmdb.org/t/p/" ++ size ++ narrowed posterPath.

Definition extractYear (dateString : option string) : string :=
  if negb (Js.truthy dateString) then EmptyString
  else match Js.match_d4 (narrowed dateString) with
       | Some year => year
       | None => EmptyString
       end.

Definition convertTMDBMovieToDoubanItem (movie : TMDBItem) : DoubanItem :=
  {| id := Js.num_to_string (Js.to_double (tmdb_id movie));
     title := tmdb_title movie;
     poster := getTMDBImageUrl (poster_path movie) "w500";
     rate := match vote_average movie with
             | Some r => if Qeq_bool r 0 then EmptyString else Js.toFixed1 r
             | None => EmptyString
             end;
     year := extractYear (release_date movie) |}.

Definition convertTMDBSeriesToDoubanItem (series : TMDBItem) : DoubanItem :=
  {| id := Js.num_to_string (Js.to_double (tmdb_id series));
     title := tmdb_name series;
     poster := getTMDBImageUrl (poster_path series) "w500";
     rate := match vote_average series with
             | Some r => if Qeq_bool r 0 then EmptyString else Js.toFixed1 r
             | None => EmptyString
             end;
     year := extractYear (first_air_date series) |}.

(** What follows the [fetch] in both plain handlers, word for word the
    same: one [catch] clause that answers every failure alike. *)
Definition after_fetch (as_movie : bool) (failure : string) (settled : outcome)
  : response :=
  let failed := mkResponse 500 (ErrorBody failure) [] in
  match settled with
  | Rejects _ => failed
  | Responds upstream_status b =>
      if negb (ok upstream_status) then failed
      else
        match b with
        | BodyThrows _ => failed
        | BodyJson results =>
            let list :=
              map (fun item =>
                     if as_movie then convertTMDBMovieToDoubanItem item
                     else convertTMDBSeriesToDoubanItem item)
                  results in
            mkResponse 200 (ResultBody (mkDoubanResult 200 "获取成功" list)) []
        end
  end.

(** The request of both plain handlers: a content-type header, no timeout. *)
Definition request (target : string) : call :=
  mkCall target [("Content-Type", "application/json")] None.

End Plain.

Module PlainSearchRoute.

(** The address of the upstream request, a template literal. *)
Definition searchUrl (apiKey tag type : string) (page : Js.num) : string :=
  "https://api.themoviedb.org/3/search/" ++ type ++ "?api_key=" ++ apiKey
  ++ "&language=zh-CN&query=" ++ Js.encodeURIComponent tag
  ++ "&page=" ++ Js.num_to_string page.

Definition GET (e : env) (searchParams : list (string * string)) : response * list call :=
  let tag := Js.params_get searchParams "tag" in
  let type := Js.params_get searchParams "type" in
  let pageSize := int_param searchParams "pageSize" "20" in
  let pageStart := int_param searchParams "pageStart" "0" in
  if negb (Js.truthy tag) || negb (Js.truthy type) then
    (mkResponse 400 (ErrorBody "缺少必要参数：tag 或 type") [], [])
  else
    let tag := narrowed tag in
    let type := narrowed type in
    if negb (String.eqb type "tv" || String.eqb type "movie") then
      (mkResponse 400 (ErrorBody "type 参数必须是 tv 或 movie") [], [])
    else if Js.lt pageSize (Js.Int 1) || Js.gt pageSize (Js.Int 100) then
      (mkResponse 400 (ErrorBody "pageSize 必须在 1-100 之间") [], [])
    else if Js.lt pageStart (Js.Int 0) then
      (mkResponse 400 (ErrorBody "pageStart 不能小于 0") [], [])
    else if negb (Js.truthy (TMDB_API_KEY e)) then
      (mkResponse 500 (ErrorBody "TMDB API Key 未配置") [], [])
    else
      let apiKey := narrowed (TMDB_API_KEY e) in
      let page := page_number pageStart pageSize in
      let c := Plain.request (searchUrl apiKey tag type page) in
      (Plain.after_fetch (String.eqb type "movie") "获取 TMDB 搜索数据失败" (fetch e c), [c]).

End PlainSearchRoute.

Module PlainCategoryRoute.

Definition movie_endpoint (category : string) : string :=
  if String.eqb category "热门" then "/movie/popular"
  else if String.eqb category "最新" then "/movie/now_playing"
  else if String.eqb category "即将上映" then "/movie/upcoming"
  else if String.eqb category "高分" then "/movie/top_rated"
  else "/movie/popular".

Definition tv_endpoint (category : string) : string :=
  if String.eqb category "热门" then "/tv/popular"
  else if String.eqb category "最新" then "/tv/on_the_air"
  else if String.eqb category "即将上映" then "/tv/airing_today"
  else if String.eqb category "高分" then "/tv/top_rated"
  else "/tv/popular".

(** The address of the upstream request, a template literal. *)
Definition target (apiKey kind category : string) (page : Js.num) : string :=
  let endpoint :=
    if String.eqb kind "movie" then movie_endpoint category else tv_endpoint category in
  "https://api.themoviedb.org/3" ++ endpoint ++ "?api_key=" ++ apiKey
  ++ "&language=zh-CN&page=" ++ Js.num_to_string page.

Definition GET (e : env) (searchParams : list (string * string)) : response * list call :=
  let kind := Js.or_else (Js.params_get searchParams "kind") "movie" in
  let category := Js.params_get searchParams "category" in
  let type := Js.params_get searchParams "type" in
  let pageLimit := int_param searchParams "limit" "20" in
  let pageStart := int_param searchParams "start" "0" in
  if negb (Js.str_truthy kind) || negb (Js.truthy category) || negb (Js.truthy type) then
    (mkResponse 400 (ErrorBody "缺少必要参数：kind 或 category 或 type") [], [])
  else
    let category := narrowed category in
    if negb (String.eqb kind "tv" || String.eqb kind "movie") then
      (mkResponse 400 (ErrorBody "kind 参数必须是 tv 或 movie") [], [])
    else if Js.lt pageLimit (Js.Int 1) || Js.gt pageLimit (Js.Int 100) then
      (mkResponse 400 (ErrorBody "pageSize 必须在 1-100 之间") [], [])
    else if Js.lt pageStart (Js.Int 0) then
      (mkResponse 400 (ErrorBody "pageStart 不能小于 0") [], [])
    else if negb (Js.truthy (TMDB_API_KEY e)) then
      (mkResponse 500 (ErrorBody "TMDB API Key 未配置") [], [])
    else
      let apiKey := narrowed (TMDB_API_KEY e) in
      let page := page_number pageStart pageLimit in
      let c := Plain.request (target apiKey kind category page) in
      (Plain.after_fetch (String.eqb kind "movie") "获取 TMDB 分类数据失败" (fetch e c), [c]).

End PlainCategoryRoute.

(** ** Notions the properties are stated with *)

(** Exactly four characters, all of them digits. *)
Definition four_digits (s : string) : bool :=
  match s with
  | String a (String b (String c (String d EmptyString))) =>
      Js.is_digit a && Js.is_digit b && Js.is_digit c && Js.is_digit d
  | _ => false
  end.

Definition empty_or_four_digits (s : string) : Prop :=
  s = EmptyString \/ four_digits s = true.

(** The text before the first hyphen (the whole text when it has none). *)
Fixpoint first_segment (s : string) : string :=
  match s with
  | EmptyString => EmptyString
  | String c rest => if Ascii.eqb c "-" then EmptyString else String c (first_segment rest)
  end.

(** The [case] labels of the resolver, for each content kind. *)
Definition known_labels (type : string) : list string :=
  if String.eqb type "movie" then
    ["热门"; "最新"; "即将上映"; "高分"; "豆瓣高分"; "华语"; "欧美"; "韩国"; "日本";
     "动漫"; "纪录片"; "冷门佳片"]
  else
    ["热门"; "华语"; "欧美"; "韩国"; "日本"; "动漫"; "纪录片"; "综艺"].

(** The four converters, each with the date field it reads. *)
Definition converters : list ((TMDBItem -> DoubanItem) * (TMDBItem -> option string)) :=
  [(TmdbUtils.convertTMDBMovieToDoubanItem, release_date);
   (TmdbUtils.convertTMDBSeriesToDoubanItem, first_air_date);
   (Plain.convertTMDBMovieToDoubanItem, release_date);
   (Plain.convertTMDBSeriesToDoubanItem, first_air_date)].

(** A request in which [kind] is spelled out as [movie]: [get] returns the
    first pair under a name. *)
Definition with_kind_movie (searchParams : list (string * string)) : list (string * string) :=
  ("kind", "movie") :: searchParams.

(** The value that reaches the [catch] clause of a handler when the request
    settles as [settled], if any: the rejection of the [fetch], the error
    thrown for a status outside 200 to 299, or the failure to read the body. *)
Definition failure_of (settled : outcome) : option thrown :=
  match settled with
  | Rejects err => Some err
  | Responds upstream_status b =>
      if negb (ok upstream_status) then Some (api_error upstream_status)
      else match b with
           | BodyThrows err => Some err
           | BodyJson _ => None
           end
  end.

(** A thrown value that none of the tests of the [catch] clause recognises. *)
Definition unrecognised (err : thrown) : Prop :=
  match err with
  | Error name msg =>
      name <> "AbortError"
      /\ Js.includes msg "401" = false
      /\ Js.includes msg "429" = false
      /\ Js.includes msg "500" = false
  | NonError => True
  end.

Definition handler : Type := env -> list (string * string) -> response * list call.

(** The handlers of route.ts, each with the message of its last resort. *)
Definition mapping_routes : list (handler * string) :=
  [(SearchRoute.GET, "获取 TMDB 搜索数据失败");
   (CategoryRoute.GET, "获取 TMDB 分类数据失败")].

(** The plain handlers, each with its one failure message. *)
Definition plain_routes : list (handler * string) :=
  [(PlainSearchRoute.GET, "获取 TMDB 搜索数据失败");
   (PlainCategoryRoute.GET, "获取 TMDB 分类数据失败")].

(** The handlers that read [tag], [type], [pageSize] and [pageStart]. *)
Definition tag_routes : list handler := [SearchRoute.GET; PlainSearchRoute.GET].

(** The handlers that read [kind], [category], [type], [limit] and [start]. *)
Definition kind_routes : list handler := [CategoryRoute.GET; PlainCategoryRoute.GET].

(** The statuses from 100 to 599. *)
Definition http_statuses : list Z := map (fun i => 100 + Z.of_nat i) (seq 0 500).

(** The text starts with four digits. *)
Definition starts_with_four_digits (s : string) : bool :=
  match s with
  | String a (String b (String c (String d _))) =>
      Js.is_digit a && Js.is_digit b && Js.is_digit c && Js.is_digit d
  | _ => false
  end.

(** A date that both year rules read alike: missing, empty, or with four
    digits before its first hyphen. *)
Definition year_first (date : option string) : Prop :=
  match date with
  | None => True
  | Some d => d = EmptyString \/ four_digits (first_segment d) = true
  end.

(** The four handlers. *)
Definition all_routes : list handler :=
  [SearchRoute.GET; CategoryRoute.GET; PlainSearchRoute.GET; PlainCategoryRoute.GET].

(** The endpoints of each content kind. *)
Definition movie_endpoints : list string :=
  ["/movie/popular"; "/movie/now_playing"; "/movie/upcoming"; "/movie/top_rated";
   "/discover/movie"; "/search/movie"].

Definition tv_endpoints : list string :=
  ["/tv/popular"; "/tv/on_the_air"; "/tv/airing_today"; "/tv/top_rated";
   "/discover/tv"; "/search/tv"].

Definition is_discover (endpoint : string) : bool :=
  String.eqb endpoint "/discover/movie" || String.eqb endpoint "/discover/tv".

(** An endpoint that the URL parser leaves as it is: letters, digits and
    the characters [/], [_] and [-], so no query, no fragment, no segment
    of dots and nothing to escape. *)
Definition plain_path (endpoint : string) : bool :=
  forallb (fun c => Js.is_alnum c || Js.one_of "/_-" c) (list_ascii_of_string endpoint).

(** The characters that [encodeURIComponent] lets through or produces. *)
Definition uri_safe (c : ascii) : bool :=
  Js.is_alnum c || Js.one_of "-_.!~*'()%" c.

(** The messages of [handleTMDBError] for the error thrown on an upstream
    status. *)
Definition status_message (s : Z) : string :=
  if s =? 401 then "TMDB API Key 无效"
  else if s =? 429 then "TMDB API 请求过于频繁，请稍后再试"
  else if (s =? 500) || (s =? 502) || (s =? 503) then "TMDB 服务器错误"
  else "获取 TMDB 数据失败".

(** *** Sample inputs *)

Definition sample_movie : TMDBItem :=
  mkTMDBItem 550 (Some "搏击俱乐部") (Some "Fight Club") None None
    (Some "/a26cQPRhJPX6GbWfQbvZdrrp9j9.jpg") (Some (7 # 1)) (Some "2021-07-04") None.

(** An object whose dates do not start with the year. *)
Definition loosely_dated : TMDBItem :=
  mkTMDBItem 7 (Some "T") (Some "T") (Some "N") (Some "N") None None
    (Some "July 2021") (Some "04/07/2021").

(** An environment with a key whose upstream settles every request alike. *)
Definition settling (settled : outcome) : env :=
  mkEnv (Some "key") (fun _ => settled) 1700000000000.

Definition answered : outcome := Responds 200 (BodyJson [sample_movie]).

Definition rate_limited : outcome := Responds 429 (BodyJson []).

Definition timed_out : outcome := Rejects (Error "AbortError" "This operation was aborted").

(** Popular movies, second page. *)
Definition popular_movies : list (string * string) :=
  [("tag", "热门"); ("type", "movie"); ("pageSize", "20"); ("pageStart", "25")].

(** Variety shows asked of the movie kind. *)
Definition variety_movies (pageSize : string) : list (string * string) :=
  [("tag", "综艺"); ("type", "movie"); ("pageSize", pageSize)].

(** A category request that names no kind. *)
Definition chinese_popular : list (string * string) :=
  [("category", "热门"); ("type", "华语")].

(** Requests whose page size is not a number. *)
Definition popular_movies_abc : list (string * string) :=
  [("tag", "热门"); ("type", "movie"); ("pageSize", "abc")].

Definition chinese_popular_abc : list (string * string) :=
  [("category", "热门"); ("type", "华语"); ("limit", "abc")].

(** The parameters of a discovery request, in two insertion orders. *)
Definition discover_params : Js.object :=
  [("sort_by", Js.VStr "popularity.desc"); ("page", Js.VNum (Js.Int 2));
   ("include_adult", Js.VBool false)].

Definition discover_params_reordered : Js.object :=
  [("page", Js.VNum (Js.Int 2)); ("include_adult", Js.VBool false);
   ("sort_by", Js.VStr "popularity.desc")].

(** Popular movies one by one, from an offset that no double holds. *)
Definition far_offset : list (string * string) :=
  [("tag", "热门"); ("type", "movie"); ("pageSize", "1");
   ("pageStart", "9007199254740993")].

(** Objects whose identifiers are past the integers that doubles hold one
    by one. *)
Definition large_id : TMDBItem :=
  mkTMDBItem (10 ^ 21) (Some "T") (Some "T") None None None None None None.

Definition rounded_id : TMDBItem :=
  mkTMDBItem 1152921504606846976 (Some "T") (Some "T") None None None None None None.

(** An environment without a key. *)
Definition keyless : env := mkEnv None (fun _ => answered) 1700000000000.

(** A request for a kind that does not exist. *)
Definition popular_books : list (string * string) :=
  [("tag", "热门"); ("type", "book")].

(** ** Facts about the primitives *)

Section StringFacts.

Lemma str_truthy_iff (s : string) : Js.str_truthy s = true <-> s <> EmptyString.
Proof.
  unfold Js.str_truthy. rewrite negb_true_iff. apply String.eqb_neq.
Qed.

Lemma narrowed_truthy (x : option string) (s : string) :
  x = Some s -> s <> EmptyString -> Js.truthy x = true /\ narrowed x = s.
Proof.
  intros -> Hs. apply str_truthy_iff in Hs.
  unfold narrowed, Js.or_else, Js.truthy. now rewrite Hs.
Qed.

Lemma hd_split_first_segment (s : string) :
  hd EmptyString (Js.split "-" s) = first_segment s.
Proof.
  induction s as [|c rest IH]; simpl; [reflexivity|].
  destruct (Ascii.eqb c "-"); [reflexivity|].
  destruct (Js.split "-" rest) as [|seg segs]; simpl in *; now rewrite IH.
Qed.

Lemma match_d4_four_digits (s y : string) :
  Js.match_d4 s = Some y -> four_digits y = true.
Proof.
  induction s as [|a rest IH]; [discriminate|].
  cbn [Js.match_d4].
  destruct rest as [|b [|c [|d tail]]]; try discriminate.
  destruct (Js.is_digit a && Js.is_digit b && Js.is_digit c && Js.is_digit d) eqn:E.
  - intros [= <-]. exact E.
  - exact IH.
Qed.

Lemma match_d4_first_segment (d : string) :
  four_digits (first_segment d) = true -> Js.match_d4 d = Some (first_segment d).
Proof.
  destruct d as [|a [|b [|c [|e tail]]]]; cbn [first_segment];
    repeat match goal with
           | |- context [Ascii.eqb ?x "-"] => destruct (Ascii.eqb x "-")
           end;
    cbn [four_digits]; try discriminate.
  destruct (first_segment tail); [|discriminate].
  intros E. cbn [Js.match_d4]. now rewrite E.
Qed.

End StringFacts.

(** ** Facts about numbers *)

Section NumberFacts.

Lemma round_half_even_bounds (n d : Z) :
  n / d <= Js.round_half_even n d <= n / d + 1.
Proof.
  unfold Js.round_half_even.
  destruct (2 * (n mod d) <? d); [lia|].
  destruct (d <? 2 * (n mod d)); [lia|].
  destruct (Z.even (n / d)); lia.
Qed.

Lemma round_half_even_up (n d : Z) :
  Js.round_half_even n d = n / d \/ (Js.round_half_even n d = n / d + 1 /\ d <= 2 * (n mod d)).
Proof.
  unfold Js.round_half_even.
  destruct (Z.ltb_spec (2 * (n mod d)) d); [now left|].
  destruct (d <? 2 * (n mod d)); [right; lia|].
  destruct (Z.even (n / d)); [now left | right; lia].
Qed.

(** Rounding to a grid finer than half the divisor does not reach the next
    integer quotient. *)
Lemma round_half_even_floor (x y T : Z) :
  0 <= x -> 0 < y -> 0 < T -> y < 2 * T ->
  Js.round_half_even (x * T) y / T = x / y.
Proof.
  intros Hx Hy HT Hfine.
  pose proof (Z.div_mod x y ltac:(lia)) as Ex.
  pose proof (Z.mod_pos_bound x y Hy) as Bx.
  pose proof (Z.div_mod (x * T) y ltac:(lia)) as En.
  pose proof (Z.mod_pos_bound (x * T) y Hy) as Bn.
  set (k := x / y) in *. set (r := x mod y) in *.
  set (q := (x * T) / y) in *. set (p := (x * T) mod y) in *.
  assert (A : k * T <= q).
  { apply Z.div_le_lower_bound; [exact Hy|]. nia. }
  assert (B : q < (k + 1) * T).
  { apply Z.div_lt_upper_bound; [exact Hy|]. nia. }
  assert (M : k * T <= Js.round_half_even (x * T) y < (k + 1) * T).
  { destruct (round_half_even_up (x * T) y) as [-> | [-> Hup]]; fold q; [lia|].
    fold p in Hup. split; [lia|].
    destruct (Z.eq_dec (q + 1) ((k + 1) * T)) as [Eq|]; [exfalso|lia].
    assert (Ep : p = y - (y - r) * T) by nia.
    assert (1 * T <= (y - r) * T) by (apply Z.mul_le_mono_nonneg_r; lia).
    lia. }
  symmetry. apply Z.div_unique with (r := Js.round_half_even (x * T) y - k * T); lia.
Qed.

Lemma exponent_range (x y : Z) :
  0 < x -> 0 < y ->
  Z.log2 x - Z.log2 y - 1 <= Js.exponent x y <= Z.log2 x - Z.log2 y.
Proof.
  intros _ _. unfold Js.exponent.
  destruct (if 0 <=? Z.log2 x - Z.log2 y then _ else _); lia.
Qed.

Lemma exponent_below (x y : Z) :
  0 < x -> 0 < y -> 0 <= Js.exponent x y -> y * 2 ^ Js.exponent x y <= x.
Proof.
  intros Hx Hy. unfold Js.exponent.
  pose proof (Z.log2_spec x Hx) as [Lx _].
  pose proof (Z.log2_spec y Hy) as [_ Uy].
  pose proof (Z.log2_nonneg x). pose proof (Z.log2_nonneg y).
  set (a := Z.log2 x) in *. set (b := Z.log2 y) in *.
  destruct (Z.leb_spec 0 (a - b)) as [Hab|Hab].
  - destruct (Z.ltb_spec x (y * 2 ^ (a - b))) as [Hlt|Hge]; [|intros _; exact Hge].
    intros He.
    assert (E : 2 ^ a = 2 ^ (b + 1) * 2 ^ (a - b - 1))
      by (rewrite <- Z.pow_add_r by lia; f_equal; lia).
    assert (0 < 2 ^ (a - b - 1)) by (apply Z.pow_pos_nonneg; lia).
    nia.
  - destruct (x * 2 ^ (- (a - b)) <? y); lia.
Qed.

Lemma to_double_safe (z : Z) : Z.abs z <= 2 ^ 53 -> Js.to_double z = Js.Int z.
Proof.
  intros H. unfold Js.to_double.
  destruct (Z.leb_spec (Z.abs z) (2 ^ 53)); [reflexivity|lia].
Qed.

(** Past 2^53 a double is at least 2^53. *)
Lemma nearest_double_large (n : Z) :
  2 ^ 53 < n ->
  let '(m, s) := Js.nearest_double n 1 in 0 <= s /\ 2 ^ 53 <= m * 2 ^ s.
Proof.
  intros Hn. unfold Js.nearest_double.
  assert (Hpos : 0 < n) by lia.
  pose proof (Z.log2_spec n Hpos) as [Ln Un].
  assert (H53 : 53 <= Z.log2 n).
  { apply Z.log2_le_pow2; lia. }
  assert (He : Js.exponent n 1 = Z.log2 n).
  { unfold Js.exponent. change (Z.log2 1) with 0. rewrite Z.sub_0_r.
    destruct (Z.leb_spec 0 (Z.log2 n)); [|lia].
    destruct (Z.ltb_spec n (1 * 2 ^ Z.log2 n)); [lia|reflexivity]. }
  rewrite He. rewrite Z.max_l by lia.
  set (s := Z.log2 n - 52).
  destruct (Z.leb_spec 0 s); [|lia].
  split; [lia|].
  assert (Hs : 0 < 2 ^ s) by (apply Z.pow_pos_nonneg; lia).
  assert (E : 2 ^ Z.log2 n = 2 ^ 52 * 2 ^ s)
    by (rewrite <- Z.pow_add_r by lia; f_equal; lia).
  assert (Q : 2 ^ 52 <= n / (1 * 2 ^ s)).
  { apply Z.div_le_lower_bound; lia. }
  pose proof (round_half_even_bounds n (1 * 2 ^ s)) as [Lo _].
  assert (2 ^ 52 * 2 ^ s <= Js.round_half_even n (1 * 2 ^ s) * 2 ^ s)
    by (apply Z.mul_le_mono_nonneg_r; lia).
  assert (2 ^ 52 * 2 ^ 1 <= 2 ^ 52 * 2 ^ s).
  { apply Z.mul_le_mono_nonneg_l; [lia|]. apply Z.pow_le_mono_r; lia. }
  change (2 ^ 53) with (2 ^ 52 * 2 ^ 1). lia.
Qed.

Lemma reads_as_safe (v z : Z) :
  Z.abs z < 2 ^ 53 -> Js.reads_as v z = true -> v = z.
Proof.
  intros Hz. unfold Js.reads_as, Js.to_double.
  destruct (Z.leb_spec (Z.abs v) (2 ^ 53)) as [Hv|Hv].
  - intros H. now apply Z.eqb_eq in H.
  - pose proof (nearest_double_large (Z.abs v) Hv) as Hl.
    destruct (Js.nearest_double (Z.abs v) 1) as [m s]. destruct Hl as [Hs Hm].
    destruct (2 ^ 1024 <=? m * 2 ^ s); [discriminate|].
    intros H. apply Z.eqb_eq in H. exfalso.
    destruct v; cbn [Z.sgn Z.abs] in *; lia.
Qed.

Lemma shortest_from_safe (fuel : nat) (k z : Z) :
  Z.abs z < 2 ^ 53 -> Js.shortest_from fuel k z = z.
Proof.
  intros Hz. revert k. induction fuel as [|fuel IH]; intros k; [reflexivity|].
  cbn [Js.shortest_from].
  destruct (Js.digits z <=? k); [reflexivity|].
  destruct (Js.reads_as _ z) eqn:E; [|apply IH].
  exact (reads_as_safe _ z Hz E).
Qed.

Lemma positive_to_string_safe (z : Z) :
  0 <= z <= 2 ^ 53 -> Js.positive_to_string z = Js.decimal z.
Proof.
  intros Hz. unfold Js.positive_to_string.
  assert (E : Js.shortest z = z).
  { destruct (Z.eq_dec z (2 ^ 53)) as [->|]; [now vm_compute|].
    apply shortest_from_safe. lia. }
  rewrite E. destruct (Z.ltb_spec z (10 ^ 21)) as [|H]; [reflexivity|].
  exfalso. assert (2 ^ 53 < 10 ^ 21) by reflexivity. lia.
Qed.

Lemma decimal_opp (p : positive) : Js.decimal (Z.neg p) = "-" ++ Js.decimal (Z.pos p).
Proof. reflexivity. Qed.

Lemma num_to_string_safe (z : Z) :
  Z.abs z <= 2 ^ 53 -> Js.num_to_string (Js.Int z) = Js.decimal z.
Proof.
  intros Hz. cbn [Js.num_to_string].
  destruct z as [|p|p]; cbn [Z.ltb Z.compare Z.opp].
  - reflexivity.
  - apply positive_to_string_safe. cbn [Z.abs] in Hz. lia.
  - rewrite positive_to_string_safe by (cbn [Z.abs] in Hz; lia). reflexivity.
Qed.

Lemma floor_div_safe (x y : Z) :
  0 <= x < 2 ^ 53 -> 1 <= y <= 100 -> Js.floor_div (Js.Int x) (Js.Int y) = Js.Int (x / y).
Proof.
  intros Hx Hy. cbn [Js.floor_div].
  destruct (Z.eqb_spec y 0); [lia|].
  destruct (Z.eqb_spec x 0) as [->|Hx0]; [reflexivity|].
  rewrite (Z.abs_eq x), (Z.abs_eq y) by lia.
  assert (Hpx : 0 < x) by lia. assert (Hpy : 0 < y) by lia.
  pose proof (exponent_range x y Hpx Hpy) as He.
  pose proof (exponent_below x y Hpx Hpy) as Hb.
  assert (Lx : 0 <= Z.log2 x < 53).
  { split; [apply Z.log2_nonneg|]. apply Z.log2_lt_pow2; lia. }
  assert (Ly : 0 <= Z.log2 y < 7).
  { split; [apply Z.log2_nonneg|]. apply Z.log2_lt_pow2; [lia|].
    change (2 ^ 7) with 128. lia. }
  unfold Js.nearest_double. set (e := Js.exponent x y) in *.
  rewrite Z.max_l by lia.
  replace (xorb (x <? 0) (y <? 0)) with false
    by (destruct (Z.ltb_spec x 0), (Z.ltb_spec y 0); (reflexivity || lia)).
  destruct (Z.leb_spec 0 (e - 52)) as [Hs|Hs].
  - assert (e = 52) by lia. subst e. replace (Js.exponent x y - 52) with 0 in * by lia.
    change (2 ^ 0) with 1. rewrite !Z.mul_1_r.
    assert (y = 1) by (specialize (Hb ltac:(lia)); rewrite H in Hb; lia). subst y.
    assert (R : Js.round_half_even x 1 = x).
    { unfold Js.round_half_even. rewrite Z.mod_1_r, Z.div_1_r. reflexivity. }
    rewrite R, Z.div_1_r.
    destruct (Z.leb_spec (2 ^ 1024) x) as [Hbig|]; [|reflexivity].
    exfalso. assert (2 ^ 53 < 2 ^ 1024) by reflexivity. lia.
  - f_equal. replace (- (e - 52)) with (52 - e) by lia.
    assert (HT : 0 < 2 ^ (52 - e)) by (apply Z.pow_pos_nonneg; lia).
    apply round_half_even_floor; [lia | lia | exact HT |].
    change (2 * 2 ^ (52 - e)) with (2 ^ 1 * 2 ^ (52 - e)).
    rewrite <- Z.pow_add_r by lia.
    destruct (Z.le_gt_cases 0 e) as [Hpos|Hneg].
    + specialize (Hb Hpos).
      assert (E : 2 ^ 53 = 2 ^ e * 2 ^ (1 + (52 - e)))
        by (rewrite <- Z.pow_add_r by lia; f_equal; lia).
      assert (0 < 2 ^ e) by (apply Z.pow_pos_nonneg; lia).
      nia.
    + assert (2 ^ 7 <= 2 ^ (1 + (52 - e))) by (apply Z.pow_le_mono_r; lia).
      change (2 ^ 7) with 128 in *. lia.
Qed.

(** Up to the largest safe integer, the page is the quotient plus one. *)
Lemma page_number_safe (o l : Z) :
  0 <= o <= Js.MAX_SAFE_INTEGER -> 1 <= l <= 100 ->
  page_number (Js.Int o) (Js.Int l) = Js.Int (o / l + 1).
Proof.
  intros Ho Hl. unfold Js.MAX_SAFE_INTEGER in Ho. unfold page_number.
  rewrite floor_div_safe by lia. cbn [Js.add].
  apply to_double_safe.
  assert (0 <= o / l <= o).
  { split; [apply Z.div_pos; lia|]. apply Z.div_le_upper_bound; nia. }
  lia.
Qed.

End NumberFacts.

(** ** Normalisation of an upstream item *)

Section Normalisation.

Lemma formatYear_first_segment (d : string) :
  TmdbUtils.formatYear (Some d) = first_segment d.
Proof.
  unfold TmdbUtils.formatYear. rewrite hd_split_first_segment.
  destruct d; reflexivity.
Qed.

Lemma extractYear_shape (date : option string) :
  empty_or_four_digits (Plain.extractYear date).
Proof.
  unfold Plain.extractYear.
  destruct (negb (Js.truthy date)); [now left|].
  destruct (Js.match_d4 (narrowed date)) as [y|] eqn:E; [right|now left].
  exact (match_d4_four_digits _ _ E).
Qed.

(** C1, as the code has it.  The converters that call [extractYear] produce a
    [year] that is empty or exactly four digits.  The converters of the helper
    library produce the text before the first hyphen of the date, whatever it
    holds, and the empty string when the date is missing.  The two rules give
    the same year whenever the text before the first hyphen is four digits. *)
Theorem year_extraction_rules :
  (forall item,
      empty_or_four_digits (year (Plain.convertTMDBMovieToDoubanItem item))
      /\ empty_or_four_digits (year (Plain.convertTMDBSeriesToDoubanItem item)))
  /\ (forall item,
         year (TmdbUtils.convertTMDBMovieToDoubanItem item)
         = match release_date item with
           | Some d => first_segment d
           | None => EmptyString
           end
         /\ year (TmdbUtils.convertTMDBSeriesToDoubanItem item)
            = match first_air_date item with
              | Some d => first_segment d
              | None => EmptyString
              end)
  /\ (forall d,
         four_digits (first_segment d) = true ->
         Plain.extractYear (Some d) = first_segment d
         /\ TmdbUtils.formatYear (Some d) = first_segment d).
Proof.
  split; [|split].
  - intros item; split; apply extractYear_shape.
  - intros item; split; cbn [year TmdbUtils.convertTMDBMovieToDoubanItem
                               TmdbUtils.convertTMDBSeriesToDoubanItem].
    + destruct (release_date item) as [d|]; [|reflexivity].
      exact (formatYear_first_segment d).
    + destruct (first_air_date item) as [d|]; [|reflexivity].
      exact (formatYear_first_segment d).
  - intros d H; split; [|apply formatYear_first_segment].
    assert (Hd : d <> EmptyString) by (intros ->; discriminate H).
    unfold Plain.extractYear.
    destruct (narrowed_truthy (Some d) d eq_refl Hd) as [-> ->].
    cbn [negb]. now rewrite (match_d4_first_segment d H).
Qed.

Lemma year_extraction_rules_witness :
  four_digits (first_segment "2021-07-04") = true
  /\ Plain.extractYear (Some "2021-07-04") = "2021"
  /\ TmdbUtils.formatYear (Some "2021-07-04") = "2021".
Proof.
  split; [reflexivity|].
  exact (proj2 (proj2 year_extraction_rules) "2021-07-04" eq_refl).
Defined.

(** C1 as stated fails: on a date that does not start with the year the
    helper library's converter keeps the whole text, which is neither empty
    nor four digits, and the other converter gives a different year. *)
Lemma year_not_always_four_digits :
  year (TmdbUtils.convertTMDBMovieToDoubanItem loosely_dated) = "July 2021"
  /\ ~ empty_or_four_digits (year (TmdbUtils.convertTMDBMovieToDoubanItem loosely_dated))
  /\ year (Plain.convertTMDBMovieToDoubanItem loosely_dated) = "2021"
  /\ year (TmdbUtils.convertTMDBSeriesToDoubanItem loosely_dated) = "04/07/2021"
  /\ year (Plain.convertTMDBSeriesToDoubanItem loosely_dated) = "2021".
Proof.
  repeat split; try reflexivity.
  intros [H|H]; discriminate H.
Qed.

Lemma rate_of_seven : Js.toFixed1 (7 # 1) = "7.0".
Proof. reflexivity. Qed.

(** Up to the largest safe integer, an identifier is printed digit for
    digit. *)
Lemma safe_integer_to_string (z : Z) :
  Z.abs z <= Js.MAX_SAFE_INTEGER ->
  Js.num_to_string (Js.to_double z) = Js.decimal z.
Proof.
  unfold Js.MAX_SAFE_INTEGER. intros Hz.
  rewrite to_double_safe by lia. apply num_to_string_safe. lia.
Qed.

Lemma positive_rating (r : Q) : (0 < r)%Q -> Qeq_bool r 0 = false.
Proof.
  intros Hpos. destruct (Qeq_bool r 0) eqn:E; [|reflexivity].
  apply Qeq_bool_iff in E. rewrite E in Hpos. now apply Qlt_irrefl in Hpos.
Qed.

(** [toFixed(1)] of a rating above 0 and at most 10: the nearest number of
    tenths, the larger one on a tie, with one digit after the point. *)
Lemma toFixed1_tenths (r : Q) :
  (0 < r)%Q -> (r <= 10 # 1)%Q ->
  exists n : Z,
    0 <= n <= 100
    /\ (inject_Z n <= r * (10 # 1) + (1 # 2))%Q
    /\ (r * (10 # 1) + (1 # 2) < inject_Z (n + 1))%Q
    /\ Js.toFixed1 r = Js.decimal (n / 10) ++ "." ++ Js.decimal (n mod 10).
Proof.
  intros Hpos Hmax.
  assert (Hle : Qle_bool 0 r = true) by (apply Qle_bool_iff, Qlt_le_weak, Hpos).
  assert (Habs : Qabs r = r).
  { destruct r as [num den]. unfold Qlt in Hpos. cbn in Hpos.
    unfold Qabs. f_equal. apply Z.abs_eq. lia. }
  exists (Qfloor (r * (10 # 1) + (1 # 2))).
  split; [|split; [apply Qfloor_le|split; [apply Qlt_floor|]]].
  - split.
    + change 0 with (Qfloor (1 # 2)). apply Qfloor_resp_le.
      rewrite <- (Qplus_0_l (1 # 2)) at 1. apply Qplus_le_l.
      apply Qmult_le_0_compat; [now apply Qlt_le_weak|discriminate].
    + change 100 with (Qfloor (201 # 2)). apply Qfloor_resp_le.
      setoid_replace (201 # 2)%Q with ((10 # 1) * (10 # 1) + (1 # 2))%Q by reflexivity.
      apply Qplus_le_l. apply Qmult_le_compat_r; [exact Hmax|discriminate].
  - unfold Js.toFixed1. now rewrite Hle, Habs.
Qed.

(** C8, as the code has it.  For each of the four converters.  An
    identifier of magnitude up to the largest safe integer is printed digit
    for digit.  The date 2021-07-04 gives the year 2021, and so does every
    date with four digits before its first hyphen give those digits; the
    rating 7.0 gives the rate 7.0, and every rating above 0 and at most 10
    gives the nearest number of tenths with one digit after the point.  A
    missing or empty date gives an empty year, and a missing or zero rating
    an empty rate.  A missing or empty poster path gives an empty poster, and
    any other path is appended to the image address with the size segment
    w500. *)
Theorem normalisation_reference :
  forall convert date,
    In (convert, date) converters ->
    forall item : TMDBItem,
      (Z.abs (tmdb_id item) <= Js.MAX_SAFE_INTEGER ->
       id (convert item) = Js.decimal (tmdb_id item))
      /\ (date item = Some "2021-07-04" -> year (convert item) = "2021")
      /\ (forall d, date item = Some d -> four_digits (first_segment d) = true ->
          year (convert item) = first_segment d)
      /\ (vote_average item = Some (7 # 1) -> rate (convert item) = "7.0")
      /\ (forall r, vote_average item = Some r -> (0 < r)%Q -> (r <= 10 # 1)%Q ->
          exists n : Z,
            0 <= n <= 100
            /\ (inject_Z n <= r * (10 # 1) + (1 # 2))%Q
            /\ (r * (10 # 1) + (1 # 2) < inject_Z (n + 1))%Q
            /\ rate (convert item) = Js.decimal (n / 10) ++ "." ++ Js.decimal (n mod 10))
      /\ (date item = None \/ date item = Some EmptyString ->
          year (convert item) = EmptyString)
      /\ (vote_average item = None
          \/ (exists r, vote_average item = Some r /\ (r == 0)%Q) ->
          rate (convert item) = EmptyString)
      /\ (poster_path item = None \/ poster_path item = Some EmptyString ->
          poster (convert item) = EmptyString)
      /\ (forall p, poster_path item = Some p -> p <> EmptyString ->
          poster (convert item) = "https://image.tmdb.org/t/p/w500" ++ p).
Proof.
  intros convert date Hin item.
  assert (Hrate : forall r, (r == 0)%Q -> Qeq_bool r 0 = true)
    by (intros r; apply Qeq_bool_iff).
  assert (Hyear : forall d, four_digits (first_segment d) = true ->
                            TmdbUtils.formatYear (Some d) = first_segment d
                            /\ Plain.extractYear (Some d) = first_segment d).
  { intros d H. split; [apply formatYear_first_segment|].
    assert (Hd : d <> EmptyString) by (intros ->; discriminate H).
    unfold Plain.extractYear.
    destruct (narrowed_truthy (Some d) d eq_refl Hd) as [-> ->].
    cbn [negb]. now rewrite (match_d4_first_segment d H). }
  cbn [converters In] in Hin.
  destruct Hin as [E|[E|[E|[E|[]]]]]; injection E as <- <-;
    cbn [id year rate poster
         TmdbUtils.convertTMDBMovieToDoubanItem TmdbUtils.convertTMDBSeriesToDoubanItem
         Plain.convertTMDBMovieToDoubanItem Plain.convertTMDBSeriesToDoubanItem];
    (split; [apply safe_integer_to_string|]);
    (split; [intros ->; reflexivity|]);
    (split; [intros d -> Hd; first [exact (proj1 (Hyear d Hd)) | exact (proj2 (Hyear d Hd))]|]);
    (split; [intros ->; reflexivity|]);
    (split; [intros r -> Hpos Hmax; rewrite (positive_rating r Hpos);
             exact (toFixed1_tenths r Hpos Hmax)|]);
    (split; [intros [-> | ->]; reflexivity|]);
    (split; [intros [-> | [r [-> Hr]]]; [reflexivity | now rewrite (Hrate r Hr)]|]);
    (split; [intros [-> | ->]; reflexivity|]);
    intros p Hp Hne;
    destruct (narrowed_truthy _ p Hp Hne) as [Ht Hn];
    unfold Plain.getTMDBImageUrl; rewrite ?Ht, ?Hn, ?Hp;
    apply str_truthy_iff in Hne; now rewrite ?Hne.
Qed.

Lemma normalisation_reference_witness :
  In (TmdbUtils.convertTMDBMovieToDoubanItem, release_date) converters
  /\ TmdbUtils.convertTMDBMovieToDoubanItem sample_movie
     = mkDoubanItem "550" (Some "搏击俱乐部")
         "https://image.tmdb.org/t/p/w500/a26cQPRhJPX6GbWfQbvZdrrp9j9.jpg" "7.0" "2021"
  /\ id (TmdbUtils.convertTMDBMovieToDoubanItem sample_movie) = Js.decimal 550
  /\ year (TmdbUtils.convertTMDBMovieToDoubanItem sample_movie) = "2021"
  /\ rate (TmdbUtils.convertTMDBMovieToDoubanItem sample_movie) = "7.0".
Proof.
  assert (Hin : In (TmdbUtils.convertTMDBMovieToDoubanItem, release_date) converters)
    by (left; reflexivity).
  destruct (normalisation_reference _ _ Hin sample_movie) as (Hid & Hy & _ & Hr & _).
  split; [exact Hin|]. split; [reflexivity|]. split; [apply Hid; discriminate|].
  split; [exact (Hy eq_refl) | exact (Hr eq_refl)].
Defined.

(** C8 as stated fails where it names the identifier: past the safe
    integers the converters print the double and not the digits of the
    upstream number, rounded from seventeen digits on and with an exponent
    from 10^21 on. *)
Lemma large_id_is_not_printed_in_full :
  Js.decimal (tmdb_id large_id) = "1000000000000000000000"
  /\ id (TmdbUtils.convertTMDBMovieToDoubanItem large_id) = "1e+21"
  /\ id (TmdbUtils.convertTMDBSeriesToDoubanItem large_id) = "1e+21"
  /\ id (Plain.convertTMDBMovieToDoubanItem large_id) = "1e+21"
  /\ id (Plain.convertTMDBSeriesToDoubanItem large_id) = "1e+21"
  /\ Js.decimal (tmdb_id rounded_id) = "1152921504606846976"
  /\ id (TmdbUtils.convertTMDBMovieToDoubanItem rounded_id) = "1152921504606847000"
  /\ id (Plain.convertTMDBMovieToDoubanItem rounded_id) = "1152921504606847000".
Proof.
  repeat split; vm_compute; reflexivity.
Qed.

End Normalisation.

(** ** The strategy resolver *)

Section Resolver.

(** Case analysis on every comparison of [x] with a [case] label. *)
Ltac case_labels x :=
  repeat match goal with
         | |- context [String.eqb x ?label] => destruct (String.eqb x label)
         end.

(** The same, keeping the labels apart from an [x] that is none of them. *)
Ltac exclude_labels x Hnot :=
  repeat match goal with
         | |- context [String.eqb x ?label] =>
             destruct (String.eqb_spec x label) as [->|_];
             [exfalso; apply Hnot; unfold known_labels; simpl; auto 20|]
         end.

(** C2, as the code has it.  Every strategy of the resolver carries
    [include_adult=false] and [include_video=false], for the series kind as
    for the movie kind; the page is merged in by the handler, so the
    parameters it hands to the URL builder carry all three; and so do the
    parameters of the category route for every kind, category and type. *)
Theorem baseline_parameters :
  (forall tag type,
      Js.obj_get (params (TmdbUtils.getSearchStrategy tag type)) "include_adult"
      = Some (Js.VBool false)
      /\ Js.obj_get (params (TmdbUtils.getSearchStrategy tag type)) "include_video"
         = Some (Js.VBool false))
  /\ (forall tag type page,
         Js.obj_get (SearchRoute.cleanParams (TmdbUtils.getSearchStrategy tag type) page)
           "include_adult" = Some (Js.VBool false)
         /\ Js.obj_get (SearchRoute.cleanParams (TmdbUtils.getSearchStrategy tag type) page)
              "include_video" = Some (Js.VBool false)
         /\ Js.obj_get (SearchRoute.cleanParams (TmdbUtils.getSearchStrategy tag type) page)
              "page" = Some (Js.VNum page))
  /\ (forall kind category type page,
         Js.obj_get (snd (CategoryRoute.upstream_query kind category type page))
           "include_adult" = Some (Js.VBool false)
         /\ Js.obj_get (snd (CategoryRoute.upstream_query kind category type page))
              "include_video" = Some (Js.VBool false)
         /\ Js.obj_get (snd (CategoryRoute.upstream_query kind category type page))
              "page" = Some (Js.VNum page)).
Proof.
  split; [|split].
  - intros tag type. unfold TmdbUtils.getSearchStrategy.
    case_labels type; case_labels tag; split; reflexivity.
  - intros tag type page. unfold TmdbUtils.getSearchStrategy.
    case_labels type; case_labels tag; repeat split; reflexivity.
  - intros kind category type page.
    unfold CategoryRoute.upstream_query, CategoryRoute.movie_type,
      CategoryRoute.movie_category, CategoryRoute.tv_category.
    case_labels kind; case_labels category; case_labels type;
      repeat split; reflexivity.
Qed.

(** C2 as stated fails: the strategy for the series kind carries
    [include_video=false] too, and so does the category route for the series
    kind; the strategy itself carries no page. *)
Lemma series_strategy_has_include_video :
  Js.obj_get (params (TmdbUtils.getSearchStrategy "热门" "tv")) "include_video"
  = Some (Js.VBool false)
  /\ Js.obj_get (snd (CategoryRoute.upstream_query "tv" "tv" "tv" (Js.Int 1)))
       "include_video" = Some (Js.VBool false)
  /\ Js.obj_get (params (TmdbUtils.getSearchStrategy "热门" "tv")) "page" = None.
Proof.
  repeat split.
Qed.

(** C7.  For the movie and the series kind, a label that is none of the
    resolver's [case] labels for that kind gives the search endpoint of the
    kind, with the two base parameters and [query] set to the label itself. *)
Theorem unknown_label_is_searched :
  forall tag type,
    type = "movie" \/ type = "tv" ->
    ~ In tag (known_labels type) ->
    TmdbUtils.getSearchStrategy tag type
    = mkStrategy ("/search/" ++ type)
        [("include_adult", Js.VBool false); ("include_video", Js.VBool false);
         ("query", Js.VStr tag)]
    /\ Js.obj_get (params (TmdbUtils.getSearchStrategy tag type)) "query"
       = Some (Js.VStr tag).
Proof.
  intros tag type [-> | ->] Hnot; unfold TmdbUtils.getSearchStrategy.
  - change (String.eqb "movie" "movie") with true. cbv iota.
    exclude_labels tag Hnot. split; reflexivity.
  - change (String.eqb "tv" "movie") with false.
    change (String.eqb "tv" "tv") with true. cbv iota.
    exclude_labels tag Hnot. split; reflexivity.
Qed.

Lemma unknown_label_is_searched_witness :
  ~ In "星际穿越" (known_labels "movie")
  /\ TmdbUtils.getSearchStrategy "星际穿越" "movie"
     = mkStrategy "/search/movie"
         [("include_adult", Js.VBool false); ("include_video", Js.VBool false);
          ("query", Js.VStr "星际穿越")].
Proof.
  assert (Hnot : ~ In "星际穿越" (known_labels "movie")).
  { simpl. intros H.
    repeat match goal with H : _ \/ _ |- _ => destruct H as [H|H]; [discriminate H|] end.
    exact H. }
  split; [exact Hnot|].
  exact (proj1 (unknown_label_is_searched "星际穿越" "movie" (or_introl eq_refl) Hnot)).
Defined.

(** The table is exact: a label of the table never gives the search
    endpoint, so no [query] is sent for it. *)
Lemma known_label_is_not_searched :
  forall tag type,
    type = "movie" \/ type = "tv" ->
    In tag (known_labels type) ->
    Js.obj_get (params (TmdbUtils.getSearchStrategy tag type)) "query" = None.
Proof.
  intros tag type [-> | ->] Hin; simpl in Hin;
    repeat match goal with H : _ \/ _ |- _ => destruct H as [<-|H] end;
    try contradiction; reflexivity.
Qed.

(** The page that the URL builder is given is the page of the address. *)
Lemma page_in_search_target (key tag type : string) (page : Js.num) :
  Js.params_get (Js.searchParams (SearchRoute.target_object key tag type page)) "page"
  = Some (Js.num_to_string page).
Proof.
  unfold SearchRoute.target_object, TmdbUtils.getSearchStrategy.
  case_labels type; case_labels tag; reflexivity.
Qed.

Lemma page_in_category_target (key kind category type : string) (page : Js.num) :
  Js.params_get (Js.searchParams (CategoryRoute.target_object key kind category type page))
    "page"
  = Some (Js.num_to_string page).
Proof.
  unfold CategoryRoute.target_object, CategoryRoute.upstream_query,
    CategoryRoute.movie_type, CategoryRoute.movie_category, CategoryRoute.tv_category.
  case_labels kind; case_labels category; case_labels type; reflexivity.
Qed.

End Resolver.

(** ** The request handlers *)

Section Handlers.

(** One step of case analysis on the outermost test of a handler. *)
Ltac branch :=
  match goal with
  | |- context [if ?c then _ else _] =>
      lazymatch c with
      | true => fail
      | false => fail
      | _ => let E := fresh "E" in destruct c eqn:E
      end
  end; cbv iota.

(** *** What a handler has done when it has sent a request *)

Lemma search_route_sent e req c :
  snd (SearchRoute.GET e req) = [c] ->
  c = SearchRoute.request
        (SearchRoute.target (narrowed (TMDB_API_KEY e))
           (narrowed (Js.params_get req "tag")) (narrowed (Js.params_get req "type"))
           (page_number (int_param req "pageStart" "0") (int_param req "pageSize" "20")))
  /\ fst (SearchRoute.GET e req)
     = SearchRoute.after_fetch e (narrowed (Js.params_get req "type")) (fetch e c)
  /\ Js.lt (int_param req "pageSize" "20") (Js.Int 1) = false
  /\ Js.gt (int_param req "pageSize" "20") (Js.Int 100) = false
  /\ Js.lt (int_param req "pageStart" "0") (Js.Int 0) = false.
Proof.
  cbv beta zeta delta [SearchRoute.GET].
  repeat branch; cbn [snd fst]; intros H; try discriminate H.
  injection H as <-.
  apply orb_false_elim in E1. tauto.
Qed.

Lemma category_route_sent e req c :
  snd (CategoryRoute.GET e req) = [c] ->
  c = CategoryRoute.request
        (CategoryRoute.target (narrowed (TMDB_API_KEY e))
           (Js.or_else (Js.params_get req "kind") "movie")
           (narrowed (Js.params_get req "category")) (narrowed (Js.params_get req "type"))
           (page_number (int_param req "start" "0") (int_param req "limit" "20")))
  /\ fst (CategoryRoute.GET e req)
     = CategoryRoute.after_fetch e (Js.or_else (Js.params_get req "kind") "movie")
         (fetch e c)
  /\ Js.lt (int_param req "limit" "20") (Js.Int 1) = false
  /\ Js.gt (int_param req "limit" "20") (Js.Int 100) = false
  /\ Js.lt (int_param req "start" "0") (Js.Int 0) = false.
Proof.
  cbv beta zeta delta [CategoryRoute.GET].
  repeat branch; cbn [snd fst]; intros H; try discriminate H.
  injection H as <-.
  apply orb_false_elim in E1. tauto.
Qed.

Lemma plain_search_route_sent e req c :
  snd (PlainSearchRoute.GET e req) = [c] ->
  c = Plain.request
        (PlainSearchRoute.searchUrl (narrowed (TMDB_API_KEY e))
           (narrowed (Js.params_get req "tag")) (narrowed (Js.params_get req "type"))
           (page_number (int_param req "pageStart" "0") (int_param req "pageSize" "20")))
  /\ fst (PlainSearchRoute.GET e req)
     = Plain.after_fetch (String.eqb (narrowed (Js.params_get req "type")) "movie")
         "获取 TMDB 搜索数据失败" (fetch e c)
  /\ Js.lt (int_param req "pageSize" "20") (Js.Int 1) = false
  /\ Js.gt (int_param req "pageSize" "20") (Js.Int 100) = false
  /\ Js.lt (int_param req "pageStart" "0") (Js.Int 0) = false.
Proof.
  cbv beta zeta delta [PlainSearchRoute.GET].
  repeat branch; cbn [snd fst]; intros H; try discriminate H.
  injection H as <-.
  apply orb_false_elim in E1. tauto.
Qed.

Lemma plain_category_route_sent e req c :
  snd (PlainCategoryRoute.GET e req) = [c] ->
  c = Plain.request
        (PlainCategoryRoute.target (narrowed (TMDB_API_KEY e))
           (Js.or_else (Js.params_get req "kind") "movie")
           (narrowed (Js.params_get req "category"))
           (page_number (int_param req "start" "0") (int_param req "limit" "20")))
  /\ fst (PlainCategoryRoute.GET e req)
     = Plain.after_fetch (String.eqb (Js.or_else (Js.params_get req "kind") "movie") "movie")
         "获取 TMDB 分类数据失败" (fetch e c)
  /\ Js.lt (int_param req "limit" "20") (Js.Int 1) = false
  /\ Js.gt (int_param req "limit" "20") (Js.Int 100) = false
  /\ Js.lt (int_param req "start" "0") (Js.Int 0) = false.
Proof.
  cbv beta zeta delta [PlainCategoryRoute.GET].
  repeat branch; cbn [snd fst]; intros H; try discriminate H.
  injection H as <-.
  apply orb_false_elim in E1. tauto.
Qed.

(** A request that passes every test is sent, once. *)
Lemma search_route_sends e req :
  Js.truthy (Js.params_get req "tag") = true ->
  (String.eqb (narrowed (Js.params_get req "type")) "tv"
   || String.eqb (narrowed (Js.params_get req "type")) "movie") = true ->
  Js.lt (int_param req "pageSize" "20") (Js.Int 1) = false ->
  Js.gt (int_param req "pageSize" "20") (Js.Int 100) = false ->
  Js.lt (int_param req "pageStart" "0") (Js.Int 0) = false ->
  Js.truthy (TMDB_API_KEY e) = true ->
  (String.eqb (narrowed (Js.params_get req "tag")) "综艺"
   && String.eqb (narrowed (Js.params_get req "type")) "movie") = false ->
  snd (SearchRoute.GET e req)
  = [SearchRoute.request
       (SearchRoute.target (narrowed (TMDB_API_KEY e))
          (narrowed (Js.params_get req "tag")) (narrowed (Js.params_get req "type"))
          (page_number (int_param req "pageStart" "0") (int_param req "pageSize" "20")))].
Proof.
  intros Htag Htype Hmin Hmax Hstart Hkey Hvariety.
  assert (Hpresent : Js.truthy (Js.params_get req "type") = true)
    by (destruct (Js.params_get req "type") as [[|c s]|];
        [discriminate | reflexivity | discriminate]).
  cbv beta zeta delta [SearchRoute.GET].
  now rewrite Htag, Hpresent, Htype, Hmin, Hmax, Hstart, Hkey, Hvariety.
Qed.

Lemma category_route_sends e req :
  Js.truthy (Js.params_get req "category") = true ->
  Js.truthy (Js.params_get req "type") = true ->
  (String.eqb (Js.or_else (Js.params_get req "kind") "movie") "tv"
   || String.eqb (Js.or_else (Js.params_get req "kind") "movie") "movie") = true ->
  Js.lt (int_param req "limit" "20") (Js.Int 1) = false ->
  Js.gt (int_param req "limit" "20") (Js.Int 100) = false ->
  Js.lt (int_param req "start" "0") (Js.Int 0) = false ->
  Js.truthy (TMDB_API_KEY e) = true ->
  snd (CategoryRoute.GET e req)
  = [CategoryRoute.request
       (CategoryRoute.target (narrowed (TMDB_API_KEY e))
          (Js.or_else (Js.params_get req "kind") "movie")
          (narrowed (Js.params_get req "category")) (narrowed (Js.params_get req "type"))
          (page_number (int_param req "start" "0") (int_param req "limit" "20")))].
Proof.
  intros Hcat Htype Hkind Hmin Hmax Hstart Hkey.
  assert (Hk : Js.str_truthy (Js.or_else (Js.params_get req "kind") "movie") = true).
  { destruct (Js.params_get req "kind") as [s|]; [|reflexivity].
    unfold Js.or_else. now destruct (Js.str_truthy s) eqn:E. }
  cbv beta zeta delta [CategoryRoute.GET].
  now rewrite Hk, Hcat, Htype, Hkind, Hmin, Hmax, Hstart, Hkey.
Qed.

(** *** The failures of the upstream request *)

Lemma search_after_failure e type settled err :
  failure_of settled = Some err ->
  SearchRoute.after_fetch e type settled = SearchRoute.on_error err.
Proof.
  destruct settled as [err'|s b]; cbn [failure_of SearchRoute.after_fetch]; [congruence|].
  destruct (negb (ok s)); [congruence|]. destruct b; congruence.
Qed.

Lemma category_after_failure e kind settled err :
  failure_of settled = Some err ->
  CategoryRoute.after_fetch e kind settled = CategoryRoute.on_error err.
Proof.
  destruct settled as [err'|s b]; cbn [failure_of CategoryRoute.after_fetch]; [congruence|].
  destruct (negb (ok s)); [congruence|]. destruct b; congruence.
Qed.

Lemma plain_after_failure as_movie failure settled err :
  failure_of settled = Some err ->
  Plain.after_fetch as_movie failure settled = mkResponse 500 (ErrorBody failure) [].
Proof.
  destruct settled as [err'|s b]; cbn [failure_of Plain.after_fetch]; [congruence|].
  destruct (negb (ok s)); [congruence|]. destruct b; congruence.
Qed.

(** Among the statuses from 100 to 599, only 401, 429 and 500 give an error
    message in which the [catch] clause finds one of its three needles. *)
Lemma api_error_needles :
  forallb
    (fun s =>
       let msg := "TMDB API error: " ++ Js.decimal s in
       (s =? 401) || (s =? 429) || (s =? 500)
       || negb (Js.includes msg "401" || Js.includes msg "429" || Js.includes msg "500"))
    http_statuses = true.
Proof. vm_compute. reflexivity. Qed.

Lemma api_error_unrecognised (s : Z) :
  100 <= s <= 599 -> s <> 401 -> s <> 429 -> s <> 500 -> unrecognised (api_error s).
Proof.
  intros Hs H401 H429 H500.
  assert (Hin : In s http_statuses).
  { unfold http_statuses. apply in_map_iff. exists (Z.to_nat (s - 100)).
    split; [lia|]. apply in_seq. lia. }
  pose proof (proj1 (forallb_forall _ _) api_error_needles s Hin) as H.
  cbv beta zeta in H.
  apply Z.eqb_neq in H401, H429, H500. rewrite H401, H429, H500 in H.
  cbn [orb] in H. apply negb_true_iff in H.
  apply orb_false_elim in H as [H H3]. apply orb_false_elim in H as [H1 H2].
  unfold api_error, unrecognised. repeat split; try assumption. discriminate.
Qed.

Lemma search_unrecognised err :
  unrecognised err ->
  SearchRoute.on_error err = mkResponse 500 (ErrorBody "获取 TMDB 搜索数据失败") [].
Proof.
  destruct err as [name msg|]; [|reflexivity].
  intros (Hname & H1 & H2 & H3). apply String.eqb_neq in Hname.
  unfold SearchRoute.on_error. now rewrite Hname, H1, H2, H3.
Qed.

Lemma category_unrecognised err :
  unrecognised err ->
  CategoryRoute.on_error err = mkResponse 500 (ErrorBody "获取 TMDB 分类数据失败") [].
Proof.
  destruct err as [name msg|]; [|reflexivity].
  intros (Hname & H1 & H2 & H3). apply String.eqb_neq in Hname.
  unfold CategoryRoute.on_error. now rewrite Hname, H1, H2, H3.
Qed.

(** A handler of route.ts answers a failure through its [catch] clause. *)
Lemma mapping_route_failure GET generic :
  In (GET, generic) mapping_routes ->
  exists on_error : thrown -> response,
    (forall e req c err,
        snd (GET e req) = [c] -> failure_of (fetch e c) = Some err ->
        fst (GET e req) = on_error err)
    /\ (forall m, on_error (Error "AbortError" m)
                  = mkResponse 408 (ErrorBody "请求超时，请稍后重试") [])
    /\ on_error (api_error 401) = mkResponse 500 (ErrorBody "TMDB API Key 无效") []
    /\ on_error (api_error 429)
       = mkResponse 429 (ErrorBody "TMDB API 请求过于频繁，请稍后再试") []
    /\ on_error (api_error 500) = mkResponse 502 (ErrorBody "TMDB 服务器错误") []
    /\ (forall err, unrecognised err -> on_error err = mkResponse 500 (ErrorBody generic) []).
Proof.
  intros [E|[E|[]]]; injection E as <- <-.
  - exists SearchRoute.on_error. split.
    { intros e req c err Hc Hf. destruct (search_route_sent e req c Hc) as (_ & -> & _).
      now apply search_after_failure. }
    repeat split; try reflexivity. apply search_unrecognised.
  - exists CategoryRoute.on_error. split.
    { intros e req c err Hc Hf. destruct (category_route_sent e req c Hc) as (_ & -> & _).
      now apply category_after_failure. }
    repeat split; try reflexivity. apply category_unrecognised.
Qed.

(** C3, as the code has it.  In the two handlers of route.ts a request that
    has been sent and fails is answered through the [catch] clause: an abort
    gives 408 with the timeout message, an upstream 429 gives 429, an
    upstream 500 gives 502, an upstream 401 gives 500 with the invalid key
    message, and every other upstream status and every thrown value in which
    the clause recognises nothing gives 500 with the handler's generic
    message.  The two plain handlers answer every failure with 500 and their
    one message. *)
Theorem fetch_failure_mapping :
  (forall GET generic,
      In (GET, generic) mapping_routes ->
      forall e req c,
        snd (GET e req) = [c] ->
        (forall m, fetch e c = Rejects (Error "AbortError" m) ->
                   fst (GET e req) = mkResponse 408 (ErrorBody "请求超时，请稍后重试") [])
        /\ (forall b, fetch e c = Responds 429 b ->
                      fst (GET e req)
                      = mkResponse 429 (ErrorBody "TMDB API 请求过于频繁，请稍后再试") [])
        /\ (forall b, fetch e c = Responds 500 b ->
                      fst (GET e req) = mkResponse 502 (ErrorBody "TMDB 服务器错误") [])
        /\ (forall b, fetch e c = Responds 401 b ->
                      fst (GET e req) = mkResponse 500 (ErrorBody "TMDB API Key 无效") [])
        /\ (forall s b, fetch e c = Responds s b ->
                        100 <= s <= 599 -> ok s = false ->
                        s <> 401 -> s <> 429 -> s <> 500 ->
                        fst (GET e req) = mkResponse 500 (ErrorBody generic) [])
        /\ (forall err, failure_of (fetch e c) = Some err -> unrecognised err ->
                        fst (GET e req) = mkResponse 500 (ErrorBody generic) []))
  /\ (forall GET failure,
         In (GET, failure) plain_routes ->
         forall e req c err,
           snd (GET e req) = [c] ->
           failure_of (fetch e c) = Some err ->
           fst (GET e req) = mkResponse 500 (ErrorBody failure) []).
Proof.
  split.
  - intros GET generic Hin e req c Hc.
    destruct (mapping_route_failure GET generic Hin)
      as (on_error & Hcatch & H408 & H401 & H429 & H500 & Hother).
    repeat split.
    + intros m Hf. rewrite (Hcatch e req c _ Hc) by (rewrite Hf; reflexivity). apply H408.
    + intros b Hf. rewrite (Hcatch e req c (api_error 429) Hc) by (rewrite Hf; reflexivity).
      exact H429.
    + intros b Hf. rewrite (Hcatch e req c (api_error 500) Hc) by (rewrite Hf; reflexivity).
      exact H500.
    + intros b Hf. rewrite (Hcatch e req c (api_error 401) Hc) by (rewrite Hf; reflexivity).
      exact H401.
    + intros s b Hf Hs Hok H1 H2 H3.
      rewrite (Hcatch e req c (api_error s) Hc)
        by (rewrite Hf; cbn [failure_of]; now rewrite Hok).
      apply Hother, api_error_unrecognised; assumption.
    + intros err Hf Hu. rewrite (Hcatch e req c err Hc Hf). now apply Hother.
  - intros GET failure [E|[E|[]]] e req c err Hc Hf; injection E as <- <-.
    + destruct (plain_search_route_sent e req c Hc) as (_ & -> & _).
      now apply plain_after_failure with err.
    + destruct (plain_category_route_sent e req c Hc) as (_ & -> & _).
      now apply plain_after_failure with err.
Qed.

Lemma fetch_failure_mapping_witness :
  In (SearchRoute.GET, "获取 TMDB 搜索数据失败") mapping_routes
  /\ snd (SearchRoute.GET (settling rate_limited) popular_movies)
     = [SearchRoute.request (SearchRoute.target "key" "热门" "movie" (Js.Int 2))]
  /\ fst (SearchRoute.GET (settling rate_limited) popular_movies)
     = mkResponse 429 (ErrorBody "TMDB API 请求过于频繁，请稍后再试") []
  /\ fst (SearchRoute.GET (settling timed_out) popular_movies)
     = mkResponse 408 (ErrorBody "请求超时，请稍后重试") [].
Proof.
  assert (Hin : In (SearchRoute.GET, "获取 TMDB 搜索数据失败") mapping_routes)
    by (left; reflexivity).
  split; [exact Hin|]. split; [reflexivity|]. split.
  - refine (proj1 (proj2 (proj1 fetch_failure_mapping _ _ Hin (settling rate_limited)
                            popular_movies _ eq_refl)) (BodyJson []) eq_refl).
  - refine (proj1 (proj1 fetch_failure_mapping _ _ Hin (settling timed_out)
                     popular_movies _ eq_refl) _ eq_refl).
Defined.

(** C3 as stated fails on the plain search handler: it sends the request,
    and answers an upstream 429 and an aborted request alike with 500. *)
Lemma plain_route_answers_500 :
  snd (PlainSearchRoute.GET (settling rate_limited) popular_movies)
  = [Plain.request
       "https://api.themoviedb.org/3/search/movie?api_key=key&language=zh-CN&query=%E7%83%AD%E9%97%A8&page=2"]
  /\ fst (PlainSearchRoute.GET (settling rate_limited) popular_movies)
     = mkResponse 500 (ErrorBody "获取 TMDB 搜索数据失败") []
  /\ fst (PlainSearchRoute.GET (settling timed_out) popular_movies)
     = mkResponse 500 (ErrorBody "获取 TMDB 搜索数据失败") [].
Proof.
  repeat split.
Qed.

(** *** Validation and the early exits *)

(** C4.  With the key configured, the search route answers a request for
    variety shows of the movie kind that has passed validation (its page size
    and page offset are in range) with the success envelope and an empty
    list, and sends nothing. *)
Theorem variety_movie_short_circuit :
  forall e req,
    Js.params_get req "tag" = Some "综艺" ->
    Js.params_get req "type" = Some "movie" ->
    Js.truthy (TMDB_API_KEY e) = true ->
    Js.lt (int_param req "pageSize" "20") (Js.Int 1) = false ->
    Js.gt (int_param req "pageSize" "20") (Js.Int 100) = false ->
    Js.lt (int_param req "pageStart" "0") (Js.Int 0) = false ->
    SearchRoute.GET e req
    = (mkResponse 200 (ResultBody (mkDoubanResult 200 "获取成功" [])) [], []).
Proof.
  intros e req Htag Htype Hkey Hmin Hmax Hstart.
  cbv beta zeta delta [SearchRoute.GET].
  rewrite Htag, Htype, Hkey, Hmin, Hmax, Hstart. reflexivity.
Qed.

Lemma variety_movie_short_circuit_witness :
  SearchRoute.GET (settling answered) (variety_movies "20")
  = (mkResponse 200 (ResultBody (mkDoubanResult 200 "获取成功" [])) [], []).
Proof.
  exact (variety_movie_short_circuit (settling answered) (variety_movies "20")
           eq_refl eq_refl eq_refl eq_refl eq_refl eq_refl).
Defined.

(** Validation comes first: the same request with a page size of zero is
    refused with 400, like every other request with that page size. *)
Lemma variety_movie_with_page_size_zero :
  Js.truthy (TMDB_API_KEY (settling answered)) = true
  /\ SearchRoute.GET (settling answered) (variety_movies "0")
     = (mkResponse 400 (ErrorBody "pageSize 必须在 1-100 之间") [], []).
Proof.
  split; reflexivity.
Qed.

(** What is left of an out-of-range test once the tests that come first have
    been decided. *)
Ltac refute_range :=
  match goal with
  | Hn : int_param ?req ?name ?d = Js.Int ?n, E : context [int_param ?req ?name ?d] |- _ =>
      rewrite Hn in E; unfold Js.gt, Js.lt in E;
      try apply orb_false_elim in E; exfalso; lia
  end.

Ltac refute_missing :=
  match goal with
  | H : Js.truthy ?x = false, E : context [Js.truthy ?x] |- _ =>
      rewrite H in E; cbn [negb orb] in E; rewrite ?orb_true_r in E; discriminate E
  end.

(** C5, as the code has it.  Each handler refuses with 400, sending
    nothing: a request whose tag (or category) or whose type is missing or
    empty, with the missing-parameter message; a request whose page size
    parses to an integer below 1 or above 100; and a request whose page
    offset parses to a negative integer.  The category handlers give a
    missing kind the value movie, so its absence is no reason to refuse. *)
Theorem validation_fails_fast :
  (forall GET,
      In GET tag_routes ->
      forall e req,
        (Js.truthy (Js.params_get req "tag") = false
         \/ Js.truthy (Js.params_get req "type") = false ->
         GET e req = (mkResponse 400 (ErrorBody "缺少必要参数：tag 或 type") [], []))
        /\ (forall n, int_param req "pageSize" "20" = Js.Int n -> n < 1 \/ 100 < n ->
                      status (fst (GET e req)) = 400 /\ snd (GET e req) = [])
        /\ (forall n, int_param req "pageStart" "0" = Js.Int n -> n < 0 ->
                      status (fst (GET e req)) = 400 /\ snd (GET e req) = []))
  /\ (forall GET,
         In GET kind_routes ->
         forall e req,
           (Js.truthy (Js.params_get req "category") = false
            \/ Js.truthy (Js.params_get req "type") = false ->
            GET e req
            = (mkResponse 400 (ErrorBody "缺少必要参数：kind 或 category 或 type") [], []))
           /\ (forall n, int_param req "limit" "20" = Js.Int n -> n < 1 \/ 100 < n ->
                         status (fst (GET e req)) = 400 /\ snd (GET e req) = [])
           /\ (forall n, int_param req "start" "0" = Js.Int n -> n < 0 ->
                         status (fst (GET e req)) = 400 /\ snd (GET e req) = [])).
Proof.
  split; intros GET [<-|[<-|[]]] e req;
    (split; [|split]);
    [ intros [H|H] | intros n Hn Hr | intros n Hn Hr
    | intros [H|H] | intros n Hn Hr | intros n Hn Hr
    | intros [H|H] | intros n Hn Hr | intros n Hn Hr
    | intros [H|H] | intros n Hn Hr | intros n Hn Hr ];
    cbv beta zeta delta [SearchRoute.GET PlainSearchRoute.GET
                         CategoryRoute.GET PlainCategoryRoute.GET];
    repeat branch; cbn [fst snd status];
    try (split; reflexivity); try reflexivity;
    first [refute_missing | refute_range].
Qed.

Lemma validation_fails_fast_witness :
  In SearchRoute.GET tag_routes
  /\ int_param (variety_movies "101") "pageSize" "20" = Js.Int 101
  /\ status (fst (SearchRoute.GET (settling answered) (variety_movies "101"))) = 400
  /\ snd (SearchRoute.GET (settling answered) (variety_movies "101")) = []
  /\ SearchRoute.GET (settling answered) [("type", "movie")]
     = (mkResponse 400 (ErrorBody "缺少必要参数：tag 或 type") [], []).
Proof.
  assert (Hin : In SearchRoute.GET tag_routes) by (left; reflexivity).
  split; [exact Hin|]. split; [reflexivity|].
  destruct (proj1 validation_fails_fast _ Hin (settling answered) (variety_movies "101"))
    as (_ & Hsize & _).
  destruct (Hsize 101 eq_refl (or_intror eq_refl)) as [H400 Hnone].
  split; [exact H400|]. split; [exact Hnone|].
  exact (proj1 (proj1 validation_fails_fast _ Hin (settling answered) [("type", "movie")])
           (or_introl eq_refl)).
Defined.

(** C5 as stated fails where it names the kind: a category request without
    [kind] is not refused; both category handlers send the request for the
    movie kind and answer 200. *)
Lemma missing_kind_is_not_refused :
  Js.params_get chinese_popular "kind" = None
  /\ status (fst (PlainCategoryRoute.GET (settling answered) chinese_popular)) = 200
  /\ snd (PlainCategoryRoute.GET (settling answered) chinese_popular)
     = [Plain.request
          "https://api.themoviedb.org/3/movie/popular?api_key=key&language=zh-CN&page=1"]
  /\ status (fst (CategoryRoute.GET (settling answered) chinese_popular)) = 200
  /\ length (snd (CategoryRoute.GET (settling answered) chinese_popular)) = 1%nat.
Proof.
  repeat split.
Qed.

(** *** The page that is sent *)

Lemma plain_search_route_sends e req :
  Js.truthy (Js.params_get req "tag") = true ->
  (String.eqb (narrowed (Js.params_get req "type")) "tv"
   || String.eqb (narrowed (Js.params_get req "type")) "movie") = true ->
  Js.lt (int_param req "pageSize" "20") (Js.Int 1) = false ->
  Js.gt (int_param req "pageSize" "20") (Js.Int 100) = false ->
  Js.lt (int_param req "pageStart" "0") (Js.Int 0) = false ->
  Js.truthy (TMDB_API_KEY e) = true ->
  snd (PlainSearchRoute.GET e req)
  = [Plain.request
       (PlainSearchRoute.searchUrl (narrowed (TMDB_API_KEY e))
          (narrowed (Js.params_get req "tag")) (narrowed (Js.params_get req "type"))
          (page_number (int_param req "pageStart" "0") (int_param req "pageSize" "20")))].
Proof.
  intros Htag Htype Hmin Hmax Hstart Hkey.
  assert (Hpresent : Js.truthy (Js.params_get req "type") = true)
    by (destruct (Js.params_get req "type") as [[|c s]|];
        [discriminate | reflexivity | discriminate]).
  cbv beta zeta delta [PlainSearchRoute.GET].
  now rewrite Htag, Hpresent, Htype, Hmin, Hmax, Hstart, Hkey.
Qed.

Lemma plain_category_route_sends e req :
  Js.truthy (Js.params_get req "category") = true ->
  Js.truthy (Js.params_get req "type") = true ->
  (String.eqb (Js.or_else (Js.params_get req "kind") "movie") "tv"
   || String.eqb (Js.or_else (Js.params_get req "kind") "movie") "movie") = true ->
  Js.lt (int_param req "limit" "20") (Js.Int 1) = false ->
  Js.gt (int_param req "limit" "20") (Js.Int 100) = false ->
  Js.lt (int_param req "start" "0") (Js.Int 0) = false ->
  Js.truthy (TMDB_API_KEY e) = true ->
  snd (PlainCategoryRoute.GET e req)
  = [Plain.request
       (PlainCategoryRoute.target (narrowed (TMDB_API_KEY e))
          (Js.or_else (Js.params_get req "kind") "movie")
          (narrowed (Js.params_get req "category"))
          (page_number (int_param req "start" "0") (int_param req "limit" "20")))].
Proof.
  intros Hcat Htype Hkind Hmin Hmax Hstart Hkey.
  assert (Hk : Js.str_truthy (Js.or_else (Js.params_get req "kind") "movie") = true).
  { destruct (Js.params_get req "kind") as [s|]; [|reflexivity].
    unfold Js.or_else. now destruct (Js.str_truthy s) eqn:E. }
  cbv beta zeta delta [PlainCategoryRoute.GET].
  now rewrite Hk, Hcat, Htype, Hkind, Hmin, Hmax, Hstart, Hkey.
Qed.

(** A size and an offset in range pass the three tests on them. *)
Lemma in_range_passes (size start : Js.num) (l o : Z) :
  size = Js.Int l -> 1 <= l <= 100 -> start = Js.Int o -> 0 <= o ->
  Js.lt size (Js.Int 1) = false
  /\ Js.gt size (Js.Int 100) = false
  /\ Js.lt start (Js.Int 0) = false.
Proof.
  intros -> Hl -> Ho. unfold Js.gt, Js.lt. rewrite !Z.ltb_ge. lia.
Qed.

(** The page as the address carries it. *)
Lemma page_to_string (o l : Z) :
  0 <= o <= Js.MAX_SAFE_INTEGER -> 1 <= l <= 100 ->
  Js.num_to_string (Js.Int (o / l + 1)) = Js.decimal (o / l + 1).
Proof.
  unfold Js.MAX_SAFE_INTEGER. intros Ho Hl. apply num_to_string_safe.
  assert (0 <= o / l <= o).
  { split; [apply Z.div_pos; lia|]. apply Z.div_le_upper_bound; nia. }
  lia.
Qed.

(** C6, as the code has it.  Each handler computes the page with numbers
    that are doubles.  For a request that passes the other tests, with a page
    size that parses to [l] from 1 to 100 and a page offset that parses to
    [o] from 0 to the largest safe integer, the handler sends one request,
    and its page is the floor of [o / l], plus one: the [page] parameter of
    the URL object in the two handlers of route.ts, the end of the address in
    the two plain handlers.  Offsets 0, 20 and 25 with size 20 give the pages
    1, 2 and 2. *)
Theorem page_number_sent :
  (forall e req l o,
      Js.truthy (Js.params_get req "tag") = true ->
      (String.eqb (narrowed (Js.params_get req "type")) "tv"
       || String.eqb (narrowed (Js.params_get req "type")) "movie") = true ->
      (String.eqb (narrowed (Js.params_get req "tag")) "综艺"
       && String.eqb (narrowed (Js.params_get req "type")) "movie") = false ->
      Js.truthy (TMDB_API_KEY e) = true ->
      int_param req "pageSize" "20" = Js.Int l -> 1 <= l <= 100 ->
      int_param req "pageStart" "0" = Js.Int o -> 0 <= o <= Js.MAX_SAFE_INTEGER ->
      snd (SearchRoute.GET e req)
      = [SearchRoute.request
           (Js.url_to_string
              (SearchRoute.target_object (narrowed (TMDB_API_KEY e))
                 (narrowed (Js.params_get req "tag"))
                 (narrowed (Js.params_get req "type")) (Js.Int (o / l + 1))))]
      /\ Js.params_get
           (Js.searchParams
              (SearchRoute.target_object (narrowed (TMDB_API_KEY e))
                 (narrowed (Js.params_get req "tag"))
                 (narrowed (Js.params_get req "type")) (Js.Int (o / l + 1))))
           "page"
         = Some (Js.decimal (o / l + 1)))
  /\ (forall e req l o,
         Js.truthy (Js.params_get req "category") = true ->
         Js.truthy (Js.params_get req "type") = true ->
         (String.eqb (Js.or_else (Js.params_get req "kind") "movie") "tv"
          || String.eqb (Js.or_else (Js.params_get req "kind") "movie") "movie") = true ->
         Js.truthy (TMDB_API_KEY e) = true ->
         int_param req "limit" "20" = Js.Int l -> 1 <= l <= 100 ->
         int_param req "start" "0" = Js.Int o -> 0 <= o <= Js.MAX_SAFE_INTEGER ->
         snd (CategoryRoute.GET e req)
         = [CategoryRoute.request
              (Js.url_to_string
                 (CategoryRoute.target_object (narrowed (TMDB_API_KEY e))
                    (Js.or_else (Js.params_get req "kind") "movie")
                    (narrowed (Js.params_get req "category"))
                    (narrowed (Js.params_get req "type")) (Js.Int (o / l + 1))))]
         /\ Js.params_get
              (Js.searchParams
                 (CategoryRoute.target_object (narrowed (TMDB_API_KEY e))
                    (Js.or_else (Js.params_get req "kind") "movie")
                    (narrowed (Js.params_get req "category"))
                    (narrowed (Js.params_get req "type")) (Js.Int (o / l + 1))))
              "page"
            = Some (Js.decimal (o / l + 1)))
  /\ (forall e req l o,
         Js.truthy (Js.params_get req "tag") = true ->
         (String.eqb (narrowed (Js.params_get req "type")) "tv"
          || String.eqb (narrowed (Js.params_get req "type")) "movie") = true ->
         Js.truthy (TMDB_API_KEY e) = true ->
         int_param req "pageSize" "20" = Js.Int l -> 1 <= l <= 100 ->
         int_param req "pageStart" "0" = Js.Int o -> 0 <= o <= Js.MAX_SAFE_INTEGER ->
         snd (PlainSearchRoute.GET e req)
         = [Plain.request
              ("https://api.themoviedb.org/3/search/" ++ narrowed (Js.params_get req "type")
               ++ "?api_key=" ++ narrowed (TMDB_API_KEY e)
               ++ "&language=zh-CN&query="
               ++ Js.encodeURIComponent (narrowed (Js.params_get req "tag"))
               ++ "&page=" ++ Js.decimal (o / l + 1))])
  /\ (forall e req l o,
         Js.truthy (Js.params_get req "category") = true ->
         Js.truthy (Js.params_get req "type") = true ->
         (String.eqb (Js.or_else (Js.params_get req "kind") "movie") "tv"
          || String.eqb (Js.or_else (Js.params_get req "kind") "movie") "movie") = true ->
         Js.truthy (TMDB_API_KEY e) = true ->
         int_param req "limit" "20" = Js.Int l -> 1 <= l <= 100 ->
         int_param req "start" "0" = Js.Int o -> 0 <= o <= Js.MAX_SAFE_INTEGER ->
         snd (PlainCategoryRoute.GET e req)
         = [Plain.request
              ("https://api.themoviedb.org/3"
               ++ (if String.eqb (Js.or_else (Js.params_get req "kind") "movie") "movie"
                   then PlainCategoryRoute.movie_endpoint
                          (narrowed (Js.params_get req "category"))
                   else PlainCategoryRoute.tv_endpoint
                          (narrowed (Js.params_get req "category")))
               ++ "?api_key=" ++ narrowed (TMDB_API_KEY e)
               ++ "&language=zh-CN&page=" ++ Js.decimal (o / l + 1))])
  /\ page_number (Js.parseInt "0") (Js.parseInt "20") = Js.Int 1
  /\ page_number (Js.parseInt "20") (Js.parseInt "20") = Js.Int 2
  /\ page_number (Js.parseInt "25") (Js.parseInt "20") = Js.Int 2.
Proof.
  split; [|split; [|split; [|split; [|repeat split]]]].
  - intros e req l o Htag Htype Hvariety Hkey Hl Rl Ho Ro.
    destruct (in_range_passes _ _ l o Hl Rl Ho (proj1 Ro)) as (Hmin & Hmax & Hstart).
    rewrite (search_route_sends e req Htag Htype Hmin Hmax Hstart Hkey Hvariety).
    rewrite Hl, Ho, (page_number_safe o l Ro Rl).
    split; [reflexivity|].
    rewrite page_in_search_target. f_equal. now apply page_to_string.
  - intros e req l o Hcat Htype Hkind Hkey Hl Rl Ho Ro.
    destruct (in_range_passes _ _ l o Hl Rl Ho (proj1 Ro)) as (Hmin & Hmax & Hstart).
    rewrite (category_route_sends e req Hcat Htype Hkind Hmin Hmax Hstart Hkey).
    rewrite Hl, Ho, (page_number_safe o l Ro Rl).
    split; [reflexivity|].
    rewrite page_in_category_target. f_equal. now apply page_to_string.
  - intros e req l o Htag Htype Hkey Hl Rl Ho Ro.
    destruct (in_range_passes _ _ l o Hl Rl Ho (proj1 Ro)) as (Hmin & Hmax & Hstart).
    rewrite (plain_search_route_sends e req Htag Htype Hmin Hmax Hstart Hkey).
    rewrite Hl, Ho, (page_number_safe o l Ro Rl).
    unfold PlainSearchRoute.searchUrl. now rewrite (page_to_string o l Ro Rl).
  - intros e req l o Hcat Htype Hkind Hkey Hl Rl Ho Ro.
    destruct (in_range_passes _ _ l o Hl Rl Ho (proj1 Ro)) as (Hmin & Hmax & Hstart).
    rewrite (plain_category_route_sends e req Hcat Htype Hkind Hmin Hmax Hstart Hkey).
    rewrite Hl, Ho, (page_number_safe o l Ro Rl).
    unfold PlainCategoryRoute.target. now rewrite (page_to_string o l Ro Rl).
Qed.

Lemma page_number_sent_witness :
  int_param popular_movies "pageSize" "20" = Js.Int 20
  /\ int_param popular_movies "pageStart" "0" = Js.Int 25
  /\ snd (SearchRoute.GET (settling answered) popular_movies)
     = [SearchRoute.request
          "https://api.themoviedb.org/3/movie/popular?api_key=key&language=zh-CN&region=CN&include_adult=false&include_video=false&page=2"]
  /\ Js.params_get
       (Js.searchParams (SearchRoute.target_object "key" "热门" "movie" (Js.Int (25 / 20 + 1))))
       "page" = Some "2"
  /\ snd (PlainSearchRoute.GET (settling answered) popular_movies)
     = [Plain.request
          "https://api.themoviedb.org/3/search/movie?api_key=key&language=zh-CN&query=%E7%83%AD%E9%97%A8&page=2"].
Proof.
  assert (R20 : 1 <= 20 <= 100) by lia.
  assert (R25 : 0 <= 25 <= Js.MAX_SAFE_INTEGER) by (unfold Js.MAX_SAFE_INTEGER; lia).
  split; [reflexivity|]. split; [reflexivity|].
  destruct (proj1 page_number_sent (settling answered) popular_movies 20 25
              eq_refl eq_refl eq_refl eq_refl eq_refl R20 eq_refl R25) as [Hsent Hpage].
  split; [exact Hsent|]. split; [exact Hpage|].
  exact (proj1 (proj2 (proj2 page_number_sent)) (settling answered) popular_movies 20 25
           eq_refl eq_refl eq_refl eq_refl R20 eq_refl R25).
Defined.

(** C6 as stated fails past the safe integers.  The offset 9007199254740993
    passes validation and parses to the double 9007199254740992; with the page
    size 1 the sum of the quotient and one is rounded to 9007199254740992 again,
    and that is the page both search handlers send: neither the offset as it
    is written nor the offset as it is parsed, divided by the size, plus one. *)
Lemma page_past_the_safe_integers :
  int_param far_offset "pageSize" "20" = Js.Int 1
  /\ int_param far_offset "pageStart" "0" = Js.Int 9007199254740992
  /\ snd (PlainSearchRoute.GET (settling answered) far_offset)
     = [Plain.request
          "https://api.themoviedb.org/3/search/movie?api_key=key&language=zh-CN&query=%E7%83%AD%E9%97%A8&page=9007199254740992"]
  /\ snd (SearchRoute.GET (settling answered) far_offset)
     = [SearchRoute.request
          "https://api.themoviedb.org/3/movie/popular?api_key=key&language=zh-CN&region=CN&include_adult=false&include_video=false&page=9007199254740992"]
  /\ Js.decimal (9007199254740993 / 1 + 1) = "9007199254740994"
  /\ Js.decimal (9007199254740992 / 1 + 1) = "9007199254740993".
Proof.
  repeat split; vm_compute; reflexivity.
Qed.

(** *** A page size that is not a number, and a kind that is missing *)

Lemma search_after_fetch_status e type settled :
  status (SearchRoute.after_fetch e type settled) <> 400.
Proof.
  unfold SearchRoute.after_fetch, SearchRoute.on_error, api_error.
  destruct settled as [[name msg|]|s [[name msg|]|results]];
    repeat branch; cbn [status]; discriminate.
Qed.

Lemma category_after_fetch_status e kind settled :
  status (CategoryRoute.after_fetch e kind settled) <> 400.
Proof.
  unfold CategoryRoute.after_fetch, CategoryRoute.on_error, api_error.
  destruct settled as [[name msg|]|s [[name msg|]|results]];
    repeat branch; cbn [status]; discriminate.
Qed.

Lemma plain_after_fetch_status as_movie failure settled :
  status (Plain.after_fetch as_movie failure settled) <> 400.
Proof.
  unfold Plain.after_fetch.
  destruct settled as [err|s [err|results]];
    repeat branch; cbn [status]; discriminate.
Qed.

Lemma page_number_nan (pageStart : Js.num) : page_number pageStart Js.NaN = Js.NaN.
Proof. destruct pageStart; reflexivity. Qed.

(** The kind of a category handler is never falsy. *)
Lemma kind_default_truthy (x : option string) :
  Js.str_truthy (Js.or_else x "movie") = true.
Proof.
  destruct x as [s|]; [|reflexivity].
  unfold Js.or_else. now destruct (Js.str_truthy s) eqn:E.
Qed.

Lemma kind_is_present (x : option string) :
  String.eqb (narrowed x) "tv" || String.eqb (narrowed x) "movie" = true ->
  Js.truthy x = true.
Proof.
  destruct x as [[|c s]|]; [discriminate | reflexivity | discriminate].
Qed.

(** What is left when a test that a hypothesis decides has been taken the
    other way. *)
Ltac refute_test :=
  match goal with
  | H : ?t = ?b, E : context [?t] |- _ =>
      rewrite H in E; cbn [negb orb andb Js.lt Js.gt] in E;
      rewrite ?orb_true_r in E; discriminate E
  end.

(** C9.  A page size that is not a number parses to [NaN], for which both
    range tests are false.  The search route and the plain category route
    answer such a request with 200 and send it with the page [NaN]; and in
    every handler a request whose page size parses to [NaN] and which passes
    the other tests is never answered with 400, and is sent, if it is sent,
    with the page [NaN]. *)
Theorem nan_page_size_passes_validation :
  (int_param popular_movies_abc "pageSize" "20" = Js.NaN
   /\ Js.lt Js.NaN (Js.Int 1) = false
   /\ Js.gt Js.NaN (Js.Int 100) = false
   /\ status (fst (SearchRoute.GET (settling answered) popular_movies_abc)) = 200
   /\ snd (SearchRoute.GET (settling answered) popular_movies_abc)
      = [SearchRoute.request
           "https://api.themoviedb.org/3/movie/popular?api_key=key&language=zh-CN&region=CN&include_adult=false&include_video=false&page=NaN"]
   /\ int_param chinese_popular_abc "limit" "20" = Js.NaN
   /\ status (fst (PlainCategoryRoute.GET (settling answered) chinese_popular_abc)) = 200
   /\ snd (PlainCategoryRoute.GET (settling answered) chinese_popular_abc)
      = [Plain.request
           "https://api.themoviedb.org/3/movie/popular?api_key=key&language=zh-CN&page=NaN"])
  /\ (forall GET,
         In GET tag_routes ->
         forall e req,
           int_param req "pageSize" "20" = Js.NaN ->
           Js.truthy (Js.params_get req "tag") = true ->
           (String.eqb (narrowed (Js.params_get req "type")) "tv"
            || String.eqb (narrowed (Js.params_get req "type")) "movie") = true ->
           Js.lt (int_param req "pageStart" "0") (Js.Int 0) = false ->
           status (fst (GET e req)) <> 400)
  /\ (forall GET,
         In GET kind_routes ->
         forall e req,
           int_param req "limit" "20" = Js.NaN ->
           Js.truthy (Js.params_get req "category") = true ->
           Js.truthy (Js.params_get req "type") = true ->
           (String.eqb (Js.or_else (Js.params_get req "kind") "movie") "tv"
            || String.eqb (Js.or_else (Js.params_get req "kind") "movie") "movie") = true ->
           Js.lt (int_param req "start" "0") (Js.Int 0) = false ->
           status (fst (GET e req)) <> 400)
  /\ (forall e req c,
         int_param req "pageSize" "20" = Js.NaN ->
         snd (SearchRoute.GET e req) = [c] ->
         c = SearchRoute.request
               (SearchRoute.target (narrowed (TMDB_API_KEY e))
                  (narrowed (Js.params_get req "tag"))
                  (narrowed (Js.params_get req "type")) Js.NaN))
  /\ (forall e req c,
         int_param req "limit" "20" = Js.NaN ->
         snd (PlainCategoryRoute.GET e req) = [c] ->
         c = Plain.request
               (PlainCategoryRoute.target (narrowed (TMDB_API_KEY e))
                  (Js.or_else (Js.params_get req "kind") "movie")
                  (narrowed (Js.params_get req "category")) Js.NaN)).
Proof.
  split; [repeat split|]. split; [|split; [|split]].
  - intros GET [<-|[<-|[]]] e req Hnan Htag Htype Hstart;
      pose proof (kind_is_present _ Htype) as Hpresent;
      cbv beta zeta delta [SearchRoute.GET PlainSearchRoute.GET];
      rewrite Hnan, Htag, Hpresent;
      repeat branch; cbn [fst status];
      try discriminate;
      try apply search_after_fetch_status; try apply plain_after_fetch_status;
      refute_test.
  - intros GET [<-|[<-|[]]] e req Hnan Hcat Htype Hkind Hstart;
      cbv beta zeta delta [CategoryRoute.GET PlainCategoryRoute.GET];
      rewrite Hnan, Hcat, Htype, kind_default_truthy, Hkind;
      repeat branch; cbn [fst status];
      try discriminate;
      try apply category_after_fetch_status; try apply plain_after_fetch_status;
      refute_test.
  - intros e req c Hnan Hc.
    destruct (search_route_sent e req c Hc) as (-> & _).
    now rewrite Hnan, page_number_nan.
  - intros e req c Hnan Hc.
    destruct (plain_category_route_sent e req c Hc) as (-> & _).
    now rewrite Hnan, page_number_nan.
Qed.

Lemma nan_page_size_passes_validation_witness :
  In SearchRoute.GET tag_routes
  /\ int_param popular_movies_abc "pageSize" "20" = Js.NaN
  /\ (status (fst (SearchRoute.GET (settling rate_limited) popular_movies_abc)) =? 400)
     = false.
Proof.
  assert (Hin : In SearchRoute.GET tag_routes) by (left; reflexivity).
  split; [exact Hin|]. split; [reflexivity|].
  apply Z.eqb_neq.
  exact (proj1 (proj2 nan_page_size_passes_validation) _ Hin (settling rate_limited)
           popular_movies_abc eq_refl eq_refl eq_refl eq_refl).
Defined.

(** C10.  In the two category handlers a request without [kind] (or with
    an empty one) is the request with [kind=movie]: the kind that the
    missing-parameter test reads is never falsy, the answer and the request
    sent are those of the same request with the kind spelled out, and when
    the category, the type, the page size and the page offset pass their
    tests the answer is not a 400. *)
Theorem missing_kind_defaults_to_movie :
  forall GET,
    In GET kind_routes ->
    forall e req,
      Js.truthy (Js.params_get req "kind") = false ->
      Js.or_else (Js.params_get req "kind") "movie" = "movie"
      /\ negb (Js.str_truthy (Js.or_else (Js.params_get req "kind") "movie")) = false
      /\ GET e req = GET e (with_kind_movie req)
      /\ (Js.truthy (Js.params_get req "category") = true ->
          Js.truthy (Js.params_get req "type") = true ->
          Js.lt (int_param req "limit" "20") (Js.Int 1) = false ->
          Js.gt (int_param req "limit" "20") (Js.Int 100) = false ->
          Js.lt (int_param req "start" "0") (Js.Int 0) = false ->
          status (fst (GET e req)) <> 400).
Proof.
  intros GET Hin e req Hkind.
  assert (Hmovie : Js.or_else (Js.params_get req "kind") "movie" = "movie").
  { destruct (Js.params_get req "kind") as [s|]; [|reflexivity].
    unfold Js.or_else. cbn [Js.truthy] in Hkind. now rewrite Hkind. }
  split; [exact Hmovie|]. split; [now rewrite kind_default_truthy|].
  destruct Hin as [<-|[<-|[]]]; (split; [|intros Hcat Htype Hmin Hmax Hstart]).
  - cbv beta zeta delta [CategoryRoute.GET].
    change (Js.params_get (with_kind_movie req) "kind") with (Some "movie").
    change (Js.params_get (with_kind_movie req) "category")
      with (Js.params_get req "category").
    change (Js.params_get (with_kind_movie req) "type") with (Js.params_get req "type").
    change (int_param (with_kind_movie req) "limit" "20") with (int_param req "limit" "20").
    change (int_param (with_kind_movie req) "start" "0") with (int_param req "start" "0").
    rewrite Hmovie. reflexivity.
  - cbv beta zeta delta [CategoryRoute.GET].
    rewrite Hmovie, Hcat, Htype, Hmin, Hmax, Hstart. cbn [negb orb String.eqb].
    repeat branch; cbn [fst status]; try discriminate.
    apply category_after_fetch_status.
  - cbv beta zeta delta [PlainCategoryRoute.GET].
    change (Js.params_get (with_kind_movie req) "kind") with (Some "movie").
    change (Js.params_get (with_kind_movie req) "category")
      with (Js.params_get req "category").
    change (Js.params_get (with_kind_movie req) "type") with (Js.params_get req "type").
    change (int_param (with_kind_movie req) "limit" "20") with (int_param req "limit" "20").
    change (int_param (with_kind_movie req) "start" "0") with (int_param req "start" "0").
    rewrite Hmovie. reflexivity.
  - cbv beta zeta delta [PlainCategoryRoute.GET].
    rewrite Hmovie, Hcat, Htype, Hmin, Hmax, Hstart. cbn [negb orb String.eqb].
    repeat branch; cbn [fst status]; try discriminate.
    apply plain_after_fetch_status.
Qed.

Lemma missing_kind_defaults_to_movie_witness :
  In CategoryRoute.GET kind_routes
  /\ Js.truthy (Js.params_get chinese_popular "kind") = false
  /\ CategoryRoute.GET (settling answered) chinese_popular
     = CategoryRoute.GET (settling answered) (with_kind_movie chinese_popular)
  /\ (status (fst (CategoryRoute.GET (settling answered) chinese_popular)) =? 400) = false.
Proof.
  assert (Hin : In CategoryRoute.GET kind_routes) by (left; reflexivity).
  destruct (missing_kind_defaults_to_movie _ Hin (settling answered) chinese_popular eq_refl)
    as (_ & _ & Hsame & Hnot).
  split; [exact Hin|]. split; [reflexivity|]. split; [exact Hsame|].
  apply Z.eqb_neq. exact (Hnot eq_refl eq_refl eq_refl eq_refl eq_refl).
Defined.

End Handlers.

(** ** The URL builder *)

Section UrlBuilder.

Lemma params_get_set (ps : list (string * string)) (k v k' : string) :
  Js.params_get (Js.params_set ps k v) k'
  = if String.eqb k k' then Some v else Js.params_get ps k'.
Proof.
  induction ps as [|[k0 v0] rest IH]; cbn [Js.params_set Js.params_get].
  - reflexivity.
  - destruct (String.eqb_spec k0 k) as [->|Hne]; cbn [Js.params_get].
    + destruct (String.eqb_spec k k') as [_|Hk]; [reflexivity|].
      clear IH. induction rest as [|[k1 v1] rest IH]; [reflexivity|].
      cbn [filter fst Js.params_get].
      destruct (String.eqb_spec k1 k) as [->|H1]; cbn [negb Js.params_get].
      * destruct (String.eqb_spec k k'); [contradiction|exact IH].
      * now rewrite IH.
    + rewrite IH. destruct (String.eqb_spec k0 k') as [->|H0]; [|reflexivity].
      now destruct (String.eqb_spec k k'); [subst|].
Qed.

Lemma params_set_names (ps : list (string * string)) (k v x : string) :
  In x (map fst (Js.params_set ps k v)) <-> x = k \/ In x (map fst ps).
Proof.
  induction ps as [|[k0 v0] rest IH]; cbn [Js.params_set map fst In].
  - intuition.
  - destruct (String.eqb_spec k0 k) as [->|Hne]; cbn [map fst In].
    + split; [intros [H|H]; [now left|]|intros [H|[H|H]]; [now left|now left|]].
      * apply in_map_iff in H as ((k1 & v1) & <- & H). apply filter_In in H as [H _].
        right; right. apply in_map_iff. now exists (k1, v1).
      * destruct (String.eqb_spec x k) as [->|Hx]; [now left|right].
        apply in_map_iff in H as ((k1 & v1) & <- & H). apply in_map_iff.
        exists (k1, v1). split; [reflexivity|]. apply filter_In. split; [exact H|].
        cbn [fst] in *. apply negb_true_iff, String.eqb_neq. exact Hx.
    + rewrite IH. intuition.
Qed.

Lemma params_set_nodup (ps : list (string * string)) (k v : string) :
  NoDup (map fst ps) -> NoDup (map fst (Js.params_set ps k v)).
Proof.
  induction ps as [|[k0 v0] rest IH]; cbn [Js.params_set map fst]; intros Hnd.
  - constructor; [intros []|constructor].
  - inversion Hnd as [|? ? Hnot Hrest]; subst.
    destruct (String.eqb_spec k0 k) as [->|Hne]; cbn [map fst].
    + constructor.
      * intros H. apply in_map_iff in H as ((k1 & v1) & E & H).
        apply filter_In in H as [_ H]. cbn [fst] in *. subst k1.
        now rewrite String.eqb_refl in H.
      * clear IH Hnot Hnd. induction rest as [|[k1 v1] rest IH]; [constructor|].
        inversion Hrest; subst. cbn [filter fst].
        destruct (negb (String.eqb k1 k)); cbn [map fst]; [|now apply IH].
        constructor; [|now apply IH].
        intros H. apply in_map_iff in H as (kv & E & H). apply filter_In in H as [H _].
        match goal with Hn : ~ In _ _ |- _ => apply Hn end.
        apply in_map_iff. now exists kv.
    + constructor; [|now apply IH].
      rewrite params_set_names. intros [->|H]; [now apply Hne|now apply Hnot].
Qed.

Lemma obj_get_absent (o : Js.object) (k : string) :
  ~ In k (TmdbUtils.keys o) -> Js.obj_get o k = None.
Proof.
  induction o as [|[k0 v0] rest IH]; cbn [TmdbUtils.keys map fst In Js.obj_get];
    [reflexivity|].
  intros H. destruct (String.eqb_spec k0 k) as [->|_]; [exfalso; now apply H; left|].
  apply IH. intros Hin. apply H. now right.
Qed.

(** The parameters are set one after the other on the URL. *)
Lemma fold_url_set (params : Js.object) (u : Js.URL) (name : string) :
  NoDup (TmdbUtils.keys params) ->
  let built :=
    fold_left (fun u kv => Js.url_set u (fst kv) (Js.to_string (snd kv))) params u in
  Js.address built = Js.address u
  /\ Js.params_get (Js.searchParams built) name
     = match Js.obj_get params name with
       | Some v => Some (Js.to_string v)
       | None => Js.params_get (Js.searchParams u) name
       end.
Proof.
  revert u. induction params as [|[k v] rest IH]; intros u Hnd; cbn zeta.
  - split; reflexivity.
  - inversion Hnd as [|? ? Hnot Hrest]; subst.
    cbn [fold_left fst snd Js.obj_get].
    destruct (IH (Js.url_set u k (Js.to_string v)) Hrest) as [Ha Hg].
    cbn zeta in Ha, Hg. split; [exact Ha|]. rewrite Hg.
    cbn [Js.url_set Js.searchParams]. rewrite params_get_set.
    destruct (String.eqb_spec k name) as [->|Hne]; [|reflexivity].
    now rewrite (obj_get_absent rest name Hnot).
Qed.

(** Every endpoint of the code is a plain path. *)
Lemma endpoints_are_plain :
  forallb plain_path (movie_endpoints ++ tv_endpoints)%list = true.
Proof. vm_compute. reflexivity. Qed.

Lemma strategy_endpoint_is_plain (tag type : string) :
  plain_path (endpoint (TmdbUtils.getSearchStrategy tag type)) = true.
Proof.
  unfold TmdbUtils.getSearchStrategy.
  repeat match goal with
         | |- context [if ?c then _ else _] => destruct c
         end; reflexivity.
Qed.

(** X1.  For an endpoint that is a plain path and a parameter object (its
    names are distinct), the URL that [buildTMDBUrl] builds is the base
    address followed by the endpoint, and its query gives, under every name,
    the parameter of that name turned into a string, and otherwise the key,
    the language zh-CN or the region CN; a parameter named like one of the
    three replaces it. *)
Theorem built_url_lookup :
  forall endpoint apiKey params name,
    plain_path endpoint = true ->
    NoDup (TmdbUtils.keys params) ->
    Js.address (TmdbUtils.buildTMDBUrl_object endpoint apiKey params)
    = TmdbUtils.TMDB_BASE_URL ++ endpoint
    /\ Js.params_get (Js.searchParams (TmdbUtils.buildTMDBUrl_object endpoint apiKey params))
         name
       = match Js.obj_get params name with
         | Some v => Some (Js.to_string v)
         | None =>
             Js.params_get [("api_key", apiKey); ("language", "zh-CN"); ("region", "CN")]
               name
         end.
Proof.
  intros endpoint apiKey params name _ Hnd. unfold TmdbUtils.buildTMDBUrl_object.
  destruct (fold_url_set params
              (Js.url_set
                 (Js.url_set
                    (Js.url_set (Js.mkURL (TmdbUtils.TMDB_BASE_URL ++ endpoint) [])
                       "api_key" apiKey) "language" "zh-CN") "region" "CN")
              name Hnd) as [Ha Hg].
  cbn zeta in Ha, Hg. split; [exact Ha|exact Hg].
Qed.

Lemma built_url_lookup_witness :
  plain_path "/discover/tv" = true
  /\ NoDup (TmdbUtils.keys discover_params)
  /\ Js.params_get
       (Js.searchParams (TmdbUtils.buildTMDBUrl_object "/discover/tv" "key" discover_params))
       "page" = Some "2"
  /\ Js.params_get
       (Js.searchParams (TmdbUtils.buildTMDBUrl_object "/discover/tv" "key" discover_params))
       "region" = Some "CN".
Proof.
  assert (Hnd : NoDup (TmdbUtils.keys discover_params)).
  { repeat constructor; cbn [In]; intros H;
      repeat match goal with H : _ \/ _ |- _ => destruct H as [H|H] end;
      try discriminate H; exact H. }
  split; [reflexivity|]. split; [exact Hnd|]. split.
  - exact (proj2 (built_url_lookup "/discover/tv" "key" discover_params "page"
                    eq_refl Hnd)).
  - exact (proj2 (built_url_lookup "/discover/tv" "key" discover_params "region"
                    eq_refl Hnd)).
Defined.

(** X2.  For an endpoint that is a plain path, whatever the parameters,
    the query of the URL that [buildTMDBUrl] builds holds no name twice, and
    it holds the names [api_key], [language] and [region]. *)
Theorem built_url_names :
  forall endpoint apiKey params,
    plain_path endpoint = true ->
    NoDup (map fst (Js.searchParams (TmdbUtils.buildTMDBUrl_object endpoint apiKey params)))
    /\ forall name,
        In name ["api_key"; "language"; "region"] ->
        In name
          (map fst (Js.searchParams (TmdbUtils.buildTMDBUrl_object endpoint apiKey params))).
Proof.
  intros endpoint apiKey params _. unfold TmdbUtils.buildTMDBUrl_object.
  set (u0 := Js.url_set _ "region" "CN").
  assert (H0 : NoDup (map fst (Js.searchParams u0))
               /\ forall name, In name ["api_key"; "language"; "region"] ->
                               In name (map fst (Js.searchParams u0))).
  { change (map fst (Js.searchParams u0)) with ["api_key"; "language"; "region"].
    split.
    - repeat constructor; cbn [In]; intros H;
        repeat match goal with H : _ \/ _ |- _ => destruct H as [H|H] end;
        try discriminate H; exact H.
    - intros name H. exact H. }
  clearbody u0. revert u0 H0.
  induction params as [|[k v] rest IH]; intros u0 [Hnd Hin]; cbn [fold_left];
    [now split|].
  apply IH. cbn [Js.url_set Js.searchParams fst snd]. split.
  - now apply params_set_nodup.
  - intros name H. apply params_set_names. right. now apply Hin.
Qed.

Lemma built_url_names_witness :
  plain_path "/discover/tv" = true
  /\ map fst (Js.searchParams (TmdbUtils.buildTMDBUrl_object "/discover/tv" "key"
                                 discover_params))
     = ["api_key"; "language"; "region"; "sort_by"; "page"; "include_adult"]
  /\ NoDup (map fst (Js.searchParams (TmdbUtils.buildTMDBUrl_object "/discover/tv" "key"
                                        discover_params))).
Proof.
  split; [reflexivity|]. split; [reflexivity|].
  exact (proj1 (built_url_names "/discover/tv" "key" discover_params eq_refl)).
Defined.

End UrlBuilder.

(** ** The cache key *)

Section CacheKey.

Lemma string_leb_trans (s1 s2 s3 : string) :
  String.leb s1 s2 = true -> String.leb s2 s3 = true -> String.leb s1 s3 = true.
Proof.
  unfold String.leb. revert s2 s3.
  induction s1 as [|a s1 IH]; intros [|b s2] [|c s3]; cbn [String.compare];
    try reflexivity; try discriminate.
  unfold Ascii.compare.
  destruct (N.compare_spec (N_of_ascii a) (N_of_ascii b)) as [Hab|Hab|Hab];
    destruct (N.compare_spec (N_of_ascii b) (N_of_ascii c)) as [Hbc|Hbc|Hbc];
    destruct (N.compare_spec (N_of_ascii a) (N_of_ascii c)) as [Hac|Hac|Hac];
    try reflexivity; try discriminate; try lia.
  apply IH.
Qed.

Lemma insert_sorted_comm (x y : string) (l : list string) :
  Js.insert_sorted x (Js.insert_sorted y l) = Js.insert_sorted y (Js.insert_sorted x l).
Proof.
  induction l as [|h t IH]; cbn [Js.insert_sorted].
  - destruct (String.leb x y) eqn:Hxy, (String.leb y x) eqn:Hyx; try reflexivity.
    + now rewrite (String.leb_antisym _ _ Hxy Hyx).
    + destruct (String.leb_total x y); congruence.
  - destruct (String.leb y h) eqn:Hyh, (String.leb x h) eqn:Hxh;
      cbn [Js.insert_sorted]; rewrite ?Hyh, ?Hxh.
    + destruct (String.leb x y) eqn:Hxy, (String.leb y x) eqn:Hyx; try reflexivity.
      * now rewrite (String.leb_antisym _ _ Hxy Hyx).
      * destruct (String.leb_total x y); congruence.
    + destruct (String.leb x y) eqn:Hxy; [|reflexivity].
      now rewrite (string_leb_trans _ _ _ Hxy Hyh) in Hxh.
    + destruct (String.leb y x) eqn:Hyx; [|reflexivity].
      now rewrite (string_leb_trans _ _ _ Hyx Hxh) in Hyh.
    + now rewrite IH.
Qed.

Lemma sort_permutation (l1 l2 : list string) :
  Permutation l1 l2 -> Js.sort l1 = Js.sort l2.
Proof.
  induction 1 as [|x l1 l2 _ IH|x y l|l1 l2 l3 _ IH1 _ IH2]; cbn [Js.sort fold_right].
  - reflexivity.
  - unfold Js.sort in IH. now rewrite IH.
  - apply insert_sorted_comm.
  - congruence.
Qed.

Lemma obj_get_present (o : Js.object) (k : string) (v : Js.value) :
  NoDup (TmdbUtils.keys o) -> In (k, v) o -> Js.obj_get o k = Some v.
Proof.
  induction o as [|[k0 v0] rest IH]; cbn [TmdbUtils.keys map fst In Js.obj_get];
    [intros _ []|].
  intros Hnd [E|Hin]; inversion Hnd as [|? ? Hnot Hrest]; subst.
  - injection E as -> ->. now rewrite String.eqb_refl.
  - destruct (String.eqb_spec k0 k) as [->|_]; [|now apply IH].
    exfalso. apply Hnot. apply in_map_iff. now exists (k, v).
Qed.

Lemma obj_get_permutation (o1 o2 : Js.object) (k : string) :
  NoDup (TmdbUtils.keys o1) -> Permutation o1 o2 -> Js.obj_get o1 k = Js.obj_get o2 k.
Proof.
  intros Hnd Hperm.
  assert (Hnd2 : NoDup (TmdbUtils.keys o2))
    by (unfold TmdbUtils.keys in *; eapply Permutation_NoDup;
        [apply Permutation_map; exact Hperm | exact Hnd]).
  destruct (in_dec string_dec k (TmdbUtils.keys o1)) as [Hin|Hout].
  - apply in_map_iff in Hin as ((k' & v) & E & Hin). cbn [fst] in E. subst k'.
    rewrite (obj_get_present o1 k v Hnd Hin).
    symmetry. apply obj_get_present; [exact Hnd2|].
    now apply (Permutation_in _ Hperm).
  - rewrite (obj_get_absent o1 k Hout). symmetry. apply obj_get_absent.
    intros Hin. apply Hout. unfold TmdbUtils.keys in *.
    apply (Permutation_in _ (Permutation_sym (Permutation_map fst Hperm))). exact Hin.
Qed.

(** X3.  The cache key does not depend on the order in which the parameters
    were put into the object: two parameter objects with the same entries
    give the same key for the same endpoint. *)
Theorem cache_key_order_independent :
  forall endpoint params1 params2,
    NoDup (TmdbUtils.keys params1) ->
    Permutation params1 params2 ->
    TmdbUtils.getCacheKey endpoint params1 = TmdbUtils.getCacheKey endpoint params2.
Proof.
  intros endpoint params1 params2 Hnd Hperm. unfold TmdbUtils.getCacheKey.
  rewrite (sort_permutation (TmdbUtils.keys params1) (TmdbUtils.keys params2))
    by (apply Permutation_map; exact Hperm).
  do 3 f_equal. apply map_ext. intros key.
  now rewrite (obj_get_permutation params1 params2 key Hnd Hperm).
Qed.

Lemma cache_key_order_independent_witness :
  TmdbUtils.getCacheKey "/discover/tv" discover_params
  = "/discover/tv?include_adult=false&page=2&sort_by=popularity.desc"
  /\ TmdbUtils.getCacheKey "/discover/tv" discover_params
     = TmdbUtils.getCacheKey "/discover/tv" discover_params_reordered.
Proof.
  split; [reflexivity|].
  apply cache_key_order_independent.
  - repeat constructor; cbn [In]; intros H;
      repeat match goal with H : _ \/ _ |- _ => destruct H as [H|H] end;
      try discriminate H; exact H.
  - unfold discover_params, discover_params_reordered.
    apply Permutation_cons_app with (l1 := [_; _]) (l2 := []).
    reflexivity.
Defined.

End CacheKey.

(** ** The error messages of the helper library *)

Section ErrorMessages.

Lemma status_messages_checked :
  forallb
    (fun s =>
       String.eqb (TmdbUtils.handleTMDBError "Error" ("TMDB API error: " ++ Js.decimal s))
         (status_message s))
    http_statuses = true.
Proof. vm_compute. reflexivity. Qed.

(** X4.  [handleTMDBError] gives the timeout message for every error named
    AbortError, whatever its message; and for the error thrown on an
    upstream status from 100 to 599 it gives the invalid key message on 401,
    the rate limit message on 429, the server error message on 500, 502 and
    503, and its generic message on every other status. *)
Theorem handle_error_by_status :
  (forall msg, TmdbUtils.handleTMDBError "AbortError" msg = "请求超时，请稍后重试")
  /\ (forall s,
         100 <= s <= 599 ->
         TmdbUtils.handleTMDBError "Error" ("TMDB API error: " ++ Js.decimal s)
         = status_message s).
Proof.
  split; [reflexivity|].
  intros s Hs.
  assert (Hin : In s http_statuses).
  { unfold http_statuses. apply in_map_iff. exists (Z.to_nat (s - 100)).
    split; [lia|]. apply in_seq. lia. }
  apply String.eqb_eq.
  exact (proj1 (forallb_forall _ _) status_messages_checked s Hin).
Qed.

Lemma handle_error_by_status_witness :
  TmdbUtils.handleTMDBError "Error" ("TMDB API error: " ++ Js.decimal 503) = "TMDB 服务器错误".
Proof.
  apply (proj2 handle_error_by_status 503). lia.
Defined.

End ErrorMessages.

(** ** Years, ratings and the two families of converters *)

Section Fields.

Lemma first_segment_prefix (d : string) :
  exists rest,
    d = first_segment d ++ rest /\ (rest = EmptyString \/ exists r, rest = String "-" r).
Proof.
  induction d as [|c d (rest & E & Hrest)]; cbn [first_segment].
  - exists EmptyString. split; [reflexivity|now left].
  - destruct (Ascii.eqb_spec c "-") as [->|Hc].
    + exists (String "-" d). split; [reflexivity|right; now exists d].
    + exists rest. split; [cbn [append]; now rewrite <- E|exact Hrest].
Qed.

Lemma first_segment_no_hyphen (d : string) : Js.includes (first_segment d) "-" = false.
Proof.
  induction d as [|c d IH]; cbn [first_segment]; [reflexivity|].
  destruct (Ascii.eqb_spec c "-") as [->|Hc]; [reflexivity|].
  cbn [Js.includes String.prefix]. rewrite IH.
  destruct (ascii_dec "-" c) as [E|_]; [now elim Hc|reflexivity].
Qed.

(** X5.  The year that [formatYear] and the converters of the helper
    library produce is a prefix of the date that holds no hyphen, and what
    follows it in the date is nothing or starts with a hyphen. *)
Theorem format_year_is_leading_segment :
  forall d,
    (exists rest,
        d = TmdbUtils.formatYear (Some d) ++ rest
        /\ (rest = EmptyString \/ exists r, rest = String "-" r))
    /\ Js.includes (TmdbUtils.formatYear (Some d)) "-" = false
    /\ (forall item,
           release_date item = Some d ->
           year (TmdbUtils.convertTMDBMovieToDoubanItem item)
           = TmdbUtils.formatYear (Some d))
    /\ (forall item,
           first_air_date item = Some d ->
           year (TmdbUtils.convertTMDBSeriesToDoubanItem item)
           = TmdbUtils.formatYear (Some d)).
Proof.
  intros d. rewrite formatYear_first_segment.
  split; [apply first_segment_prefix|]. split; [apply first_segment_no_hyphen|].
  split; intros item E;
    cbn [year TmdbUtils.convertTMDBMovieToDoubanItem
           TmdbUtils.convertTMDBSeriesToDoubanItem];
    rewrite E; apply formatYear_first_segment.
Qed.

Lemma format_year_is_leading_segment_witness :
  TmdbUtils.formatYear (Some "2021-07-04") = "2021"
  /\ year (TmdbUtils.convertTMDBMovieToDoubanItem sample_movie) = "2021".
Proof.
  split; [reflexivity|].
  exact (proj1 (proj2 (proj2 (format_year_is_leading_segment "2021-07-04")))
           sample_movie eq_refl).
Defined.

Lemma starts_with_four_digits_length (s : string) :
  starts_with_four_digits s = true -> (4 <= String.length s)%nat.
Proof.
  destruct s as [|a [|b [|c [|d s]]]]; cbn; try discriminate. lia.
Qed.

Lemma match_d4_short (s : string) : (String.length s < 4)%nat -> Js.match_d4 s = None.
Proof.
  destruct s as [|a [|b [|c [|d s]]]]; cbn [String.length Js.match_d4];
    try reflexivity. lia.
Qed.

Lemma match_d4_step (a : ascii) (rest : string) :
  starts_with_four_digits (String a rest) = false ->
  Js.match_d4 (String a rest) = Js.match_d4 rest.
Proof.
  destruct rest as [|b [|c [|d s]]];
    try (intros _; rewrite !match_d4_short by (cbn; lia); reflexivity).
  cbn [starts_with_four_digits]. intros H.
  change (Js.match_d4 (String a (String b (String c (String d s)))))
    with (if Js.is_digit a && Js.is_digit b && Js.is_digit c && Js.is_digit d
          then Some (String a (String b (String c (String d EmptyString))))
          else Js.match_d4 (String b (String c (String d s)))).
  now rewrite H.
Qed.

Lemma match_d4_start (s : string) :
  starts_with_four_digits s = true ->
  exists y q, s = y ++ q /\ four_digits y = true /\ Js.match_d4 s = Some y.
Proof.
  destruct s as [|a [|b [|c [|d q]]]]; cbn [starts_with_four_digits]; try discriminate.
  intros H. exists (String a (String b (String c (String d EmptyString)))), q.
  cbn [append four_digits Js.match_d4]. now rewrite H.
Qed.

Lemma match_d4_leftmost (d : string) :
  match Js.match_d4 d with
  | None => forall p q, d = p ++ q -> starts_with_four_digits q = false
  | Some y =>
      exists p q,
        d = p ++ y ++ q
        /\ four_digits y = true
        /\ forall p' q', d = p' ++ q' -> (String.length p' < String.length p)%nat ->
                         starts_with_four_digits q' = false
  end.
Proof.
  induction d as [|a rest IH].
  - cbn [Js.match_d4]. intros [|c p] q E; cbn [append] in E; [now subst q|discriminate E].
  - destruct (starts_with_four_digits (String a rest)) eqn:Hs.
    + destruct (match_d4_start _ Hs) as (y & q & E & Hy & ->).
      exists EmptyString, q. split; [exact E|]. split; [exact Hy|].
      intros p' q' _ Hlt. cbn in Hlt. lia.
    + rewrite (match_d4_step a rest Hs).
      destruct (Js.match_d4 rest) as [y|].
      * destruct IH as (p & q & E & Hy & Hleft).
        exists (String a p), q. split; [cbn [append]; now rewrite <- E|].
        split; [exact Hy|].
        intros [|c p'] q' E' Hlt.
        -- cbn [append] in E'. now subst q'.
        -- cbn [append] in E'. injection E' as -> E'.
           apply (Hleft p' q' E'). cbn [String.length] in Hlt. lia.
      * intros [|c p] q E.
        -- cbn [append] in E. now subst q.
        -- cbn [append] in E. injection E as -> E. exact (IH p q E).
Qed.

Lemma extractYear_match (d : string) :
  Plain.extractYear (Some d)
  = match Js.match_d4 d with Some y => y | None => EmptyString end.
Proof.
  destruct d as [|a d]; reflexivity.
Qed.

Lemma four_digits_not_empty (y : string) : four_digits y = true -> y <> EmptyString.
Proof. now destruct y. Qed.

(** X6.  [extractYear] returns the leftmost run of four digits of the
    date: the result is empty exactly when no four consecutive digits occur
    in the date, and otherwise it is four digits that occur in the date with
    no four consecutive digits starting before them. *)
Theorem extract_year_is_leftmost_run :
  forall d,
    (Plain.extractYear (Some d) = EmptyString <->
     forall p q, d = p ++ q -> starts_with_four_digits q = false)
    /\ (Plain.extractYear (Some d) <> EmptyString ->
        exists p q,
          d = p ++ Plain.extractYear (Some d) ++ q
          /\ four_digits (Plain.extractYear (Some d)) = true
          /\ forall p' q', d = p' ++ q' -> (String.length p' < String.length p)%nat ->
                           starts_with_four_digits q' = false).
Proof.
  intros d. rewrite extractYear_match.
  pose proof (match_d4_leftmost d) as H.
  destruct (Js.match_d4 d) as [y|].
  - destruct H as (p & q & E & Hy & Hleft). split.
    + split; [intros ->; discriminate Hy|].
      intros Hnone. exfalso.
      assert (Hq : starts_with_four_digits (y ++ q) = true).
      { destruct y as [|a [|b [|c [|e [|? ?]]]]]; try discriminate Hy. exact Hy. }
      now rewrite (Hnone p (y ++ q) E) in Hq.
    + intros _. now exists p, q.
  - split; [now split|]. intros Hne. now elim Hne.
Qed.

Lemma extract_year_is_leftmost_run_witness :
  Plain.extractYear (Some "on 2021-07-04") = "2021"
  /\ exists p q,
      "on 2021-07-04" = p ++ Plain.extractYear (Some "on 2021-07-04") ++ q
      /\ four_digits (Plain.extractYear (Some "on 2021-07-04")) = true.
Proof.
  split; [reflexivity|].
  destruct (proj2 (extract_year_is_leftmost_run "on 2021-07-04"))
    as (p & q & E & Hy & _); [discriminate|].
  exists p, q. split; [exact E|exact Hy].
Defined.

End Fields.

(** ** Ratings, and the two families of converters *)

Section Ratings.

Lemma tenths_shape :
  forallb
    (fun n =>
       let text := Js.decimal (n / 10) ++ "." ++ Js.decimal (n mod 10) in
       Nat.eqb (String.length text) 3 || String.eqb text "10.0")
    (map Z.of_nat (seq 0 101)) = true.
Proof. vm_compute. reflexivity. Qed.

(** X7.  For a rating above 0 and at most 10, the rate of [formatRating]
    is the nearest number of tenths [n] (the larger one on a tie) printed
    with one digit after the point: three characters, or 10.0.  A rating
    above 0 and below one twentieth is printed 0.0, where the rating 0 gives
    the empty rate.  The four converters produce this rate. *)
Theorem rating_is_rounded_to_a_tenth :
  forall r : Q,
    (0 < r)%Q -> (r <= 10 # 1)%Q ->
    (exists n : Z,
        0 <= n <= 100
        /\ (inject_Z n <= r * (10 # 1) + (1 # 2))%Q
        /\ (r * (10 # 1) + (1 # 2) < inject_Z (n + 1))%Q
        /\ TmdbUtils.formatRating (Some r)
           = Js.decimal (n / 10) ++ "." ++ Js.decimal (n mod 10)
        /\ (String.length (TmdbUtils.formatRating (Some r)) = 3%nat
            \/ TmdbUtils.formatRating (Some r) = "10.0"))
    /\ ((r < 1 # 20)%Q -> TmdbUtils.formatRating (Some r) = "0.0")
    /\ (forall convert date item,
           In (convert, date) converters ->
           vote_average item = Some r ->
           rate (convert item) = TmdbUtils.formatRating (Some r)).
Proof.
  intros r Hpos Hmax.
  assert (Hnz : Qeq_bool r 0 = false).
  { destruct (Qeq_bool r 0) eqn:E; [|reflexivity].
    apply Qeq_bool_iff in E. rewrite E in Hpos. now apply Qlt_irrefl in Hpos. }
  assert (Hle : Qle_bool 0 r = true) by (apply Qle_bool_iff, Qlt_le_weak, Hpos).
  assert (Habs : Qabs r = r).
  { destruct r as [num den]. unfold Qlt in Hpos. cbn in Hpos.
    unfold Qabs. f_equal. apply Z.abs_eq. lia. }
  assert (Hfmt : TmdbUtils.formatRating (Some r)
                 = Js.decimal (Qfloor (r * (10 # 1) + (1 # 2)) / 10) ++ "."
                   ++ Js.decimal (Qfloor (r * (10 # 1) + (1 # 2)) mod 10)).
  { unfold TmdbUtils.formatRating, Js.toFixed1. now rewrite Hnz, Hle, Habs. }
  set (x := (r * (10 # 1) + (1 # 2))%Q) in *.
  assert (Hlow : 0 <= Qfloor x).
  { change 0 with (Qfloor (1 # 2)). apply Qfloor_resp_le. unfold x.
    rewrite <- (Qplus_0_l (1 # 2)) at 1. apply Qplus_le_l.
    apply Qmult_le_0_compat; [now apply Qlt_le_weak|discriminate]. }
  assert (Hhigh : Qfloor x <= 100).
  { change 100 with (Qfloor (201 # 2)). apply Qfloor_resp_le. unfold x.
    setoid_replace (201 # 2)%Q with ((10 # 1) * (10 # 1) + (1 # 2))%Q by reflexivity.
    apply Qplus_le_l. apply Qmult_le_compat_r; [exact Hmax|discriminate]. }
  split; [|split].
  - exists (Qfloor x). split; [lia|]. split; [apply Qfloor_le|].
    split; [apply Qlt_floor|]. split; [exact Hfmt|].
    rewrite Hfmt.
    assert (Hin : In (Qfloor x) (map Z.of_nat (seq 0 101))).
    { apply in_map_iff. exists (Z.to_nat (Qfloor x)). split; [lia|].
      apply in_seq. lia. }
    pose proof (proj1 (forallb_forall _ _) tenths_shape _ Hin) as H.
    cbv beta zeta in H. apply orb_true_iff in H as [H|H].
    + left. now apply Nat.eqb_eq.
    + right. now apply String.eqb_eq.
  - intros Hsmall. rewrite Hfmt.
    assert (Hzero : Qfloor x = 0).
    { assert (Qfloor x <= 0); [|lia].
      assert (Hx : (x < inject_Z 1)%Q).
      { unfold x. setoid_replace (inject_Z 1) with ((1 # 20) * (10 # 1) + (1 # 2))%Q
          by reflexivity.
        apply Qplus_lt_l. apply Qmult_lt_r; [reflexivity|exact Hsmall]. }
      assert (H1 : (inject_Z (Qfloor x) < inject_Z 1)%Q)
        by (eapply Qle_lt_trans; [apply Qfloor_le|exact Hx]).
      rewrite <- Zlt_Qlt in H1. lia. }
    now rewrite Hzero.
  - intros convert date item Hin Hr. cbn [converters In] in Hin.
    destruct Hin as [E|[E|[E|[E|[]]]]]; injection E as <- <-;
      cbn [rate TmdbUtils.convertTMDBMovieToDoubanItem
             TmdbUtils.convertTMDBSeriesToDoubanItem
             Plain.convertTMDBMovieToDoubanItem Plain.convertTMDBSeriesToDoubanItem];
      now rewrite Hr.
Qed.

Lemma rating_is_rounded_to_a_tenth_witness :
  (0 < 1 # 32)%Q /\ (1 # 32 <= 10 # 1)%Q /\ (1 # 32 < 1 # 20)%Q
  /\ TmdbUtils.formatRating (Some (1 # 32)) = "0.0".
Proof.
  assert (Hpos : (0 < 1 # 32)%Q) by reflexivity.
  assert (Hmax : (1 # 32 <= 10 # 1)%Q) by discriminate.
  assert (Hsmall : (1 # 32 < 1 # 20)%Q) by reflexivity.
  split; [exact Hpos|]. split; [exact Hmax|]. split; [exact Hsmall|].
  exact (proj1 (proj2 (rating_is_rounded_to_a_tenth (1 # 32) Hpos Hmax)) Hsmall).
Defined.

(** X8.  On an upstream object whose title (or name) is present and not
    empty and whose date is missing, empty, or starts with four digits before its first
    hyphen, the converter of the helper library and the converter of the
    plain handlers produce the same item; whatever the object, they produce
    the same identifier, poster and rate. *)
Theorem converter_families_agree :
  forall item,
    (id (TmdbUtils.convertTMDBMovieToDoubanItem item)
     = id (Plain.convertTMDBMovieToDoubanItem item)
     /\ poster (TmdbUtils.convertTMDBMovieToDoubanItem item)
        = poster (Plain.convertTMDBMovieToDoubanItem item)
     /\ rate (TmdbUtils.convertTMDBMovieToDoubanItem item)
        = rate (Plain.convertTMDBMovieToDoubanItem item))
    /\ (id (TmdbUtils.convertTMDBSeriesToDoubanItem item)
        = id (Plain.convertTMDBSeriesToDoubanItem item)
        /\ poster (TmdbUtils.convertTMDBSeriesToDoubanItem item)
           = poster (Plain.convertTMDBSeriesToDoubanItem item)
        /\ rate (TmdbUtils.convertTMDBSeriesToDoubanItem item)
           = rate (Plain.convertTMDBSeriesToDoubanItem item))
    /\ (Js.truthy (tmdb_title item) = true -> year_first (release_date item) ->
        TmdbUtils.convertTMDBMovieToDoubanItem item
        = Plain.convertTMDBMovieToDoubanItem item)
    /\ (Js.truthy (tmdb_name item) = true -> year_first (first_air_date item) ->
        TmdbUtils.convertTMDBSeriesToDoubanItem item
        = Plain.convertTMDBSeriesToDoubanItem item).
Proof.
  intros item.
  assert (Hposter : forall path,
             match path with
             | Some p => if Js.str_truthy p
                         then "https://image.tmdb.org/t/p/w500" ++ p else EmptyString
             | None => EmptyString
             end = Plain.getTMDBImageUrl path "w500").
  { intros [p|]; [|reflexivity]. unfold Plain.getTMDBImageUrl, narrowed, Js.or_else.
    cbn [Js.truthy]. now destruct (Js.str_truthy p). }
  assert (Hyear : forall date,
             year_first date ->
             match date with
             | Some d => if Js.str_truthy d
                         then hd EmptyString (Js.split "-" d) else EmptyString
             | None => EmptyString
             end = Plain.extractYear date).
  { intros [d|] Hd; [|reflexivity].
    change (TmdbUtils.formatYear (Some d) = Plain.extractYear (Some d)).
    rewrite formatYear_first_segment, extractYear_match.
    destruct Hd as [->|Hd]; [reflexivity|].
    now rewrite (match_d4_first_segment d Hd). }
  split; [|split; [|split]].
  - repeat split; cbn [poster TmdbUtils.convertTMDBMovieToDoubanItem
                         Plain.convertTMDBMovieToDoubanItem]. apply Hposter.
  - repeat split; cbn [poster TmdbUtils.convertTMDBSeriesToDoubanItem
                         Plain.convertTMDBSeriesToDoubanItem]. apply Hposter.
  - intros Ht Hd.
    unfold TmdbUtils.convertTMDBMovieToDoubanItem, Plain.convertTMDBMovieToDoubanItem,
      Js.or_undefined.
    now rewrite Ht, Hposter, (Hyear _ Hd).
  - intros Ht Hd.
    unfold TmdbUtils.convertTMDBSeriesToDoubanItem, Plain.convertTMDBSeriesToDoubanItem,
      Js.or_undefined.
    now rewrite Ht, Hposter, (Hyear _ Hd).
Qed.

Lemma converter_families_agree_witness :
  Js.truthy (tmdb_title sample_movie) = true
  /\ year_first (release_date sample_movie)
  /\ TmdbUtils.convertTMDBMovieToDoubanItem sample_movie
     = Plain.convertTMDBMovieToDoubanItem sample_movie.
Proof.
  assert (Ht : Js.truthy (tmdb_title sample_movie) = true) by reflexivity.
  assert (Hd : year_first (release_date sample_movie)) by (right; reflexivity).
  split; [exact Ht|]. split; [exact Hd|].
  exact (proj1 (proj2 (proj2 (converter_families_agree sample_movie))) Ht Hd).
Defined.

End Ratings.

(** ** What the handlers answer, and what they send *)

Section Answers.

(** One step of case analysis on the outermost test of a handler. *)
Ltac decide_test :=
  match goal with
  | |- context [if ?c then _ else _] =>
      lazymatch c with
      | true => fail
      | false => fail
      | _ => let E := fresh "E" in destruct c eqn:E
      end
  end; cbv iota.

Ltac open_handlers :=
  cbv beta zeta delta [SearchRoute.GET CategoryRoute.GET
                       PlainSearchRoute.GET PlainCategoryRoute.GET].

Lemma search_after_fetch_shape e type settled :
  In (status (SearchRoute.after_fetch e type settled)) [200; 400; 408; 429; 500; 502]
  /\ match content (SearchRoute.after_fetch e type settled) with
     | ResultBody r =>
         status (SearchRoute.after_fetch e type settled) = 200
         /\ code r = 200 /\ message r = "获取成功"
     | ErrorBody _ =>
         status (SearchRoute.after_fetch e type settled) <> 200
         /\ headers (SearchRoute.after_fetch e type settled) = []
     end.
Proof.
  unfold SearchRoute.after_fetch, SearchRoute.on_error, api_error.
  destruct settled as [[name msg|]|s [[name msg|]|results]];
    repeat decide_test; cbn [status content headers code message In];
    (split; [intuition lia|]); repeat split; discriminate.
Qed.

Lemma category_after_fetch_shape e kind settled :
  In (status (CategoryRoute.after_fetch e kind settled)) [200; 400; 408; 429; 500; 502]
  /\ match content (CategoryRoute.after_fetch e kind settled) with
     | ResultBody r =>
         status (CategoryRoute.after_fetch e kind settled) = 200
         /\ code r = 200 /\ message r = "获取成功"
     | ErrorBody _ =>
         status (CategoryRoute.after_fetch e kind settled) <> 200
         /\ headers (CategoryRoute.after_fetch e kind settled) = []
     end.
Proof.
  unfold CategoryRoute.after_fetch, CategoryRoute.on_error, api_error.
  destruct settled as [[name msg|]|s [[name msg|]|results]];
    repeat decide_test; cbn [status content headers code message In];
    (split; [intuition lia|]); repeat split; discriminate.
Qed.

Lemma plain_after_fetch_shape as_movie failure settled :
  In (status (Plain.after_fetch as_movie failure settled)) [200; 400; 500]
  /\ match content (Plain.after_fetch as_movie failure settled) with
     | ResultBody r =>
         status (Plain.after_fetch as_movie failure settled) = 200
         /\ code r = 200 /\ message r = "获取成功"
     | ErrorBody _ =>
         status (Plain.after_fetch as_movie failure settled) <> 200
         /\ headers (Plain.after_fetch as_movie failure settled) = []
     end.
Proof.
  unfold Plain.after_fetch.
  destruct settled as [err|s [err|results]];
    repeat decide_test; cbn [status content headers code message In];
    (split; [intuition lia|]); repeat split; discriminate.
Qed.

(** X9.  A handler of route.ts answers with one of the statuses 200, 400,
    408, 429, 500 and 502, a plain handler with 200, 400 or 500.  In every
    handler the answer is a result envelope exactly when its status is 200,
    the envelope then has the code 200 and the success message, and an
    error answer carries no header. *)
Theorem handler_answers :
  (forall GET generic,
      In (GET, generic) mapping_routes ->
      forall e req, In (status (fst (GET e req))) [200; 400; 408; 429; 500; 502])
  /\ (forall GET failure,
         In (GET, failure) plain_routes ->
         forall e req, In (status (fst (GET e req))) [200; 400; 500])
  /\ (forall GET,
         In GET all_routes ->
         forall e req,
           match content (fst (GET e req)) with
           | ResultBody r =>
               status (fst (GET e req)) = 200 /\ code r = 200 /\ message r = "获取成功"
           | ErrorBody _ =>
               status (fst (GET e req)) <> 200 /\ headers (fst (GET e req)) = []
           end).
Proof.
  split; [|split].
  - intros GET generic [E|[E|[]]] e req; injection E as <- <-; open_handlers;
      repeat decide_test; cbn [fst status In];
      try (intuition lia);
      first [apply search_after_fetch_shape | apply category_after_fetch_shape].
  - intros GET failure [E|[E|[]]] e req; injection E as <- <-; open_handlers;
      repeat decide_test; cbn [fst status In];
      try (intuition lia); apply plain_after_fetch_shape.
  - intros GET [<-|[<-|[<-|[<-|[]]]]] e req; open_handlers;
      repeat decide_test; cbn [fst status content headers code message];
      try (repeat split; discriminate);
      first [apply search_after_fetch_shape | apply category_after_fetch_shape
            | apply plain_after_fetch_shape].
Qed.

Lemma handler_answers_witness :
  In (SearchRoute.GET, "获取 TMDB 搜索数据失败") mapping_routes
  /\ In (status (fst (SearchRoute.GET (settling rate_limited) popular_movies)))
       [200; 400; 408; 429; 500; 502].
Proof.
  assert (Hin : In (SearchRoute.GET, "获取 TMDB 搜索数据失败") mapping_routes)
    by (left; reflexivity).
  split; [exact Hin|].
  exact (proj1 handler_answers _ _ Hin (settling rate_limited) popular_movies).
Defined.

Lemma prefix_append (s t : string) : String.prefix s (s ++ t) = true.
Proof.
  induction s as [|c s IH]; cbn [append String.prefix]; [now destruct t|].
  destruct (ascii_dec c c) as [_|Hc]; [exact IH|now elim Hc].
Qed.

Lemma url_to_string_prefix (u : Js.URL) : String.prefix (Js.address u) (Js.url_to_string u) = true.
Proof.
  unfold Js.url_to_string. destruct (Js.searchParams u); [|apply prefix_append].
  induction (Js.address u) as [|c s IH]; cbn [String.prefix]; [reflexivity|].
  destruct (ascii_dec c c) as [_|Hc]; [exact IH|now elim Hc].
Qed.

Lemma prefix_trans (a b c : string) :
  String.prefix a b = true -> String.prefix b c = true -> String.prefix a c = true.
Proof.
  revert b c. induction a as [|x a IH]; intros [|y b] [|z c]; cbn [String.prefix];
    try reflexivity; try discriminate.
  destruct (ascii_dec x y) as [->|_]; [|discriminate].
  destruct (ascii_dec y z) as [->|_]; [|discriminate].
  apply IH.
Qed.

Lemma fold_url_set_address (params : Js.object) (u : Js.URL) :
  Js.address (fold_left (fun u kv => Js.url_set u (fst kv) (Js.to_string (snd kv))) params u)
  = Js.address u.
Proof.
  revert u. induction params as [|kv rest IH]; intros u; [reflexivity|].
  cbn [fold_left]. now rewrite IH.
Qed.

(** X10.  A handler sends at most one upstream request, and none when it
    answers 400.  A request that is sent goes to an address under the TMDB
    base address; the handlers of route.ts send it with a timeout of ten
    seconds and the plain handlers with none. *)
Theorem upstream_requests :
  (forall GET,
      In GET all_routes ->
      forall e req,
        (length (snd (GET e req)) <= 1)%nat
        /\ (status (fst (GET e req)) = 400 -> snd (GET e req) = [])
        /\ forall c, In c (snd (GET e req)) ->
                     String.prefix TmdbUtils.TMDB_BASE_URL (call_url c) = true)
  /\ (forall GET generic,
         In (GET, generic) mapping_routes ->
         forall e req c, In c (snd (GET e req)) -> call_timeout c = Some 10000)
  /\ (forall GET failure,
         In (GET, failure) plain_routes ->
         forall e req c, In c (snd (GET e req)) -> call_timeout c = None).
Proof.
  assert (Hbase : forall endpoint apiKey params,
             String.prefix TmdbUtils.TMDB_BASE_URL
               (TmdbUtils.buildTMDBUrl endpoint apiKey params) = true).
  { intros endpoint apiKey params.
    unfold TmdbUtils.buildTMDBUrl, TmdbUtils.buildTMDBUrl_object.
    eapply prefix_trans; [|apply url_to_string_prefix].
    rewrite fold_url_set_address. cbn [Js.url_set Js.address]. apply prefix_append. }
  split; [|split].
  - intros GET [<-|[<-|[<-|[<-|[]]]]] e req; open_handlers;
      repeat decide_test; cbn [fst snd status length In];
      (split; [lia|]);
      (split; [first [ reflexivity | discriminate
                     | intros H; exfalso; revert H;
                       first [ apply search_after_fetch_status
                             | apply category_after_fetch_status
                             | apply plain_after_fetch_status ] ]|]);
      intros c Hc; try contradiction;
      destruct Hc as [<-|[]]; cbn [call_url SearchRoute.request CategoryRoute.request
                                     Plain.request];
      first [ apply Hbase
            | unfold PlainSearchRoute.searchUrl;
              match goal with
              | |- String.prefix _ (_ ++ ?rest) = true =>
                  exact (prefix_append TmdbUtils.TMDB_BASE_URL ("/search/" ++ rest))
              end
            | unfold PlainCategoryRoute.target; cbv zeta;
              exact (prefix_append TmdbUtils.TMDB_BASE_URL _) ].
  - intros GET generic [E|[E|[]]] e req c; injection E as <- <-; open_handlers;
      repeat decide_test; cbn [snd In]; intros Hc; try contradiction;
      destruct Hc as [<-|[]]; reflexivity.
  - intros GET failure [E|[E|[]]] e req c; injection E as <- <-; open_handlers;
      repeat decide_test; cbn [snd In]; intros Hc; try contradiction;
      destruct Hc as [<-|[]]; reflexivity.
Qed.

End Answers.

(** ** The tests of a handler, one against the other *)

Section Tests.

Ltac decide_test :=
  match goal with
  | |- context [if ?c then _ else _] =>
      lazymatch c with
      | true => fail
      | false => fail
      | _ => let E := fresh "E" in destruct c eqn:E
      end
  end; cbv iota.

Ltac open_handlers :=
  cbv beta zeta delta [SearchRoute.GET CategoryRoute.GET
                       PlainSearchRoute.GET PlainCategoryRoute.GET].

(** X11.  Without a key in the environment (missing or empty) no handler
    sends a request, and its answer is a 400 of validation or the 500 that
    says the key is not configured; it is never a success. *)
Theorem no_key_no_request :
  forall GET,
    In GET all_routes ->
    forall e req,
      Js.truthy (TMDB_API_KEY e) = false ->
      snd (GET e req) = []
      /\ (status (fst (GET e req)) = 400
          \/ fst (GET e req) = mkResponse 500 (ErrorBody "TMDB API Key 未配置") []).
Proof.
  intros GET [<-|[<-|[<-|[<-|[]]]]] e req Hkey; open_handlers; rewrite Hkey;
    cbn [negb]; repeat decide_test; cbn [fst snd status];
    (split; [reflexivity|]); first [now left | now right].
Qed.

Lemma no_key_no_request_witness :
  In SearchRoute.GET all_routes
  /\ Js.truthy (TMDB_API_KEY keyless) = false
  /\ SearchRoute.GET keyless (variety_movies "20")
     = (mkResponse 500 (ErrorBody "TMDB API Key 未配置") [], []).
Proof.
  assert (Hin : In SearchRoute.GET all_routes) by (left; reflexivity).
  split; [exact Hin|]. split; [reflexivity|].
  destruct (no_key_no_request _ Hin keyless (variety_movies "20") eq_refl) as [Hs _].
  rewrite (surjective_pairing (SearchRoute.GET keyless (variety_movies "20"))).
  now rewrite Hs.
Defined.

(** X12.  A request whose tag (or category) and type are present and whose
    kind is neither tv nor movie is refused with 400 and the message that
    names the two kinds, and nothing is sent: the kind is the [type]
    parameter of the tag handlers and the [kind] parameter of the category
    handlers. *)
Theorem unknown_kind_is_refused :
  (forall GET,
      In GET tag_routes ->
      forall e req t,
        Js.truthy (Js.params_get req "tag") = true ->
        Js.params_get req "type" = Some t ->
        t <> EmptyString -> t <> "tv" -> t <> "movie" ->
        GET e req = (mkResponse 400 (ErrorBody "type 参数必须是 tv 或 movie") [], []))
  /\ (forall GET,
         In GET kind_routes ->
         forall e req k,
           Js.truthy (Js.params_get req "category") = true ->
           Js.truthy (Js.params_get req "type") = true ->
           Js.params_get req "kind" = Some k ->
           k <> EmptyString -> k <> "tv" -> k <> "movie" ->
           GET e req = (mkResponse 400 (ErrorBody "kind 参数必须是 tv 或 movie") [], [])).
Proof.
  split.
  - intros GET [<-|[<-|[]]] e req t Htag Htype Ht Htv Hmovie; open_handlers;
      destruct (narrowed_truthy _ t Htype Ht) as [Hpresent Hn];
      apply String.eqb_neq in Htv, Hmovie;
      now rewrite Htag, Hpresent, Hn, Htv, Hmovie.
  - intros GET [<-|[<-|[]]] e req k Hcat Htype Hkind Hk Htv Hmovie; open_handlers;
      rewrite Hkind, Hcat, Htype; unfold Js.or_else;
      apply str_truthy_iff in Hk; apply String.eqb_neq in Htv, Hmovie;
      rewrite Hk; cbv iota; now rewrite Hk, Htv, Hmovie.
Qed.

Lemma unknown_kind_is_refused_witness :
  In SearchRoute.GET tag_routes
  /\ SearchRoute.GET (settling answered) popular_books
     = (mkResponse 400 (ErrorBody "type 参数必须是 tv 或 movie") [], []).
Proof.
  assert (Hin : In SearchRoute.GET tag_routes) by (left; reflexivity).
  split; [exact Hin|].
  apply (proj1 unknown_kind_is_refused _ Hin (settling answered) popular_books "book");
    first [reflexivity | discriminate].
Defined.

(** X13.  When the request of a handler is answered with a status from 200
    to 299 and a body that can be read, the handler answers 200 with the
    success envelope whose list holds one converted item for each result, in
    order: converted as a movie when the kind is movie and as a series when
    it is tv, the only two kinds for which a request is sent.  The handlers
    of route.ts add the cache header of one hour and an ETag made of the
    clock; the plain handlers add no header. *)
Theorem results_are_converted :
  (forall e req c s results,
      snd (SearchRoute.GET e req) = [c] ->
      fetch e c = Responds s (BodyJson results) -> ok s = true ->
      exists convert,
        ((narrowed (Js.params_get req "type") = "movie"
          /\ convert = TmdbUtils.convertTMDBMovieToDoubanItem)
         \/ (narrowed (Js.params_get req "type") = "tv"
             /\ convert = TmdbUtils.convertTMDBSeriesToDoubanItem))
        /\ fst (SearchRoute.GET e req)
           = mkResponse 200 (ResultBody (mkDoubanResult 200 "获取成功" (map convert results)))
               [("Cache-Control", "public, max-age=3600");
                ("ETag", quote ++ Js.decimal (now e) ++ quote)])
  /\ (forall e req c s results,
         snd (CategoryRoute.GET e req) = [c] ->
         fetch e c = Responds s (BodyJson results) -> ok s = true ->
         exists convert,
           ((Js.or_else (Js.params_get req "kind") "movie" = "movie"
             /\ convert = TmdbUtils.convertTMDBMovieToDoubanItem)
            \/ (Js.or_else (Js.params_get req "kind") "movie" = "tv"
                /\ convert = TmdbUtils.convertTMDBSeriesToDoubanItem))
           /\ fst (CategoryRoute.GET e req)
              = mkResponse 200
                  (ResultBody (mkDoubanResult 200 "获取成功" (map convert results)))
                  [("Cache-Control", "public, max-age=3600");
                   ("ETag", quote ++ Js.decimal (now e) ++ quote)])
  /\ (forall e req c s results,
         snd (PlainSearchRoute.GET e req) = [c] ->
         fetch e c = Responds s (BodyJson results) -> ok s = true ->
         exists convert,
           ((narrowed (Js.params_get req "type") = "movie"
             /\ convert = Plain.convertTMDBMovieToDoubanItem)
            \/ (narrowed (Js.params_get req "type") = "tv"
                /\ convert = Plain.convertTMDBSeriesToDoubanItem))
           /\ fst (PlainSearchRoute.GET e req)
              = mkResponse 200
                  (ResultBody (mkDoubanResult 200 "获取成功" (map convert results))) [])
  /\ (forall e req c s results,
         snd (PlainCategoryRoute.GET e req) = [c] ->
         fetch e c = Responds s (BodyJson results) -> ok s = true ->
         exists convert,
           ((Js.or_else (Js.params_get req "kind") "movie" = "movie"
             /\ convert = Plain.convertTMDBMovieToDoubanItem)
            \/ (Js.or_else (Js.params_get req "kind") "movie" = "tv"
                /\ convert = Plain.convertTMDBSeriesToDoubanItem))
           /\ fst (PlainCategoryRoute.GET e req)
              = mkResponse 200
                  (ResultBody (mkDoubanResult 200 "获取成功" (map convert results))) []).
Proof.
  assert (Hkind : forall k,
             negb (String.eqb k "tv" || String.eqb k "movie") = false ->
             k = "movie" \/ k = "tv").
  { intros k H. apply negb_false_iff, orb_true_iff in H as [H|H];
      apply String.eqb_eq in H; [now right|now left]. }
  split; [|split; [|split]]; intros e req c s results; open_handlers;
    repeat decide_test; cbn [fst snd]; intros Hc; try discriminate Hc;
    injection Hc as <-; intros Hf Hok;
    rewrite Hf;
    unfold SearchRoute.after_fetch, CategoryRoute.after_fetch, Plain.after_fetch;
    rewrite Hok; cbn [negb];
    match goal with
    | E : negb (String.eqb ?k "tv" || String.eqb ?k "movie") = false |- _ =>
        destruct (Hkind k E) as [Hk|Hk]; rewrite Hk
    end;
    eexists; (split; [first [left; split; reflexivity | right; split; reflexivity]|]);
    reflexivity.
Qed.

Lemma results_are_converted_witness :
  snd (SearchRoute.GET (settling answered) popular_movies)
  = [SearchRoute.request (SearchRoute.target "key" "热门" "movie" (Js.Int 2))]
  /\ fst (SearchRoute.GET (settling answered) popular_movies)
     = mkResponse 200
         (ResultBody
            (mkDoubanResult 200 "获取成功"
               [mkDoubanItem "550" (Some "搏击俱乐部")
                  "https://image.tmdb.org/t/p/w500/a26cQPRhJPX6GbWfQbvZdrrp9j9.jpg"
                  "7.0" "2021"]))
         [("Cache-Control", "public, max-age=3600");
          ("ETag", quote ++ "1700000000000" ++ quote)].
Proof.
  split; [reflexivity|].
  destruct (proj1 results_are_converted (settling answered) popular_movies _ 200
              [sample_movie] eq_refl eq_refl eq_refl) as (convert & [[_ ->]|[H _]] & ->).
  - reflexivity.
  - discriminate H.
Defined.

(** X14.  The search route of route.ts and the plain search handler refuse
    the same requests: one answers 400 exactly when the other does, and then
    with the same answer.  The category route and the plain category handler
    answer 400 for the same requests. *)
Theorem handlers_refuse_alike :
  (forall e req,
      (status (fst (SearchRoute.GET e req)) = 400
       <-> status (fst (PlainSearchRoute.GET e req)) = 400)
      /\ (status (fst (SearchRoute.GET e req)) = 400 ->
          SearchRoute.GET e req = PlainSearchRoute.GET e req))
  /\ (forall e req,
         status (fst (CategoryRoute.GET e req)) = 400
         <-> status (fst (PlainCategoryRoute.GET e req)) = 400).
Proof.
  split; intros e req; open_handlers; repeat decide_test; cbn [fst status];
    repeat split; try reflexivity; try discriminate; intros H; exfalso; revert H;
    first [ apply search_after_fetch_status | apply category_after_fetch_status
          | apply plain_after_fetch_status ].
Qed.

Lemma handlers_refuse_alike_witness :
  status (fst (SearchRoute.GET (settling answered) popular_books)) = 400
  /\ SearchRoute.GET (settling answered) popular_books
     = PlainSearchRoute.GET (settling answered) popular_books.
Proof.
  split; [reflexivity|].
  exact (proj2 (proj1 handlers_refuse_alike (settling answered) popular_books) eq_refl).
Defined.

(** X15.  The plain category handler requires the [type] parameter and
    then does not read it: two requests that differ only in a non-empty
    type get the same answer and send the same request. *)
Theorem plain_category_ignores_type :
  forall e req t1 t2,
    t1 <> EmptyString -> t2 <> EmptyString ->
    PlainCategoryRoute.GET e (("type", t1) :: req)
    = PlainCategoryRoute.GET e (("type", t2) :: req).
Proof.
  intros e req t1 t2 H1 H2. apply str_truthy_iff in H1, H2. open_handlers.
  change (Js.params_get (("type", t1) :: req) "type") with (Some t1).
  change (Js.params_get (("type", t2) :: req) "type") with (Some t2).
  change (Js.params_get (("type", t1) :: req) "kind") with (Js.params_get req "kind").
  change (Js.params_get (("type", t2) :: req) "kind") with (Js.params_get req "kind").
  change (Js.params_get (("type", t1) :: req) "category")
    with (Js.params_get req "category").
  change (Js.params_get (("type", t2) :: req) "category")
    with (Js.params_get req "category").
  change (int_param (("type", t1) :: req) "limit" "20") with (int_param req "limit" "20").
  change (int_param (("type", t2) :: req) "limit" "20") with (int_param req "limit" "20").
  change (int_param (("type", t1) :: req) "start" "0") with (int_param req "start" "0").
  change (int_param (("type", t2) :: req) "start" "0") with (int_param req "start" "0").
  cbn [Js.truthy]. now rewrite H1, H2.
Qed.

Lemma plain_category_ignores_type_witness :
  PlainCategoryRoute.GET (settling answered) (("type", "华语") :: [("category", "热门")])
  = PlainCategoryRoute.GET (settling answered) (("type", "日本") :: [("category", "热门")]).
Proof.
  apply plain_category_ignores_type; discriminate.
Defined.

End Tests.

(** ** The strategies, once more *)

Section Strategies.

(** Case analysis on the comparisons of a variable with a [case] label,
    replacing the variable by the label where they are equal. *)
Ltac by_label :=
  repeat match goal with
         | |- context [String.eqb ?x ?label] =>
             is_var x; destruct (String.eqb_spec x label) as [->|?]
         end.

Ltac any_label x :=
  repeat match goal with
         | |- context [String.eqb x ?label] => destruct (String.eqb x label)
         end.

Ltac open_queries :=
  unfold CategoryRoute.upstream_query, CategoryRoute.movie_type,
    CategoryRoute.movie_category, CategoryRoute.tv_category,
    PlainCategoryRoute.movie_endpoint, PlainCategoryRoute.tv_endpoint,
    TmdbUtils.getSearchStrategy.

(** X16.  The endpoint of a request belongs to its kind: for the movie
    kind the resolver, the category route and the plain category handler
    give one of the movie endpoints, for the tv kind one of the tv
    endpoints, and no endpoint is of both kinds. *)
Theorem endpoint_belongs_to_kind :
  (forall tag,
      In (endpoint (TmdbUtils.getSearchStrategy tag "movie")) movie_endpoints
      /\ In (endpoint (TmdbUtils.getSearchStrategy tag "tv")) tv_endpoints)
  /\ (forall category type page,
         In (fst (CategoryRoute.upstream_query "movie" category type page)) movie_endpoints
         /\ In (fst (CategoryRoute.upstream_query "tv" category type page)) tv_endpoints)
  /\ (forall category,
         In (PlainCategoryRoute.movie_endpoint category) movie_endpoints
         /\ In (PlainCategoryRoute.tv_endpoint category) tv_endpoints)
  /\ (forall endpoint, In endpoint movie_endpoints -> ~ In endpoint tv_endpoints).
Proof.
  split; [|split; [|split]].
  - intros tag. open_queries.
    change (String.eqb "movie" "movie") with true.
    change (String.eqb "tv" "movie") with false.
    change (String.eqb "tv" "tv") with true. cbv iota.
    split; any_label tag; cbn; auto 10.
  - intros category type page. open_queries.
    change (String.eqb "movie" "movie") with true.
    change (String.eqb "tv" "movie") with false. cbv iota.
    split; any_label category; any_label type; cbn; auto 10.
  - intros category. open_queries. split; any_label category; cbn; auto 10.
  - intros endpoint Hm Ht. cbn [movie_endpoints tv_endpoints In] in Hm, Ht.
    repeat match goal with H : _ \/ _ |- _ => destruct H as [H|H] end;
      try contradiction; subst; discriminate.
Qed.

(** X17.  The filter [vote_count.gte] is sent exactly for the movie kind
    with the category 冷门佳片, whatever the type, and its value is 100: as a
    number in the resolver and as a string in the category route, which the
    URL builder prints alike. *)
Theorem vote_count_filter :
  (forall tag type,
      Js.obj_get (params (TmdbUtils.getSearchStrategy tag type)) "vote_count.gte"
      = if String.eqb type "movie" && String.eqb tag "冷门佳片"
        then Some (Js.VNum (Js.Int 100)) else None)
  /\ (forall kind category type page,
         Js.obj_get (snd (CategoryRoute.upstream_query kind category type page))
           "vote_count.gte"
         = if String.eqb kind "movie" && String.eqb category "冷门佳片"
           then Some (Js.VStr "100") else None)
  /\ Js.to_string (Js.VNum (Js.Int 100)) = Js.to_string (Js.VStr "100").
Proof.
  split; [|split; [|reflexivity]].
  - intros tag type. open_queries. by_label; reflexivity.
  - intros kind category type page. open_queries. by_label; reflexivity.
Qed.

(** X18.  A request is sorted exactly when it goes to a discovery
    endpoint: the resolver and the category route set [sort_by] on every
    strategy for /discover/movie and /discover/tv, and on no other. *)
Theorem discovery_is_sorted :
  (forall tag type,
      is_discover (endpoint (TmdbUtils.getSearchStrategy tag type))
      = match Js.obj_get (params (TmdbUtils.getSearchStrategy tag type)) "sort_by" with
        | Some _ => true
        | None => false
        end)
  /\ (forall kind category type page,
         is_discover (fst (CategoryRoute.upstream_query kind category type page))
         = match Js.obj_get (snd (CategoryRoute.upstream_query kind category type page))
                   "sort_by" with
           | Some _ => true
           | None => false
           end).
Proof.
  split.
  - intros tag type. open_queries. any_label type; any_label tag; reflexivity.
  - intros kind category type page. open_queries.
    any_label kind; any_label category; any_label type; reflexivity.
Qed.

(** X22.  In the movie branch of the category route the region and the
    genre depend on the type alone, and the order on both: the four regions
    give their country, 动漫 and 纪录片 their genre; the order is by rating
    for the category 冷门佳片 unless the type names a genre, by popularity
    for every other request with a region or a genre, and absent otherwise. *)
Theorem movie_filters_by_type :
  forall category type page,
    Js.obj_get (snd (CategoryRoute.upstream_query "movie" category type page))
      "with_origin_country"
    = (if String.eqb type "华语" then Some (Js.VStr "CN")
       else if String.eqb type "欧美" then Some (Js.VStr "US")
       else if String.eqb type "韩国" then Some (Js.VStr "KR")
       else if String.eqb type "日本" then Some (Js.VStr "JP")
       else None)
    /\ Js.obj_get (snd (CategoryRoute.upstream_query "movie" category type page))
         "with_genres"
       = (if String.eqb type "动漫" then Some (Js.VStr "16")
          else if String.eqb type "纪录片" then Some (Js.VStr "99")
          else None)
    /\ Js.obj_get (snd (CategoryRoute.upstream_query "movie" category type page)) "sort_by"
       = (if String.eqb type "动漫" || String.eqb type "纪录片"
          then Some (Js.VStr "popularity.desc")
          else if String.eqb category "冷门佳片" then Some (Js.VStr "vote_average.desc")
          else if String.eqb type "华语" || String.eqb type "欧美"
                  || String.eqb type "韩国" || String.eqb type "日本"
          then Some (Js.VStr "popularity.desc")
          else None).
Proof.
  intros category type page. open_queries.
  change (String.eqb "movie" "movie") with true. cbv iota.
  by_label; repeat split; reflexivity.
Qed.

Lemma obj_set_fresh (o : Js.object) (k : string) (v : Js.value) :
  ~ In k (TmdbUtils.keys o) -> Js.obj_set o k v = (o ++ [(k, v)])%list.
Proof.
  induction o as [|[k0 v0] rest IH]; cbn [TmdbUtils.keys map fst In Js.obj_set app];
    [reflexivity|].
  intros H. destruct (String.eqb_spec k0 k) as [->|_]; [exfalso; apply H; now left|].
  rewrite IH; [reflexivity|]. intros Hin. apply H. now right.
Qed.

Lemma clean_from (o acc : Js.object) :
  NoDup (TmdbUtils.keys (acc ++ o)%list) ->
  fold_left (fun acc kv => Js.obj_set acc (fst kv) (snd kv)) o acc = (acc ++ o)%list.
Proof.
  revert acc. induction o as [|[k v] rest IH]; intros acc Hnd; cbn [fold_left fst snd].
  - now rewrite app_nil_r.
  - rewrite obj_set_fresh.
    + rewrite IH; rewrite <- app_assoc; [reflexivity|exact Hnd].
    + unfold TmdbUtils.keys in *. rewrite map_app in Hnd. cbn [map fst] in Hnd.
      apply NoDup_remove_2 in Hnd. intros Hin. apply Hnd. apply in_or_app. now left.
Qed.

(** X19.  The copy that drops the undefined and null parameters returns a
    parameter object as it is, in the same order; so the parameters that the
    search route hands to the URL builder are those of the strategy followed
    by the page. *)
Theorem cleaning_keeps_parameters :
  (forall params, NoDup (TmdbUtils.keys params) -> SearchRoute.clean params = params)
  /\ (forall tag type page,
         SearchRoute.cleanParams (TmdbUtils.getSearchStrategy tag type) page
         = (params (TmdbUtils.getSearchStrategy tag type) ++ [("page", Js.VNum page)])%list).
Proof.
  split.
  - intros params Hnd. unfold SearchRoute.clean. now rewrite clean_from.
  - intros tag type page. open_queries. any_label type; any_label tag; reflexivity.
Qed.

Lemma cleaning_keeps_parameters_witness :
  NoDup (TmdbUtils.keys discover_params)
  /\ SearchRoute.clean discover_params = discover_params.
Proof.
  assert (Hnd : NoDup (TmdbUtils.keys discover_params)).
  { repeat constructor; cbn [In]; intros H;
      repeat match goal with H : _ \/ _ |- _ => destruct H as [H|H] end;
      try discriminate H; exact H. }
  split; [exact Hnd|]. exact (proj1 cleaning_keeps_parameters discover_params Hnd).
Defined.

(** X20.  The key, the language zh-CN and the region CN reach the address
    of every request of the two handlers of route.ts: no strategy carries a
    parameter that would replace one of them. *)
Theorem fixed_parameters_are_sent :
  forall key name,
    In name ["api_key"; "language"; "region"] ->
    (forall tag type page,
        Js.params_get (Js.searchParams (SearchRoute.target_object key tag type page)) name
        = Js.params_get [("api_key", key); ("language", "zh-CN"); ("region", "CN")] name)
    /\ (forall kind category type page,
           Js.params_get
             (Js.searchParams (CategoryRoute.target_object key kind category type page))
             name
           = Js.params_get [("api_key", key); ("language", "zh-CN"); ("region", "CN")]
               name).
Proof.
  intros key name Hin. cbn [In] in Hin.
  split.
  - intros tag type page. unfold SearchRoute.target_object. open_queries.
    any_label type; any_label tag;
      destruct Hin as [<-|[<-|[<-|[]]]]; reflexivity.
  - intros kind category type page. unfold CategoryRoute.target_object. open_queries.
    any_label kind; any_label category; any_label type;
      destruct Hin as [<-|[<-|[<-|[]]]]; reflexivity.
Qed.

Lemma fixed_parameters_are_sent_witness :
  Js.params_get
    (Js.searchParams (SearchRoute.target_object "key" "星际穿越" "movie" (Js.Int 1)))
    "api_key" = Some "key".
Proof.
  exact (proj1 (fixed_parameters_are_sent "key" "api_key" (or_introl eq_refl))
           "星际穿越" "movie" (Js.Int 1)).
Defined.

Lemma percent_is_safe (c : ascii) :
  forallb uri_safe (list_ascii_of_string (Js.percent c)) = true.
Proof.
  destruct c as [[] [] [] [] [] [] [] []]; reflexivity.
Qed.

(** X21.  Whatever the tag, the text that [encodeURIComponent] puts into
    the address of the plain search handler is made of letters, digits, the
    marks - _ . ! ~ * ' ( ) and percent escapes only: it holds no ampersand,
    equals sign, question mark, hash, slash, plus or space, so a tag cannot
    add a parameter to the request. *)
Theorem encoded_tag_is_safe :
  (forall tag c,
      In c (list_ascii_of_string (Js.encodeURIComponent tag)) -> uri_safe c = true)
  /\ forallb (fun c => negb (uri_safe c)) (list_ascii_of_string "&=?#/+ ") = true
  /\ (forall apiKey tag type page,
         PlainSearchRoute.searchUrl apiKey tag type page
         = "https://api.themoviedb.org/3/search/" ++ type ++ "?api_key=" ++ apiKey
           ++ "&language=zh-CN&query=" ++ Js.encodeURIComponent tag
           ++ "&page=" ++ Js.num_to_string page).
Proof.
  split; [|split; reflexivity].
  assert (Happ : forall s t,
             list_ascii_of_string (s ++ t)
             = (list_ascii_of_string s ++ list_ascii_of_string t)%list).
  { induction s as [|a s IH]; intros t; cbn; [reflexivity|now rewrite IH]. }
  induction tag as [|a tag IH]; intros c; cbn [Js.encodeURIComponent];
    [intros []|].
  rewrite Happ. intros Hin. apply in_app_or in Hin as [Hin|Hin]; [|now apply IH].
  destruct (Js.is_alnum a || Js.one_of "-_.!~*'()" a) eqn:E.
  - cbn [list_ascii_of_string In] in Hin. destruct Hin as [<-|[]].
    unfold uri_safe. apply orb_true_iff in E as [E|E]; [now rewrite E|].
    rewrite orb_true_iff. right. unfold Js.one_of in *. cbn [list_ascii_of_string] in *.
    cbn [existsb] in *. rewrite !orb_true_iff in *. intuition.
  - revert c Hin. apply forallb_forall. apply percent_is_safe.
Qed.

Lemma encoded_tag_is_safe_witness :
  Js.encodeURIComponent "a&page=9" = "a%26page%3D9"
  /\ uri_safe "%"%char = true.
Proof.
  split; [reflexivity|].
  apply (proj1 encoded_tag_is_safe "a&page=9" "%"%char). cbn. auto.
Defined.

End Strategies.
